(** * twitterapi-mcp-server: the tool dispatcher, the data cleaners and the
    response shaper of [src/index.ts], embedded in Rocq.

    JavaScript values are a small untyped universe ([value]); a [throw] is the
    left injection of a sum; the process-wide state (the login cookie, the
    disk, the requests sent upstream) is threaded explicitly. *)

From Stdlib Require Import ZArith Lia Ascii String.
From stdpp Require Import base tactics option list strings gmap pretty.

Local Open Scope string_scope.
Local Open Scope Z_scope.

(** ** JavaScript values *)

Module JS.

(** JSON-shaped JavaScript values.  Numbers are the integers: the only
    operations the server applies to a number are its truthiness, [Math.min]
    and [Array.prototype.slice], and the tool schemas declare every numeric
    argument as [integer]. *)
#[local] Unset Elimination Schemes.
Inductive value : Type :=
| VUndefined
| VNull
| VBool (b : bool)
| VNum (n : Z)
| VStr (s : string)
| VArr (xs : list value)
| VObj (fields : list (string * value)).
#[local] Set Elimination Schemes.

(** Structural induction through arrays and objects. *)
Section value_induction.
Variable P : value -> Prop.
Hypothesis P_undefined : P VUndefined.
Hypothesis P_null : P VNull.
Hypothesis P_bool : forall b, P (VBool b).
Hypothesis P_num : forall n, P (VNum n).
Hypothesis P_str : forall s, P (VStr s).
Hypothesis P_arr : forall xs, Forall P xs -> P (VArr xs).
Hypothesis P_obj : forall fields, Forall (fun kv => P (snd kv)) fields -> P (VObj fields).

Fixpoint value_induction (v : value) : P v :=
  match v with
  | VUndefined => P_undefined
  | VNull => P_null
  | VBool b => P_bool b
  | VNum n => P_num n
  | VStr s => P_str s
  | VArr xs =>
      P_arr xs
        ((fix all (l : list value) : Forall P l :=
            match l with
            | [] => @List.Forall_nil _ P
            | x :: l' => @List.Forall_cons _ P x l' (value_induction x) (all l')
            end) xs)
  | VObj fields =>
      P_obj fields
        ((fix all (l : list (string * value)) : Forall (fun kv => P (snd kv)) l :=
            match l with
            | [] => @List.Forall_nil _ _
            | kv :: l' =>
                @List.Forall_cons _ (fun kv => P (snd kv)) kv l'
                  (value_induction (snd kv)) (all l')
            end) fields)
  end.
End value_induction.

(** What a [throw] can carry in this program. *)
Inductive ErrorCode : Type := InvalidParams | MethodNotFound | InternalError.

Inductive Exn : Type :=
| McpError (code : ErrorCode) (message : string)
| Error (message : string)
| TypeError (message : string)
| AxiosError (response : option (value * value)) (message : string).
    (* [response] is [(status, data)] when the server answered at all *)

(** A computation that returns or throws. *)
Definition R (A : Type) : Type := Exn + A.

Definition ok {A} (a : A) : R A := inr a.
Definition raise {A} (e : Exn) : R A := inl e.
Definition rbind {A B} (m : R A) (k : A -> R B) : R B :=
  match m with
  | inl e => inl e
  | inr a => k a
  end.

Declare Scope js_scope.
Delimit Scope js_scope with js.
Notation "'let?' x ':=' m 'in' k" := (rbind m (fun x => k))
  (at level 10, x name, m at level 100, k at level 200) : js_scope.
Local Open Scope js_scope.

(** ToBoolean. *)
Definition truthy (v : value) : bool :=
  match v with
  | VUndefined | VNull => false
  | VBool b => b
  | VNum n => negb (n =? 0)
  | VStr s => negb (String.eqb s "")
  | VArr _ | VObj _ => true
  end.

(** [v === null || v === undefined], the test behind [??] and [?.]. *)
Definition nullish (v : value) : bool :=
  match v with
  | VUndefined | VNull => true
  | _ => false
  end.

Fixpoint lookup_field (fields : list (string * value)) (k : string) : value :=
  match fields with
  | [] => VUndefined
  | (k', v) :: rest => if String.eqb k' k then v else lookup_field rest k
  end.

(** Property read [v.k].  Reading a property of [null] or [undefined] throws;
    on an object it is the own property or [undefined]; on the other
    primitives and on arrays it is [undefined] for every name this program
    reads (none of them is a prototype member). *)
Definition prop (v : value) (k : string) : R value :=
  match v with
  | VUndefined =>
      raise (TypeError ("Cannot read properties of undefined (reading '" ++ k ++ "')"))
  | VNull =>
      raise (TypeError ("Cannot read properties of null (reading '" ++ k ++ "')"))
  | VObj fields => ok (lookup_field fields k)
  | _ => ok VUndefined
  end.

(** [a || b]: [b] is evaluated only when [a] is falsy. *)
Definition or_else (a b : R value) : R value :=
  let? x := a in if truthy x then ok x else b.

(** [a ?? b]: [b] is evaluated only when [a] is null or undefined. *)
Definition coalesce (a b : R value) : R value :=
  let? x := a in if nullish x then b else ok x.

(** [v?.k] *)
Definition opt_prop (v : R value) (k : string) : R value :=
  let? x := v in if nullish x then ok VUndefined else prop x k.

(** [o.k = v] on an object literal under construction. *)
Fixpoint set_field (fields : list (string * value)) (k : string) (v : value)
  : list (string * value) :=
  match fields with
  | [] => [(k, v)]
  | (k', v') :: rest =>
      if String.eqb k' k then (k', v) :: rest else (k', v') :: set_field rest k v
  end.

Definition join_with (sep : string) (parts : list string) : string :=
  match parts with
  | [] => ""
  | p :: ps => fold_left (fun acc q => acc ++ sep ++ q) ps p
  end.

(** ToString, as used by template literals and [Array.prototype.join], for
    integers below 10^21 in magnitude (printed in decimal) and for objects
    that inherit [Object.prototype.toString]. *)
Fixpoint to_string (v : value) : string :=
  match v with
  | VUndefined => "undefined"
  | VNull => "null"
  | VBool true => "true"
  | VBool false => "false"
  | VNum n => pretty n
  | VStr s => s
  | VArr xs =>
      join_with ","
        ((fix elems (l : list value) : list string :=
            match l with
            | [] => []
            | x :: l' => (if nullish x then "" else to_string x) :: elems l'
            end) xs)
  | VObj _ => "[object Object]"
  end.

(** [xs.join(sep)] *)
Definition join (xs : list value) (sep : string) : string :=
  join_with sep (map (fun x => if nullish x then "" else to_string x) xs).

(** [xs.slice(0, end)] for an integer [end]: a negative [end] counts from the
    back of the array. *)
Definition slice0 {A} (xs : list A) (end_ : Z) : list A :=
  let len := Z.of_nat (length xs) in
  let final := if end_ <? 0 then Z.max (len + end_) 0 else Z.min end_ len in
  take (Z.to_nat final) xs.

(** [e.message] and [String(e)] of a thrown error. *)
Definition ErrorCode_number (c : ErrorCode) : Z :=
  match c with
  | InvalidParams => -32602
  | MethodNotFound => -32601
  | InternalError => -32603
  end.

Definition exn_message (e : Exn) : string :=
  match e with
  | McpError code message =>
      "MCP error " ++ pretty (ErrorCode_number code) ++ ": " ++ message
  | Error message | TypeError message | AxiosError _ message => message
  end.

Definition exn_to_string (e : Exn) : string :=
  match e with
  | McpError _ _ => "McpError: " ++ exn_message e
  | Error message => "Error: " ++ message
  | TypeError message => "TypeError: " ++ message
  | AxiosError _ message => "AxiosError: " ++ message
  end.

End JS.

Export JS.
Local Open Scope js_scope.

(** ** Data cleaners for Twitter entities *)

Module DataCleaners.

Definition cleanUser (user : value) : R value :=
  if negb (truthy user) then ok VNull else
  let? id := prop user "id" in
  let? username :=
    or_else (or_else (prop user "userName") (prop user "screen_name"))
            (prop user "username") in
  let? name := prop user "name" in
  let? description := prop user "description" in
  let? verified :=
    or_else (or_else (prop user "isVerified") (prop user "verified"))
            (prop user "isBlueVerified") in
  let? followers := coalesce (prop user "followers") (prop user "followers_count") in
  let? following := coalesce (prop user "following") (prop user "following_count") in
  let? tweets :=
    coalesce (coalesce (prop user "statusesCount") (prop user "statuses_count"))
             (prop user "tweet_count") in
  let? location := or_else (prop user "location") (ok VUndefined) in
  let? url := or_else (prop user "url") (ok VUndefined) in
  let? created := or_else (prop user "createdAt") (prop user "created_at") in
  ok (VObj [("id", id); ("username", username); ("name", name);
            ("description", description); ("verified", verified);
            ("followers", followers); ("following", following);
            ("tweets", tweets); ("location", location); ("url", url);
            ("created", created)]).

Definition cleanTweet (tweet : value) : R value :=
  if negb (truthy tweet) then ok VNull else
  let? id := prop tweet "id" in
  let? text := prop tweet "text" in
  let? author0 := prop tweet "author" in
  let? author := if truthy author0 then cleanUser author0 else ok VUndefined in
  let? created := or_else (prop tweet "createdAt") (prop tweet "created_at") in
  let? retweets :=
    coalesce (prop tweet "retweetCount")
             (opt_prop (prop tweet "public_metrics") "retweet_count") in
  let? likes :=
    coalesce (prop tweet "likeCount")
             (opt_prop (prop tweet "public_metrics") "like_count") in
  let? replies :=
    coalesce (prop tweet "replyCount")
             (opt_prop (prop tweet "public_metrics") "reply_count") in
  let? quotes :=
    coalesce (prop tweet "quoteCount")
             (opt_prop (prop tweet "public_metrics") "quote_count") in
  let? views := prop tweet "viewCount" in
  let? isReply := prop tweet "isReply" in
  let? isRetweet := prop tweet "isRetweet" in
  let? inReplyTo := or_else (prop tweet "inReplyToId") (prop tweet "in_reply_to") in
  let? conversationId := prop tweet "conversationId" in
  let? lang := prop tweet "lang" in
  ok (VObj [("id", id); ("text", text); ("author", author); ("created", created);
            ("retweets", retweets); ("likes", likes); ("replies", replies);
            ("quotes", quotes); ("views", views); ("isReply", isReply);
            ("isRetweet", isRetweet); ("inReplyTo", inReplyTo);
            ("conversationId", conversationId); ("lang", lang)]).

(** [xs.map(f)] for an [f] that may throw: the first throw aborts the map. *)
Fixpoint map_R (f : value -> R value) (xs : list value) : R (list value) :=
  match xs with
  | [] => ok []
  | x :: rest =>
      let? y := f x in
      let? ys := map_R f rest in
      ok (y :: ys)
  end.

(** [ys.filter(Boolean)] *)
Definition filter_Boolean (ys : list value) : list value :=
  List.filter truthy ys.

Definition cleanUserList (users : value) : R (list value) :=
  match users with
  | VArr xs => let? ys := map_R cleanUser xs in ok (filter_Boolean ys)
  | _ => ok []
  end.

Definition cleanTweetList (tweets : value) : R (list value) :=
  match tweets with
  | VArr xs => let? ys := map_R cleanTweet xs in ok (filter_Boolean ys)
  | _ => ok []
  end.

End DataCleaners.

(** ** The server *)

Module TwitterAPIMCPServer.

Import DataCleaners.

(** Text produced by the server, kept symbolic: which serializer was applied
    to which document, and what was appended.  [encode] is the TOON encoder
    of [@toon-format/toon]. *)
Inductive Text : Type :=
| JSON_stringify (doc : value)            (* [JSON.stringify(doc, null, 2)] *)
| encode (doc : value)                    (* [encode(doc)] *)
| text_append (t : Text) (s : string).    (* [t + s] *)

Record ContentItem : Type := { type : string; text : Text }.
Record CallToolResult : Type := { content : list ContentItem }.

Definition text_result (t : Text) : CallToolResult :=
  {| content := [ {| type := "text"; text := t |} ] |}.

(** An HTTP request handed to the axios client. *)
Inductive Method : Type := GET | POST.

Record Request : Type := {
  method : Method;
  endpoint : string;
  headers : list (string * value);
  params : value;
  data : value
}.

(** What the process cannot decide itself: its configuration, the answers of
    the upstream API, the clock, [path.join], and whether the file system
    refuses an operation. *)
Record Env : Type := {
  apiKey : string;
  upstream : Request -> R value;
  now_ISO : string;
  path_join : string -> string -> string;
  mkdir_fault : string -> option Exn;
  write_fault : string -> option Exn
}.

(** The mutable state: the [loginCookie] member, the disk, and the requests
    sent upstream so far. *)
Record World : Type := {
  loginCookie : value;
  dirs : gset string;
  files : gmap string Text;
  wire : list Request
}.

Definition initial_World : World :=
  {| loginCookie := VNull; dirs := ∅; files := ∅; wire := [] |}.

(** Stateful computations that return or throw; a throw keeps the state
    reached so far. *)
Definition M (A : Type) : Type := World -> R A * World.

Definition ret {A} (a : A) : M A := fun w => (ok a, w).
Definition throw {A} (e : Exn) : M A := fun w => (raise e, w).
Definition lift {A} (r : R A) : M A := fun w => (r, w).
Definition bind {A B} (m : M A) (k : A -> M B) : M B :=
  fun w =>
    match m w with
    | (inl e, w') => (inl e, w')
    | (inr a, w') => k a w'
    end.
Definition try_catch {A} (m : M A) (handler : Exn -> M A) : M A :=
  fun w =>
    match m w with
    | (inl e, w') => handler e w'
    | (inr a, w') => (inr a, w')
    end.

Notation "'let*' x ':=' m 'in' k" := (bind m (fun x => k))
  (at level 10, x name, m at level 100, k at level 200) : js_scope.

Definition get_loginCookie : M value := fun w => (ok (loginCookie w), w).
Definition set_loginCookie (v : value) : M unit :=
  fun w =>
    (ok tt, {| loginCookie := v; dirs := dirs w; files := files w; wire := wire w |}).

(** TypeScript casts and parameter defaults.  [args.max_items as number |
    undefined] and [args.pageSize as number]: the tool schemas type both as
    [integer], and the casts are erased at run time.  [as_number] is the
    number that [||], [slice] and [Math.min] read from the value: none from
    [undefined], 0 from [null] and [false], 1 from [true].  A string, an
    array or an object there is outside the embedding, which follows the
    declared type. *)
Definition as_number (v : value) : option Z :=
  match v with
  | VNum n => Some n
  | VNull | VBool false => Some 0
  | VBool true => Some 1
  | _ => None
  end.

Definition default_param (v d : value) : value :=
  match v with
  | VUndefined => d
  | _ => v
  end.

(** [n || d] for an optional number. *)
Definition or_number (n : option Z) (d : Z) : Z :=
  match n with
  | Some k => if k =? 0 then d else k
  | None => d
  end.

(** [{ ...(saveDir && { saveDir }) }.saveDir] *)
Definition spread_saveDir (saveDir : value) : value :=
  if truthy saveDir then saveDir else VUndefined.

(** [s.replace(/[:.]/g, '-')] *)
Fixpoint replace_colon_dot (s : string) : string :=
  match s with
  | EmptyString => EmptyString
  | String c rest =>
      String (if Ascii.eqb c ":"%char || Ascii.eqb c "."%char then "-"%char else c)
             (replace_colon_dot rest)
  end.

Definition newline : string := String (Ascii.ascii_of_nat 10) EmptyString.

Record Options : Type := {
  saveDir : value;
  toolName : value;
  pagination : value
}.

Section WithEnv.

Variable E : Env.

(** [this.apiClient.get] / [this.apiClient.post] *)
Definition send (rq : Request) : M value :=
  fun w =>
    (upstream E rq,
     {| loginCookie := loginCookie w; dirs := dirs w; files := files w;
        wire := (wire w ++ [rq])%list |}).

Definition config_headers (cookie : value) : list (string * value) :=
  let headers := [] in
  let headers :=
    if truthy (VStr (apiKey E)) then set_field headers "x-api-key" (VStr (apiKey E))
    else headers in
  if truthy cookie then set_field headers "Cookie" cookie else headers.

(** The shared [catch] of [makeRequest] and [makePostRequest]. *)
Definition rethrow_api_error (error : Exn) : M value :=
  match error with
  | AxiosError response message =>
      let response_status :=          (* [error.response?.status] *)
        match response with
        | Some (status, _) => ok status
        | None => ok VUndefined
        end in
      let response_data :=            (* [error.response?.data] *)
        match response with
        | Some (_, data) => ok data
        | None => ok VUndefined
        end in
      let* statusCode := lift (or_else response_status (ok (VNum 500))) in
      let* errorMessage :=
        lift (or_else (opt_prop response_data "error") (ok (VStr message))) in
      throw (Error ("TwitterAPI.io API error (" ++ to_string statusCode ++ "): "
                    ++ to_string errorMessage))
  | _ => throw error
  end.

Definition makeRequest (endpoint : string) (params : value) : M value :=
  try_catch
    (let* cookie := get_loginCookie in
     send {| method := GET; endpoint := endpoint;
             headers := config_headers cookie;
             params := params; data := VUndefined |})
    rethrow_api_error.

Definition makePostRequest (endpoint : string) (data : value) : M value :=
  try_catch
    (let* cookie := get_loginCookie in
     send {| method := POST; endpoint := endpoint;
             headers := config_headers cookie;
             params := VUndefined; data := data |})
    rethrow_api_error.

(** [fs.existsSync], [fs.mkdirSync(dir, { recursive: true })] and
    [fs.writeFileSync].  [dirs] records the directories the server has named;
    the missing ancestors that [recursive] creates on the way are not
    tracked. *)
Definition existsSync (dir : value) : M bool :=
  fun w =>
    (ok match dir with
        | VStr d => bool_decide (d ∈ dirs w) || bool_decide (is_Some (files w !! d))
        | _ => false
        end, w).

Definition mkdirSync (dir : value) : M unit :=
  match dir with
  | VStr d =>
      fun w =>
        match mkdir_fault E d with
        | Some e => (raise e, w)
        | None =>
            (ok tt, {| loginCookie := loginCookie w; dirs := {[ d ]} ∪ dirs w;
                       files := files w; wire := wire w |})
        end
  | _ => throw (TypeError "The 'path' argument must be of type string")
  end.

Definition writeFileSync (filepath : string) (contents : Text) : M unit :=
  fun w =>
    match write_fault E filepath with
    | Some e => (raise e, w)
    | None =>
        (ok tt, {| loginCookie := loginCookie w; dirs := dirs w;
                   files := <[ filepath := contents ]> (files w); wire := wire w |})
    end.

Definition saveData (data : value) (dir : value) (toolName : value) : M string :=
  try_catch
    (let* dir_exists := existsSync dir in
     let* _ := if negb dir_exists then mkdirSync dir else ret tt in
     let filename :=
       to_string toolName ++ "_" ++ replace_colon_dot (now_ISO E) ++ ".json" in
     let* filepath :=
       match dir with
       | VStr d => ret (path_join E d filename)
       | _ => throw (TypeError "The 'path' argument must be of type string")
       end in
     let* _ := writeFileSync filepath (JSON_stringify data) in
     ret filepath)
    (fun e => ret ("Error saving: " ++ exn_to_string e)).

Definition formatResponse (cleanedData : value) (options : Options)
  : M CallToolResult :=
  let output := [("data", cleanedData)] in
  let* output :=
    if truthy (pagination options) then
      let* hasNextPage := lift (prop (pagination options) "has_next_page") in
      let* nextCursor := lift (prop (pagination options) "next_cursor") in
      ret (set_field output "pagination"
             (VObj [("hasNextPage", hasNextPage); ("nextCursor", nextCursor)]))
    else ret output in
  let* savedPath :=
    if truthy (saveDir options) && truthy (toolName options)
    then saveData (VObj output) (saveDir options) (toolName options)
    else ret "" in
  let text := encode (VObj output) in
  let text :=
    if truthy (VStr savedPath)
    then text_append text
           (newline ++ newline ++ "[Cleaned data saved to: " ++ savedPath ++ "]")
    else text in
  ret (text_result text).

(** The [pagination] option built from the upstream envelope. *)
Definition pagination_of (data : value) : M value :=
  let* has_next_page := lift (prop data "has_next_page") in
  let* next_cursor := lift (prop data "next_cursor") in
  ret (VObj [("has_next_page", has_next_page); ("next_cursor", next_cursor)]).

Definition getUserByUsername (username saveDir : value) (maxItems : option Z)
  : M CallToolResult :=
  let* data := makeRequest "/user/info" (VObj [("userName", username)]) in
  let* raw := lift (or_else (prop data "data") (ok data)) in
  let* cleaned := lift (cleanUser raw) in
  formatResponse cleaned
    {| saveDir := spread_saveDir saveDir; toolName := VStr "get_user_by_username";
       pagination := VUndefined |}.

Definition getUserById (userId saveDir : value) (maxItems : option Z)
  : M CallToolResult :=
  let* data := makeRequest "/user/info" (VObj [("user_id", userId)]) in
  let* raw := lift (or_else (prop data "data") (ok data)) in
  let* cleaned := lift (cleanUser raw) in
  formatResponse cleaned
    {| saveDir := spread_saveDir saveDir; toolName := VStr "get_user_by_id";
       pagination := VUndefined |}.

Definition getUserTweets (username userId cursor includeReplies saveDir : value)
    (maxItems : option Z) : M CallToolResult :=
  let includeReplies := default_param includeReplies (VBool false) in
  if negb (truthy username) && negb (truthy userId)
  then throw (Error "Either username or userId must be provided")
  else
    let params := [] in
    let params := if truthy username then set_field params "userName" username else params in
    let params := if truthy userId then set_field params "userId" userId else params in
    let params := if truthy cursor then set_field params "cursor" cursor else params in
    let params := set_field params "includeReplies" includeReplies in
    let* data := makeRequest "/user/last_tweets" (VObj params) in
    let* tweets :=
      lift (or_else (or_else (prop data "tweets") (prop data "data")) (ok (VArr []))) in
    let max := or_number maxItems 10 in
    let* cleanedList := lift (cleanTweetList tweets) in
    let cleaned := slice0 cleanedList max in
    let* pagination := pagination_of data in
    formatResponse (VArr cleaned)
      {| saveDir := spread_saveDir saveDir; toolName := VStr "get_user_tweets";
         pagination := pagination |}.

Definition searchTweets (query queryType cursor saveDir : value)
    (maxItems : option Z) : M CallToolResult :=
  let queryType := default_param queryType (VStr "Latest") in
  let params := [("query", query); ("queryType", queryType)] in
  let params := if truthy cursor then set_field params "cursor" cursor else params in
  let* data := makeRequest "/tweet/advanced_search" (VObj params) in
  let* tweets :=
    lift (or_else (or_else (prop data "tweets") (prop data "data")) (ok (VArr []))) in
  let max := or_number maxItems 10 in
  let* cleanedList := lift (cleanTweetList tweets) in
  let cleaned := slice0 cleanedList max in
  let* pagination := pagination_of data in
  formatResponse (VArr cleaned)
    {| saveDir := spread_saveDir saveDir; toolName := VStr "search_tweets";
       pagination := pagination |}.

(** [tweetIds.join(',')]: only an array has a [join] method. *)
Definition join_ids (tweetIds : value) : R value :=
  match tweetIds with
  | VArr ids => ok (VStr (join ids ","))
  | VUndefined | VNull => prop tweetIds "join"
  | _ => raise (TypeError "tweetIds.join is not a function")
  end.

Definition getTweetById (tweetIds saveDir : value) (maxItems : option Z)
  : M CallToolResult :=
  let* tweet_ids := lift (join_ids tweetIds) in
  let* data := makeRequest "/tweets" (VObj [("tweet_ids", tweet_ids)]) in
  let* tweets :=
    lift (or_else (or_else (prop data "tweets") (prop data "data")) (ok (VArr []))) in
  let* cleaned := lift (cleanTweetList tweets) in
  formatResponse (VArr cleaned)
    {| saveDir := spread_saveDir saveDir; toolName := VStr "get_tweet_by_id";
       pagination := VUndefined |}.

Definition getTweetReplies (tweetId cursor sinceTime untilTime saveDir : value)
    (maxItems : option Z) : M CallToolResult :=
  let params := [("tweetId", tweetId)] in
  let params := if truthy cursor then set_field params "cursor" cursor else params in
  let params := if truthy sinceTime then set_field params "sinceTime" sinceTime else params in
  let params := if truthy untilTime then set_field params "untilTime" untilTime else params in
  let* data := makeRequest "/tweet/replies" (VObj params) in
  let* tweets :=
    lift (or_else (or_else (or_else (prop data "tweets") (prop data "replies"))
                           (prop data "data")) (ok (VArr []))) in
  let max := or_number maxItems 10 in
  let* cleanedList := lift (cleanTweetList tweets) in
  let cleaned := slice0 cleanedList max in
  let* pagination := pagination_of data in
  formatResponse (VArr cleaned)
    {| saveDir := spread_saveDir saveDir; toolName := VStr "get_tweet_replies";
       pagination := pagination |}.

Definition getUserFollowers (username cursor : value) (pageSize : option Z)
    (saveDir : value) (maxItems : option Z) : M CallToolResult :=
  let pageSize := default 200 pageSize in
  let params := [("userName", username); ("pageSize", VNum (Z.min pageSize 200))] in
  let params := if truthy cursor then set_field params "cursor" cursor else params in
  let* data := makeRequest "/user/followers" (VObj params) in
  let* users :=
    lift (or_else (or_else (or_else (prop data "users") (prop data "followers"))
                           (prop data "data")) (ok (VArr []))) in
  let max := or_number maxItems 10 in
  let* cleanedList := lift (cleanUserList users) in
  let cleaned := slice0 cleanedList max in
  let* pagination := pagination_of data in
  formatResponse (VArr cleaned)
    {| saveDir := spread_saveDir saveDir; toolName := VStr "get_user_followers";
       pagination := pagination |}.

Definition getUserFollowing (username cursor : value) (pageSize : option Z)
    (saveDir : value) (maxItems : option Z) : M CallToolResult :=
  let pageSize := default 200 pageSize in
  let params := [("userName", username); ("pageSize", VNum (Z.min pageSize 200))] in
  let params := if truthy cursor then set_field params "cursor" cursor else params in
  let* data := makeRequest "/user/followings" (VObj params) in
  let* users :=
    lift (or_else (or_else (or_else (prop data "followings") (prop data "users"))
                           (prop data "data")) (ok (VArr []))) in
  let max := or_number maxItems 10 in
  let* cleanedList := lift (cleanUserList users) in
  let cleaned := slice0 cleanedList max in
  let* pagination := pagination_of data in
  formatResponse (VArr cleaned)
    {| saveDir := spread_saveDir saveDir; toolName := VStr "get_user_following";
       pagination := pagination |}.

Definition searchUsers (query cursor saveDir : value) (maxItems : option Z)
  : M CallToolResult :=
  let params := [("query", query)] in
  let params := if truthy cursor then set_field params "cursor" cursor else params in
  let* data := makeRequest "/user/search" (VObj params) in
  let* users :=
    lift (or_else (or_else (prop data "users") (prop data "data")) (ok (VArr []))) in
  let max := or_number maxItems 10 in
  let* cleanedList := lift (cleanUserList users) in
  let cleaned := slice0 cleanedList max in
  let* pagination := pagination_of data in
  formatResponse (VArr cleaned)
    {| saveDir := spread_saveDir saveDir; toolName := VStr "search_users";
       pagination := pagination |}.

(** [v === 'success'] and friends. *)
Definition strict_eq_string (v : value) (s : string) : bool :=
  match v with
  | VStr s' => String.eqb s' s
  | _ => false
  end.

(** [v.length > 0] for a truthy [v]: the length of an array or a string, the
    [length] property of an object when it is a number or a boolean, and
    [undefined > 0], which is false, for a number or a boolean. *)
Definition length_positive (v : value) : bool :=
  match v with
  | VArr xs => negb (Nat.eqb (length xs) 0)
  | VStr s => negb (Nat.eqb (String.length s) 0)
  | VObj fields =>
      match lookup_field fields "length" with
      | VNum n => 0 <? n
      | VBool b => b
      | _ => false
      end
  | _ => false
  end.

Definition login_failure (error : Exn) : CallToolResult :=
  text_result
    (JSON_stringify (VObj [("success", VBool false);
                           ("error", VStr (exn_message error))])).

(** The [try] block of [loginUser]. *)
Definition login_attempt (userName email password proxy totpSecret : value)
  : M CallToolResult :=
  let loginPayload :=
    [("user_name", userName); ("email", email); ("password", password);
     ("proxy", proxy)] in
  let loginPayload :=
    if truthy totpSecret then set_field loginPayload "totp_secret" totpSecret
    else loginPayload in
  let* loginData := makePostRequest "/user_login_v2" (VObj loginPayload) in
  let* login_cookie := lift (prop loginData "login_cookie") in
  let* _ := if truthy login_cookie then set_loginCookie login_cookie else ret tt in
  let* status := lift (prop loginData "status") in
  let* message :=
    lift (or_else (prop loginData "msg") (ok (VStr "Login successful"))) in
  let* login_cookie := lift (prop loginData "login_cookie") in
  ret (text_result
         (JSON_stringify
            (VObj [("success", VBool (strict_eq_string status "success"));
                   ("message", message);
                   ("login_cookie", login_cookie)]))).

Definition loginUser (userName email password proxy totpSecret : value)
  : M CallToolResult :=
  try_catch
    (login_attempt userName email password proxy totpSecret)
    (fun error => ret (login_failure error)).

Definition createTweet (tweetText proxy replyToTweetId attachmentUrl mediaIds : value)
  : M CallToolResult :=
  let* cookie := get_loginCookie in
  if negb (truthy cookie)
  then throw (Error "Must login first before creating tweets")
  else
    let tweetData :=
      [("login_cookies", cookie); ("tweet_text", tweetText); ("proxy", proxy)] in
    let tweetData :=
      if truthy replyToTweetId
      then set_field tweetData "reply_to_tweet_id" replyToTweetId else tweetData in
    let tweetData :=
      if truthy attachmentUrl
      then set_field tweetData "attachment_url" attachmentUrl else tweetData in
    let tweetData :=
      if truthy mediaIds && length_positive mediaIds
      then set_field tweetData "media_ids" mediaIds else tweetData in
    let* data := makePostRequest "/create_tweet_v2" (VObj tweetData) in
    ret (text_result (JSON_stringify data)).

(** [args.k] *)
Definition arg (args : value) (k : string) : M value := lift (prop args k).

(** The [switch (name)] of the CallToolRequest handler. *)
Definition dispatch (name : string) (args : value) : M CallToolResult :=
  if String.eqb name "get_user_by_username" then
    let* username := arg args "username" in
    let* save_dir := arg args "save_dir" in
    let* max_items := arg args "max_items" in
    getUserByUsername username save_dir (as_number max_items)
  else if String.eqb name "get_user_by_id" then
    let* user_id := arg args "user_id" in
    let* save_dir := arg args "save_dir" in
    let* max_items := arg args "max_items" in
    getUserById user_id save_dir (as_number max_items)
  else if String.eqb name "get_user_tweets" then
    let* username := arg args "username" in
    let* userId := arg args "userId" in
    let* cursor := arg args "cursor" in
    let* includeReplies := arg args "includeReplies" in
    let* save_dir := arg args "save_dir" in
    let* max_items := arg args "max_items" in
    getUserTweets username userId cursor includeReplies save_dir (as_number max_items)
  else if String.eqb name "search_tweets" then
    let* query := arg args "query" in
    let* queryType := arg args "queryType" in
    let* cursor := arg args "cursor" in
    let* save_dir := arg args "save_dir" in
    let* max_items := arg args "max_items" in
    searchTweets query queryType cursor save_dir (as_number max_items)
  else if String.eqb name "get_tweet_by_id" then
    let* tweet_ids := arg args "tweet_ids" in
    let* save_dir := arg args "save_dir" in
    let* max_items := arg args "max_items" in
    getTweetById tweet_ids save_dir (as_number max_items)
  else if String.eqb name "get_tweet_replies" then
    let* tweetId := arg args "tweetId" in
    let* cursor := arg args "cursor" in
    let* sinceTime := arg args "sinceTime" in
    let* untilTime := arg args "untilTime" in
    let* save_dir := arg args "save_dir" in
    let* max_items := arg args "max_items" in
    getTweetReplies tweetId cursor sinceTime untilTime save_dir (as_number max_items)
  else if String.eqb name "get_user_followers" then
    let* username := arg args "username" in
    let* cursor := arg args "cursor" in
    let* pageSize := arg args "pageSize" in
    let* save_dir := arg args "save_dir" in
    let* max_items := arg args "max_items" in
    getUserFollowers username cursor (as_number pageSize) save_dir (as_number max_items)
  else if String.eqb name "get_user_following" then
    let* username := arg args "username" in
    let* cursor := arg args "cursor" in
    let* pageSize := arg args "pageSize" in
    let* save_dir := arg args "save_dir" in
    let* max_items := arg args "max_items" in
    getUserFollowing username cursor (as_number pageSize) save_dir (as_number max_items)
  else if String.eqb name "search_users" then
    let* query := arg args "query" in
    let* cursor := arg args "cursor" in
    let* save_dir := arg args "save_dir" in
    let* max_items := arg args "max_items" in
    searchUsers query cursor save_dir (as_number max_items)
  else if String.eqb name "login_user" then
    let* user_name := arg args "user_name" in
    let* email := arg args "email" in
    let* password := arg args "password" in
    let* proxy := arg args "proxy" in
    let* totp_secret := arg args "totp_secret" in
    loginUser user_name email password proxy totp_secret
  else if String.eqb name "create_tweet" then
    let* tweet_text := arg args "tweet_text" in
    let* proxy := arg args "proxy" in
    let* reply_to_tweet_id := arg args "reply_to_tweet_id" in
    let* attachment_url := arg args "attachment_url" in
    let* media_ids := arg args "media_ids" in
    createTweet tweet_text proxy reply_to_tweet_id attachment_url media_ids
  else
    throw (McpError MethodNotFound ("Unknown tool: " ++ name)).

(** The CallToolRequest handler: [request.params] is [{ name, arguments }]. *)
Definition CallTool (name : string) (args : value) : M CallToolResult :=
  try_catch
    (if negb (truthy args)
     then throw (McpError InvalidParams "Missing arguments")
     else dispatch name args)
    (fun error =>
       match error with
       | McpError _ _ => throw error
       | _ =>
           let message := exn_message error in
           throw (McpError InternalError ("TwitterAPI.io error: " ++ message))
       end).

End WithEnv.

(** The tool names of the ListTools table. *)
Definition tool_names : list string :=
  ["get_user_by_username"; "get_user_by_id"; "get_user_tweets"; "search_tweets";
   "get_tweet_by_id"; "get_tweet_replies"; "get_user_followers";
   "get_user_following"; "search_users"; "login_user"; "create_tweet"].

(** The [required] list of each tool's input schema. *)
Definition required_fields (name : string) : list string :=
  if String.eqb name "get_user_by_username" then ["username"]
  else if String.eqb name "get_user_by_id" then ["user_id"]
  else if String.eqb name "get_user_tweets" then []
  else if String.eqb name "search_tweets" then ["query"]
  else if String.eqb name "get_tweet_by_id" then ["tweet_ids"]
  else if String.eqb name "get_tweet_replies" then ["tweetId"]
  else if String.eqb name "get_user_followers" then ["username"]
  else if String.eqb name "get_user_following" then ["username"]
  else if String.eqb name "search_users" then ["query"]
  else if String.eqb name "login_user" then ["user_name"; "email"; "password"; "proxy"]
  else if String.eqb name "create_tweet" then ["tweet_text"; "proxy"]
  else [].

End TwitterAPIMCPServer.

Import DataCleaners TwitterAPIMCPServer.

(** ** Vocabulary of the statements *)

(** The value of [v.k] where the read cannot throw. *)
Definition field (v : value) (k : string) : value :=
  match v with
  | VObj fields => lookup_field fields k
  | _ => VUndefined
  end.

(** [v.k?.k'] *)
Definition nested_field (v : value) (k k' : string) : value :=
  let inner := field v k in
  if nullish inner then VUndefined else field inner k'.

Definition is_null (v : value) : bool :=
  match v with
  | VNull => true
  | _ => false
  end.

Definition is_array (v : value) : bool :=
  match v with
  | VArr _ => true
  | _ => false
  end.

(** The first candidate that is neither null nor undefined; when there is
    none, the last candidate (itself null or undefined). *)
Fixpoint first_defined (candidates : list value) : value :=
  match candidates with
  | [] => VUndefined
  | [c] => c
  | c :: rest => if nullish c then first_defined rest else c
  end.

(** "First non-null wins", as the specification words the verified flag:
    the first candidate that is not null (nor absent). *)
Definition first_non_null (candidates : list value) : value :=
  first_defined candidates.

(** The first truthy candidate; when there is none, the last candidate. *)
Fixpoint first_truthy (candidates : list value) : value :=
  match candidates with
  | [] => VUndefined
  | [c] => c
  | c :: rest => if truthy c then c else first_truthy rest
  end.

Definition verified_candidates (user : value) : list value :=
  [field user "isVerified"; field user "verified"; field user "isBlueVerified"].

(** The canonical shapes, as values. *)
Definition user_shape (user : value) : value :=
  VObj [("id", field user "id");
        ("username",
          first_truthy [field user "userName"; field user "screen_name";
                        field user "username"]);
        ("name", field user "name");
        ("description", field user "description");
        ("verified", first_truthy (verified_candidates user));
        ("followers",
          first_defined [field user "followers"; field user "followers_count"]);
        ("following",
          first_defined [field user "following"; field user "following_count"]);
        ("tweets",
          first_defined [field user "statusesCount"; field user "statuses_count";
                         field user "tweet_count"]);
        ("location", first_truthy [field user "location"; VUndefined]);
        ("url", first_truthy [field user "url"; VUndefined]);
        ("created", first_truthy [field user "createdAt"; field user "created_at"])].

Definition normal_user (user : value) : value :=
  if truthy user then user_shape user else VNull.

Definition tweet_shape (tweet : value) : value :=
  VObj [("id", field tweet "id");
        ("text", field tweet "text");
        ("author",
          if truthy (field tweet "author") then normal_user (field tweet "author")
          else VUndefined);
        ("created", first_truthy [field tweet "createdAt"; field tweet "created_at"]);
        ("retweets",
          first_defined [field tweet "retweetCount";
                         nested_field tweet "public_metrics" "retweet_count"]);
        ("likes",
          first_defined [field tweet "likeCount";
                         nested_field tweet "public_metrics" "like_count"]);
        ("replies",
          first_defined [field tweet "replyCount";
                         nested_field tweet "public_metrics" "reply_count"]);
        ("quotes",
          first_defined [field tweet "quoteCount";
                         nested_field tweet "public_metrics" "quote_count"]);
        ("views", field tweet "viewCount");
        ("isReply", field tweet "isReply");
        ("isRetweet", field tweet "isRetweet");
        ("inReplyTo", first_truthy [field tweet "inReplyToId"; field tweet "in_reply_to"]);
        ("conversationId", field tweet "conversationId");
        ("lang", field tweet "lang")].

Definition normal_tweet (tweet : value) : value :=
  if truthy tweet then tweet_shape tweet else VNull.

(** The state after one more request went upstream. *)
Definition with_request (w : World) (rq : Request) : World :=
  {| loginCookie := loginCookie w; dirs := dirs w; files := files w;
     wire := (wire w ++ [rq])%list |}.

Definition with_loginCookie (w : World) (cookie : value) : World :=
  {| loginCookie := cookie; dirs := dirs w; files := files w; wire := wire w |}.

(** The requests [makeRequest] and [makePostRequest] build in state [w]. *)
Definition get_request (E : Env) (w : World) (endpoint : string) (params : value)
  : Request :=
  {| method := GET; endpoint := endpoint;
     headers := config_headers E (loginCookie w);
     params := params; data := VUndefined |}.

Definition post_request (E : Env) (w : World) (endpoint : string) (data : value)
  : Request :=
  {| method := POST; endpoint := endpoint;
     headers := config_headers E (loginCookie w);
     params := VUndefined; data := data |}.

(** The error a failed request surfaces as. *)
Definition api_error (e : Exn) : Exn :=
  match e with
  | AxiosError response message =>
      let status := match response with Some (st, _) => st | None => VUndefined end in
      let data := match response with Some (_, d) => d | None => VUndefined end in
      Error ("TwitterAPI.io API error ("
             ++ to_string (first_truthy [status; VNum 500]) ++ "): "
             ++ to_string (first_truthy
                             [if nullish data then VUndefined else field data "error";
                              VStr message]))
  | _ => e
  end.

(** The envelope [{ data, pagination? }] of [formatResponse]. *)
Definition envelope (cleanedData pagination : value) : value :=
  VObj (if truthy pagination
        then [("data", cleanedData);
              ("pagination",
                VObj [("hasNextPage", field pagination "has_next_page");
                      ("nextCursor", field pagination "next_cursor")])]
        else [("data", cleanedData)]).

Definition saved_note (savedPath : string) : string :=
  newline ++ newline ++ "[Cleaned data saved to: " ++ savedPath ++ "]".

Definition saved_file_path (E : Env) (dir toolName : string) : string :=
  path_join E dir (toolName ++ "_" ++ replace_colon_dot (now_ISO E) ++ ".json").

(** The document a text serializes, whatever was appended after it. *)
Fixpoint doc_of (t : Text) : option value :=
  match t with
  | JSON_stringify doc => Some doc
  | encode doc => Some doc
  | text_append t' _ => doc_of t'
  end.

Definition envelope_of (r : CallToolResult) : option value :=
  match content r with
  | [item] => doc_of (text item)
  | _ => None
  end.

(** The [data] member of the envelope in a response. *)
Definition data_of (r : CallToolResult) : option value :=
  match envelope_of r with
  | Some doc => Some (field doc "data")
  | None => None
  end.

(** What [JSON.parse(JSON.stringify(v))] keeps of [v]: a property whose value
    is [undefined] is omitted, an [undefined] array element becomes [null]. *)
Definition json_members (f : value -> value)
  : list (string * value) -> list (string * value) :=
  fix members (l : list (string * value)) : list (string * value) :=
    match l with
    | [] => []
    | (k, VUndefined) :: l' => members l'
    | (k, x) :: l' => (k, f x) :: members l'
    end.

Fixpoint json_doc (v : value) : value :=
  match v with
  | VUndefined => VNull
  | VArr xs => VArr (map json_doc xs)
  | VObj fields => VObj (json_members json_doc fields)
  | _ => v
  end.

(** [JSON.parse] of a text this server wrote. *)
Definition JSON_parse (t : Text) : option value :=
  match t with
  | JSON_stringify VUndefined => None
  | JSON_stringify doc => Some (json_doc doc)
  | _ => None
  end.

(** [fs.existsSync(d)] in state [w]. *)
Definition dir_exists (w : World) (d : string) : bool :=
  bool_decide (d ∈ dirs w) || bool_decide (is_Some (files w !! d)).

(** ** Sample inputs *)

(** A user whose legacy flag is a defined [false] and whose blue flag is set. *)
Definition blue_user : value :=
  VObj [("id", VStr "44196397"); ("userName", VStr "alice");
        ("isVerified", VBool false); ("isBlueVerified", VBool true)].

(** A user with a flattened count of zero next to a non-zero fallback. *)
Definition quiet_user : value :=
  VObj [("id", VStr "7"); ("userName", VStr "bob"); ("followers", VNum 0);
        ("followers_count", VNum 5); ("statusesCount", VNum 0);
        ("tweet_count", VNum 9)].

Definition quiet_tweet : value :=
  VObj [("id", VStr "100"); ("text", VStr "hello"); ("retweetCount", VNum 0);
        ("public_metrics", VObj [("retweet_count", VNum 7); ("like_count", VNum 3)])].

(** The list-returning tools that pass their cleaned list through
    [slice(0, max)]. *)
Inductive TruncatingTool : Type :=
| GetUserTweets
| SearchTweets
| GetTweetReplies
| GetUserFollowers
| GetUserFollowing
| SearchUsers.

Definition tool_name (tool : TruncatingTool) : string :=
  match tool with
  | GetUserTweets => "get_user_tweets"
  | SearchTweets => "search_tweets"
  | GetTweetReplies => "get_tweet_replies"
  | GetUserFollowers => "get_user_followers"
  | GetUserFollowing => "get_user_following"
  | SearchUsers => "search_users"
  end.

(** The member of the upstream body each tool takes its list from. *)
Definition upstream_items (tool : TruncatingTool) (body : value) : R value :=
  match tool with
  | GetUserTweets | SearchTweets =>
      or_else (or_else (prop body "tweets") (prop body "data")) (ok (VArr []))
  | GetTweetReplies =>
      or_else (or_else (or_else (prop body "tweets") (prop body "replies"))
                       (prop body "data")) (ok (VArr []))
  | GetUserFollowers =>
      or_else (or_else (or_else (prop body "users") (prop body "followers"))
                       (prop body "data")) (ok (VArr []))
  | GetUserFollowing =>
      or_else (or_else (or_else (prop body "followings") (prop body "users"))
                       (prop body "data")) (ok (VArr []))
  | SearchUsers =>
      or_else (or_else (prop body "users") (prop body "data")) (ok (VArr []))
  end.

Definition clean_items (tool : TruncatingTool) : value -> R (list value) :=
  match tool with
  | GetUserTweets | SearchTweets | GetTweetReplies => cleanTweetList
  | GetUserFollowers | GetUserFollowing | SearchUsers => cleanUserList
  end.

(** The bound a call truncates to, [max_items || 10], for a [max_items] of
    the declared type. *)
Definition truncation_bound (args : value) : Z :=
  or_number (as_number (field args "max_items")) 10.

(** The bodies [loginUser] and [createTweet] post. *)
Definition login_payload (userName email password proxy totpSecret : value) : value :=
  VObj (let loginPayload :=
          [("user_name", userName); ("email", email); ("password", password);
           ("proxy", proxy)] in
        if truthy totpSecret then set_field loginPayload "totp_secret" totpSecret
        else loginPayload).

Definition tweet_data (cookie tweetText proxy replyToTweetId attachmentUrl mediaIds : value)
  : value :=
  VObj (let tweetData :=
          [("login_cookies", cookie); ("tweet_text", tweetText); ("proxy", proxy)] in
        let tweetData :=
          if truthy replyToTweetId
          then set_field tweetData "reply_to_tweet_id" replyToTweetId else tweetData in
        let tweetData :=
          if truthy attachmentUrl
          then set_field tweetData "attachment_url" attachmentUrl else tweetData in
        if truthy mediaIds && length_positive mediaIds
        then set_field tweetData "media_ids" mediaIds else tweetData).

(** The result [loginUser] reports for an upstream answer [body]. *)
Definition login_report (body : value) : value :=
  VObj [("success", VBool (strict_eq_string (field body "status") "success"));
        ("message", first_truthy [field body "msg"; VStr "Login successful"]);
        ("login_cookie", field body "login_cookie")].

(** [k in v] for an object [v]. *)
Definition has_field (v : value) (k : string) : bool :=
  match v with
  | VObj fields => existsb (fun kv => String.eqb (fst kv) k) fields
  | _ => false
  end.

(** An environment whose upstream answers every request by [answer], with
    a disk that accepts every write. *)
Definition stub_Env (answer : Request -> R value) : Env :=
  {| apiKey := "test_api_key";
     upstream := answer;
     now_ISO := "2024-05-01T12:30:45.123Z";
     path_join := fun dir file => dir ++ "/" ++ file;
     mkdir_fault := fun _ => None;
     write_fault := fun _ => None |}.


Definition sample_tweet (id : string) : value :=
  VObj [("id", VStr id); ("text", VStr "gm")].

Definition three_tweets : value :=
  VObj [("tweets", VArr [sample_tweet "1"; sample_tweet "2"; sample_tweet "3"]);
        ("has_next_page", VBool true); ("next_cursor", VStr "abc")].


Definition negative_bound_args : value :=
  VObj [("query", VStr "AI"); ("max_items", VNum (-1))].

Definition two_items_args : value :=
  VObj [("query", VStr "AI"); ("queryType", VStr "Top"); ("max_items", VNum 2)].

Definition eleven_ids : list string :=
  ["1"; "2"; "3"; "4"; "5"; "6"; "7"; "8"; "9"; "10"; "11"].

Definition eleven_tweets : value :=
  VObj [("tweets", VArr (map sample_tweet eleven_ids))].

Definition eleven_ids_args : value :=
  VObj [("tweet_ids", VArr (map VStr eleven_ids))].

Definition one_item_args : value :=
  VObj [("tweet_ids", VArr (map VStr eleven_ids)); ("max_items", VNum 1)].

Definition three_tweets_Env : Env := stub_Env (fun _ => ok three_tweets).

Definition eleven_tweets_Env : Env := stub_Env (fun _ => ok eleven_tweets).

(** An upstream that knows one user. *)
Definition one_user_Env : Env :=
  stub_Env (fun _ => ok (VObj [("data", VObj [("id", VStr "7"); ("userName", VStr "bob")])])).

(** An upstream whose login answer reports a failure and still carries a
    cookie. *)
Definition failed_login_with_cookie : value :=
  VObj [("status", VStr "error"); ("msg", VStr "Suspicious login");
        ("login_cookie", VStr "auth_token=abc")].

Definition failed_login_Env : Env := stub_Env (fun _ => ok failed_login_with_cookie).

(** A login answer whose [login_cookie] field is present and empty. *)
Definition login_with_empty_cookie : value :=
  VObj [("status", VStr "success"); ("msg", VStr "ok"); ("login_cookie", VStr "")].

Definition empty_cookie_Env : Env := stub_Env (fun _ => ok login_with_empty_cookie).

Definition logged_in_World : World :=
  {| loginCookie := VStr "auth_token=old"; dirs := ∅; files := ∅; wire := [] |}.

(** An upstream that rejects every request with HTTP 401. *)
Definition unauthorized_Env : Env :=
  stub_Env (fun _ =>
    raise (AxiosError (Some (VNum 401, VObj [("error", VStr "Unauthorized")]))
             "Request failed with status code 401")).

Definition login_args : value :=
  VObj [("user_name", VStr "bob"); ("email", VStr "bob@example.com");
        ("password", VStr "hunter2"); ("proxy", VStr "http://u:p@10.0.0.1:8080")].

Definition tweet_args : value :=
  VObj [("tweet_text", VStr "gm"); ("proxy", VStr "http://u:p@10.0.0.1:8080")].

(** The upstream of the end-to-end example: twenty tweets and a next page. *)
Definition twenty_ids : list string :=
  ["1"; "2"; "3"; "4"; "5"; "6"; "7"; "8"; "9"; "10";
   "11"; "12"; "13"; "14"; "15"; "16"; "17"; "18"; "19"; "20"].

Definition twenty_tweets : value :=
  VObj [("tweets", VArr (map sample_tweet twenty_ids));
        ("has_next_page", VBool true); ("next_cursor", VStr "abc")].

Definition twenty_tweets_Env : Env := stub_Env (fun _ => ok twenty_tweets).

Definition top_AI_args : value :=
  VObj [("query", VStr "AI"); ("queryType", VStr "Top")].

Definition saving_args : value :=
  VObj [("query", VStr "AI"); ("save_dir", VStr "out")].

(** ** Footprints: what a computation may do to the state *)

Definition same_cookie (w w' : World) : Prop := loginCookie w' = loginCookie w.

Definition same_disk (w w' : World) : Prop :=
  files w' = files w /\ dirs w' = dirs w.

Definition same_wire (w w' : World) : Prop := wire w' = wire w.

(** The cookie is the one before, or a freshly stored truthy one. *)
Definition cookie_kept_or_set (w w' : World) : Prop :=
  loginCookie w' = loginCookie w \/ truthy (loginCookie w') = true.

(** Every run of [m] relates the state before to the state after by [S],
    whether [m] returns or throws. *)
Definition keeps (S : World -> World -> Prop) {A} (m : M A) : Prop :=
  forall w, S w (snd (m w)).

Definition is_McpError (e : Exn) : bool :=
  match e with
  | McpError _ _ => true
  | _ => false
  end.

(** What is thrown is never an [McpError]. *)
Definition fails_softly {A} (r : R A) : Prop :=
  forall e, r = inl e -> is_McpError e = false.

Definition throws_softly {A} (m : M A) : Prop :=
  forall w e w', m w = (inl e, w') -> is_McpError e = false.

(** The upstream route of each tool. *)
Definition route_of (name : string) : option (Method * string) :=
  if String.eqb name "get_user_by_username" then Some (GET, "/user/info")
  else if String.eqb name "get_user_by_id" then Some (GET, "/user/info")
  else if String.eqb name "get_user_tweets" then Some (GET, "/user/last_tweets")
  else if String.eqb name "search_tweets" then Some (GET, "/tweet/advanced_search")
  else if String.eqb name "get_tweet_by_id" then Some (GET, "/tweets")
  else if String.eqb name "get_tweet_replies" then Some (GET, "/tweet/replies")
  else if String.eqb name "get_user_followers" then Some (GET, "/user/followers")
  else if String.eqb name "get_user_following" then Some (GET, "/user/followings")
  else if String.eqb name "search_users" then Some (GET, "/user/search")
  else if String.eqb name "login_user" then Some (POST, "/user_login_v2")
  else if String.eqb name "create_tweet" then Some (POST, "/create_tweet_v2")
  else None.

(** [m] sends nothing, or one request on [route] carrying the headers of the
    state it started in. *)
Definition sends_on (E : Env) (route : option (Method * string)) {A} (m : M A)
  : Prop :=
  forall w,
    wire (snd (m w)) = wire w \/
    exists rq,
      wire (snd (m w)) = (wire w ++ [rq])%list /\
      route = Some (method rq, endpoint rq) /\
      headers rq = config_headers E (loginCookie w).

(** A session: tool calls handled one after the other. *)
Fixpoint run_calls (E : Env) (calls : list (string * value)) (w : World) : World :=
  match calls with
  | [] => w
  | (name, args) :: rest => run_calls E rest (snd (CallTool E name args w))
  end.

(** The keys of the canonical shapes, in order. *)
Definition user_keys : list string :=
  ["id"; "username"; "name"; "description"; "verified"; "followers"; "following";
   "tweets"; "location"; "url"; "created"].

Definition tweet_keys : list string :=
  ["id"; "text"; "author"; "created"; "retweets"; "likes"; "replies"; "quotes";
   "views"; "isReply"; "isRetweet"; "inReplyTo"; "conversationId"; "lang"].

Definition keys_of (v : value) : option (list string) :=
  match v with
  | VObj fields => Some (map fst fields)
  | _ => None
  end.

(** The call the [switch] of the handler makes for each tool name, on an
    argument object [args]. *)
Inductive tool_call (E : Env) (args : value) : string -> M CallToolResult -> Prop :=
| call_get_user_by_username :
    tool_call E args "get_user_by_username"
      (getUserByUsername E (field args "username") (field args "save_dir")
         (as_number (field args "max_items")))
| call_get_user_by_id :
    tool_call E args "get_user_by_id"
      (getUserById E (field args "user_id") (field args "save_dir")
         (as_number (field args "max_items")))
| call_get_user_tweets :
    tool_call E args "get_user_tweets"
      (getUserTweets E (field args "username") (field args "userId")
         (field args "cursor") (field args "includeReplies") (field args "save_dir")
         (as_number (field args "max_items")))
| call_search_tweets :
    tool_call E args "search_tweets"
      (searchTweets E (field args "query") (field args "queryType")
         (field args "cursor") (field args "save_dir")
         (as_number (field args "max_items")))
| call_get_tweet_by_id :
    tool_call E args "get_tweet_by_id"
      (getTweetById E (field args "tweet_ids") (field args "save_dir")
         (as_number (field args "max_items")))
| call_get_tweet_replies :
    tool_call E args "get_tweet_replies"
      (getTweetReplies E (field args "tweetId") (field args "cursor")
         (field args "sinceTime") (field args "untilTime") (field args "save_dir")
         (as_number (field args "max_items")))
| call_get_user_followers :
    tool_call E args "get_user_followers"
      (getUserFollowers E (field args "username") (field args "cursor")
         (as_number (field args "pageSize")) (field args "save_dir")
         (as_number (field args "max_items")))
| call_get_user_following :
    tool_call E args "get_user_following"
      (getUserFollowing E (field args "username") (field args "cursor")
         (as_number (field args "pageSize")) (field args "save_dir")
         (as_number (field args "max_items")))
| call_search_users :
    tool_call E args "search_users"
      (searchUsers E (field args "query") (field args "cursor")
         (field args "save_dir") (as_number (field args "max_items")))
| call_login_user :
    tool_call E args "login_user"
      (loginUser E (field args "user_name") (field args "email")
         (field args "password") (field args "proxy") (field args "totp_secret"))
| call_create_tweet :
    tool_call E args "create_tweet"
      (createTweet E (field args "tweet_text") (field args "proxy")
         (field args "reply_to_tweet_id") (field args "attachment_url")
         (field args "media_ids")).

(** The [catch] of the handler: an [McpError] passes, anything else becomes
    an internal error. *)
Definition wrap_error (error : Exn) : Exn :=
  match error with
  | McpError _ _ => error
  | _ => McpError InternalError ("TwitterAPI.io error: " ++ exn_message error)
  end.

Definition wrap_outcome {A} (outcome : R A * World) : R A * World :=
  match outcome with
  | (inl e, w') => (inl (wrap_error e), w')
  | (inr a, w') => (inr a, w')
  end.

(** The upstream fields the cleaners read. *)
Definition user_source_fields : list string :=
  ["id"; "userName"; "screen_name"; "username"; "name"; "description";
   "isVerified"; "verified"; "isBlueVerified"; "followers"; "followers_count";
   "following"; "following_count"; "statusesCount"; "statuses_count";
   "tweet_count"; "location"; "url"; "createdAt"; "created_at"].

Definition tweet_source_fields : list string :=
  ["id"; "text"; "author"; "createdAt"; "created_at"; "retweetCount";
   "public_metrics"; "likeCount"; "replyCount"; "quoteCount"; "viewCount";
   "isReply"; "isRetweet"; "inReplyToId"; "in_reply_to"; "conversationId"; "lang"].

(** A raw user with every field the cleaner can read, and extra ones. *)
Definition full_user : value :=
  VObj [("id", VStr "7"); ("userName", VStr "bob"); ("name", VStr "Bob");
        ("description", VStr "hi"); ("verified", VBool false);
        ("followers", VNum 3); ("following", VNull); ("statusesCount", VNum 12);
        ("location", VStr "Paris"); ("url", VStr "https://example.com");
        ("createdAt", VStr "2020-01-01"); ("profile_image_url", VStr "x.png")].

(** ** Start-up configuration *)

(** [process.env]: a variable is a string or undefined. *)
Definition ProcessEnv : Type := string -> value.

(** [a || b] on values already at hand. *)
Definition js_or (a b : value) : value := if truthy a then a else b.

(** The axios configuration the constructor builds; [httpsAgent] records the
    URL the [HttpsProxyAgent] is created for, [proxy] the override of axios'
    own proxy handling. *)
Record AxiosConfig : Type := {
  baseURL : string;
  timeout : Z;
  default_headers : list (string * string);
  httpsAgent : option value;
  proxy : option bool
}.

Definition constructor_apiKey (env : ProcessEnv) : value :=
  js_or (env "TWITTERAPI_API_KEY") (VStr "").

(** Whether the constructor logs the missing-key warning. *)
Definition constructor_warns (env : ProcessEnv) : bool :=
  negb (truthy (constructor_apiKey env)).

Definition constructor_axiosConfig (env : ProcessEnv) : AxiosConfig :=
  let axiosConfig :=
    {| baseURL := "https://api.twitterapi.io/twitter";
       timeout := 30000;
       default_headers :=
         [("Content-Type", "application/json");
          ("User-Agent", "TwitterAPI-MCP-Server/1.0.0")];
       httpsAgent := None;
       proxy := None |} in
  let proxyUrl :=
    js_or (js_or (env "PROXY_URL") (env "HTTP_PROXY")) (env "HTTPS_PROXY") in
  if truthy proxyUrl
  then {| baseURL := baseURL axiosConfig; timeout := timeout axiosConfig;
          default_headers := default_headers axiosConfig;
          httpsAgent := Some proxyUrl; proxy := Some false |}
  else axiosConfig.

(** An environment with an empty [PROXY_URL] and a set [HTTPS_PROXY]. *)
Definition sample_process_env : ProcessEnv :=
  fun name =>
    if String.eqb name "PROXY_URL" then VStr ""
    else if String.eqb name "HTTPS_PROXY" then VStr "http://proxy.corp:3128"
    else VUndefined.

(** [m] leaves the files alone or writes exactly one, [path], holding the
    pretty-printed JSON of an envelope; of the directories it names, it
    creates at most [dir]. *)
Definition saves_at (dir path : string) {A} (m : M A) : Prop :=
  forall w,
    (files (snd (m w)) = files w \/
     exists doc,
       (keys_of doc = Some ["data"] \/ keys_of doc = Some ["data"; "pagination"]) /\
       files (snd (m w)) = <[ path := JSON_stringify doc ]> (files w)) /\
    (dirs (snd (m w)) = dirs w \/ dirs (snd (m w)) = {[ dir ]} ∪ dirs w).

(** An argument the tool schemas type as [integer]: an integer, or left
    out. *)
Definition integer_or_absent (v : value) : Prop :=
  v = VUndefined \/ exists n, v = VNum n.



(** ** Proof automation *)

Ltac case_write_fault :=
  match goal with
  | |- context [write_fault ?E ?p] => destruct (write_fault E p)
  end.

Ltac case_throw :=
  match goal with
  | |- context [if ?c then throw _ else _] => destruct c; [discriminate|]
  end.

Ltac in_list := repeat first [left; reflexivity | right].

Ltac not_a_tool H :=
  unfold tool_names in H;
  repeat (apply not_elem_of_cons in H; destruct H as [?Hname H]);
  repeat match goal with
         | Hne : _ <> _ |- _ => apply String.eqb_neq in Hne
         end.

(** ** The data cleaners *)

Section Cleaners.

Lemma prop_truthy v k : truthy v = true -> prop v k = ok (field v k).
Proof. destruct v; simpl; intros H; try discriminate; reflexivity. Qed.

Lemma prop_defined v k : nullish v = false -> prop v k = ok (field v k).
Proof. destruct v; simpl; intros H; try discriminate; reflexivity. Qed.

Lemma or_else_ok a b : or_else (ok a) (ok b) = ok (first_truthy [a; b]).
Proof. unfold or_else; simpl. destruct (truthy a); reflexivity. Qed.

Lemma or_else_ok3 a b c :
  or_else (or_else (ok a) (ok b)) (ok c) = ok (first_truthy [a; b; c]).
Proof.
  unfold or_else; simpl.
  destruct (truthy a) eqn:Ha; simpl; [now rewrite Ha|].
  destruct (truthy b) eqn:Hb; simpl; now rewrite ?Hb.
Qed.

Lemma coalesce_ok a b : coalesce (ok a) (ok b) = ok (first_defined [a; b]).
Proof. unfold coalesce; simpl. destruct (nullish a); reflexivity. Qed.

Lemma coalesce_ok3 a b c :
  coalesce (coalesce (ok a) (ok b)) (ok c) = ok (first_defined [a; b; c]).
Proof.
  unfold coalesce; simpl.
  destruct (nullish a) eqn:Ha; simpl; [|now rewrite Ha].
  destruct (nullish b) eqn:Hb; simpl; now rewrite ?Hb.
Qed.

Lemma opt_prop_ok v k k' :
  nullish v = false -> opt_prop (prop v k) k' = ok (nested_field v k k').
Proof.
  intros Hv. rewrite prop_defined by exact Hv. unfold opt_prop, nested_field; simpl.
  destruct (nullish (field v k)) eqn:Hn; [reflexivity|]. now apply prop_defined.
Qed.

Lemma truthy_defined v : truthy v = true -> nullish v = false.
Proof. destruct v; simpl; intros; try discriminate; reflexivity. Qed.

Lemma cleanUser_normal user : cleanUser user = ok (normal_user user).
Proof.
  unfold cleanUser, normal_user. destruct (truthy user) eqn:Hu; simpl; [|reflexivity].
  rewrite !(prop_truthy user) by exact Hu.
  rewrite !or_else_ok3, !coalesce_ok3, !or_else_ok, !coalesce_ok. reflexivity.
Qed.

Lemma cleanTweet_normal tweet : cleanTweet tweet = ok (normal_tweet tweet).
Proof.
  unfold cleanTweet, normal_tweet. destruct (truthy tweet) eqn:Ht; cbn [negb];
    [|reflexivity].
  pose proof (truthy_defined _ Ht) as Hd.
  rewrite !(opt_prop_ok tweet) by exact Hd.
  rewrite !(prop_truthy tweet) by exact Ht.
  rewrite !or_else_ok, !coalesce_ok. unfold tweet_shape.
  cbn [rbind ok].
  destruct (truthy (field tweet "author")); [rewrite cleanUser_normal|];
    reflexivity.
Qed.

End Cleaners.

Section CleanerResults.

Lemma first_defined_cons c rest :
  nullish c = false -> first_defined (c :: rest) = c.
Proof. intros Hc. destruct rest; simpl; [reflexivity|]. now rewrite Hc. Qed.

Lemma first_defined_skip c c' rest :
  nullish c = true -> first_defined (c :: c' :: rest) = first_defined (c' :: rest).
Proof. intros Hc. cbn [first_defined]. now rewrite Hc. Qed.

(** The first candidate that is not null or undefined is the one taken,
    whatever follows it. *)
Lemma first_defined_spec skipped c rest :
  Forall (fun x => nullish x = true) skipped -> nullish c = false ->
  first_defined (skipped ++ c :: rest)%list = c.
Proof.
  induction 1 as [|x skipped Hx _ IH]; intros Hc.
  - now apply first_defined_cons.
  - destruct skipped as [|y skipped']; cbn [app] in *.
    + rewrite first_defined_skip by exact Hx. auto.
    + rewrite first_defined_skip by exact Hx. auto.
Qed.

Lemma first_truthy_spec skipped c rest :
  Forall (fun x => truthy x = false) skipped -> truthy c = true ->
  first_truthy (skipped ++ c :: rest)%list = c.
Proof.
  induction 1 as [|x skipped Hx _ IH]; intros Hc.
  - destruct rest; simpl; [reflexivity|]. now rewrite Hc.
  - destruct skipped as [|y skipped']; cbn [app first_truthy] in *;
      rewrite Hx; auto.
Qed.

Lemma map_R_cleanUser xs : map_R cleanUser xs = ok (map normal_user xs).
Proof.
  induction xs as [|x xs IH]; simpl; [reflexivity|].
  rewrite cleanUser_normal, IH. reflexivity.
Qed.

Lemma map_R_cleanTweet xs : map_R cleanTweet xs = ok (map normal_tweet xs).
Proof.
  induction xs as [|x xs IH]; simpl; [reflexivity|].
  rewrite cleanTweet_normal, IH. reflexivity.
Qed.

Lemma normal_user_truthy v : truthy (normal_user v) = negb (is_null (normal_user v)).
Proof. unfold normal_user. destruct (truthy v); reflexivity. Qed.

Lemma normal_tweet_truthy v : truthy (normal_tweet v) = negb (is_null (normal_tweet v)).
Proof. unfold normal_tweet. destruct (truthy v); reflexivity. Qed.

Lemma filter_Boolean_normal (f : value -> value) xs :
  (forall v, truthy (f v) = negb (is_null (f v))) ->
  filter_Boolean (map f xs) = List.filter (fun y => negb (is_null y)) (map f xs).
Proof.
  intros Hf. unfold filter_Boolean.
  induction xs as [|x xs IH]; simpl; [reflexivity|].
  rewrite Hf, IH. reflexivity.
Qed.

Lemma cleanUserList_array xs :
  cleanUserList (VArr xs)
  = ok (List.filter (fun y => negb (is_null y)) (map normal_user xs)).
Proof.
  simpl. rewrite map_R_cleanUser. simpl.
  now rewrite (filter_Boolean_normal _ _ normal_user_truthy).
Qed.

Lemma cleanTweetList_array xs :
  cleanTweetList (VArr xs)
  = ok (List.filter (fun y => negb (is_null y)) (map normal_tweet xs)).
Proof.
  simpl. rewrite map_R_cleanTweet. simpl.
  now rewrite (filter_Boolean_normal _ _ normal_tweet_truthy).
Qed.

Lemma cleanUserList_total v : exists ys, cleanUserList v = ok ys.
Proof.
  destruct v; try (eexists; reflexivity).
  eexists. apply cleanUserList_array.
Qed.

Lemma cleanTweetList_total v : exists ys, cleanTweetList v = ok ys.
Proof.
  destruct v; try (eexists; reflexivity).
  eexists. apply cleanTweetList_array.
Qed.

End CleanerResults.

(** ** C3: the verified flag *)

(** C3, as stated, fails: with [isVerified: false] and [isBlueVerified: true]
    the first non-null candidate is [false] but the cleaned flag is [true]. *)
Lemma verified_first_non_null_fails :
  first_non_null (verified_candidates blue_user) = VBool false /\
  exists cleaned,
    cleanUser blue_user = ok cleaned /\
    field cleaned "verified" = VBool true /\
    field cleaned "verified" <> first_non_null (verified_candidates blue_user).
Proof.
  split; [reflexivity|]. eexists. split; [reflexivity|].
  split; [reflexivity|]. discriminate.
Qed.

(** C3, amended: for every raw user the cleaned verified flag is the first
    truthy value among [isVerified], [verified], [isBlueVerified], tried in
    that order, and the value of [isBlueVerified] when none is truthy; so a
    truthy later candidate wins over a falsy earlier one. *)
Theorem verified_first_truthy (user : value) :
  truthy user = true ->
  exists cleaned,
    cleanUser user = ok cleaned /\
    field cleaned "verified" = first_truthy (verified_candidates user) /\
    (forall skipped c rest,
        verified_candidates user = (skipped ++ c :: rest)%list ->
        Forall (fun x => truthy x = false) skipped -> truthy c = true ->
        field cleaned "verified" = c) /\
    (Forall (fun x => truthy x = false) (verified_candidates user) ->
     field cleaned "verified" = field user "isBlueVerified").
Proof.
  intros Hu. exists (user_shape user). rewrite cleanUser_normal.
  unfold normal_user. rewrite Hu. split; [reflexivity|]. split; [reflexivity|].
  split.
  - intros skipped c rest Hc Hs Ht. cbn [user_shape field lookup_field String.eqb
      Ascii.eqb Bool.eqb]. simpl lookup_field. rewrite Hc.
    now apply first_truthy_spec.
  - intros Hall. simpl. unfold verified_candidates in Hall.
    inversion Hall as [|? ? H1 Hall']; subst. inversion Hall' as [|? ? H2 _]; subst.
    now rewrite H1, H2.
Qed.

Lemma verified_first_truthy_witness :
  exists cleaned,
    cleanUser blue_user = ok cleaned /\ field cleaned "verified" = VBool true.
Proof.
  destruct (verified_first_truthy blue_user eq_refl) as (cleaned & Hc & Hv & _).
  exists cleaned. split; [exact Hc|]. rewrite Hv. reflexivity.
Defined.

(** ** C4: numeric counts keep a defined zero *)

(** C4: every count of the canonical user and tweet is the first candidate
    that is neither null nor undefined, in the documented order (for a tweet
    the flattened field, then the [public_metrics] path); a defined falsy
    candidate such as [0] is taken, the later candidates do not matter and
    the fallback of [??] is not evaluated. *)
Theorem counts_first_defined :
  (forall user, truthy user = true ->
     exists cleaned,
       cleanUser user = ok cleaned /\
       field cleaned "followers"
         = first_defined [field user "followers"; field user "followers_count"] /\
       field cleaned "following"
         = first_defined [field user "following"; field user "following_count"] /\
       field cleaned "tweets"
         = first_defined [field user "statusesCount"; field user "statuses_count";
                          field user "tweet_count"]) /\
  (forall tweet, truthy tweet = true ->
     exists cleaned,
       cleanTweet tweet = ok cleaned /\
       field cleaned "retweets"
         = first_defined [field tweet "retweetCount";
                          nested_field tweet "public_metrics" "retweet_count"] /\
       field cleaned "likes"
         = first_defined [field tweet "likeCount";
                          nested_field tweet "public_metrics" "like_count"] /\
       field cleaned "replies"
         = first_defined [field tweet "replyCount";
                          nested_field tweet "public_metrics" "reply_count"] /\
       field cleaned "quotes"
         = first_defined [field tweet "quoteCount";
                          nested_field tweet "public_metrics" "quote_count"]) /\
  (forall skipped c rest,
     Forall (fun x => nullish x = true) skipped -> nullish c = false ->
     first_defined (skipped ++ c :: rest)%list = c) /\
  (forall rest, first_defined (VNum 0 :: rest) = VNum 0) /\
  (forall a fallback, nullish a = false -> coalesce (ok a) fallback = ok a).
Proof.
  split; [|split; [|split; [|split]]].
  - intros user Hu. exists (user_shape user). rewrite cleanUser_normal.
    unfold normal_user. rewrite Hu. repeat split.
  - intros tweet Ht. exists (tweet_shape tweet). rewrite cleanTweet_normal.
    unfold normal_tweet. rewrite Ht. repeat split.
  - apply first_defined_spec.
  - intros rest. now apply first_defined_cons.
  - intros a fallback Ha. unfold coalesce. cbn [rbind ok]. now rewrite Ha.
Qed.

Lemma counts_first_defined_witness :
  (exists cleaned,
     cleanUser quiet_user = ok cleaned /\
     field cleaned "followers" = VNum 0 /\ field cleaned "tweets" = VNum 0) /\
  (exists cleaned,
     cleanTweet quiet_tweet = ok cleaned /\
     field cleaned "retweets" = VNum 0 /\ field cleaned "likes" = VNum 3).
Proof.
  destruct counts_first_defined as (Hu & Ht & _).
  destruct (Hu quiet_user eq_refl) as (u & Hcu & Hf & _ & Hn).
  destruct (Ht quiet_tweet eq_refl) as (t & Hct & Hr & Hl & _).
  split.
  - exists u. split; [exact Hcu|]. rewrite Hf, Hn. split; reflexivity.
  - exists t. split; [exact Hct|]. rewrite Hr, Hl. split; reflexivity.
Defined.

(** ** C5: the normalizers never throw *)

(** C5: [cleanUser] and [cleanTweet] return on every input (they never
    throw), a falsy entity (null and undefined among them) maps to [null],
    every non-array maps to the empty list, and on an array the list
    normalizers apply the scalar normalizer element-wise and drop exactly the
    elements that normalize to [null]. *)
Theorem normalizers_total :
  (forall v, exists r, cleanUser v = ok r) /\
  (forall v, exists r, cleanTweet v = ok r) /\
  cleanUser VNull = ok VNull /\ cleanUser VUndefined = ok VNull /\
  cleanTweet VNull = ok VNull /\ cleanTweet VUndefined = ok VNull /\
  (forall v, is_array v = false ->
     cleanUserList v = ok [] /\ cleanTweetList v = ok []) /\
  (forall xs, exists ys,
     Forall2 (fun x y => cleanUser x = ok y) xs ys /\
     cleanUserList (VArr xs) = ok (List.filter (fun y => negb (is_null y)) ys)) /\
  (forall xs, exists ys,
     Forall2 (fun x y => cleanTweet x = ok y) xs ys /\
     cleanTweetList (VArr xs) = ok (List.filter (fun y => negb (is_null y)) ys)).
Proof.
  repeat split; try reflexivity.
  - intros v. eexists. apply cleanUser_normal.
  - intros v. eexists. apply cleanTweet_normal.
  - destruct v; try reflexivity; discriminate.
  - destruct v; try reflexivity; discriminate.
  - intros xs. exists (map normal_user xs). split; [|apply cleanUserList_array].
    induction xs; constructor; auto using cleanUser_normal.
  - intros xs. exists (map normal_tweet xs). split; [|apply cleanTweetList_array].
    induction xs; constructor; auto using cleanTweet_normal.
Qed.

Lemma normalizers_total_witness :
  cleanUserList (VStr "not an array") = ok [] /\
  cleanTweetList (VObj [("tweets", VArr [])]) = ok [].
Proof.
  destruct normalizers_total as (_ & _ & _ & _ & _ & _ & Hn & _).
  split.
  - exact (proj1 (Hn (VStr "not an array") eq_refl)).
  - exact (proj2 (Hn (VObj [("tweets", VArr [])]) eq_refl)).
Defined.

(** ** Running the server *)

Section Runs.

Variable E : Env.

Lemma bind_run {A B} (m : M A) (k : A -> M B) w :
  bind m k w
  = match m w with
    | (inl e, w') => (inl e, w')
    | (inr a, w') => k a w'
    end.
Proof. reflexivity. Qed.

Lemma bind_lift_ok {A B} (a : A) (k : A -> M B) w : bind (lift (ok a)) k w = k a w.
Proof. reflexivity. Qed.

Lemma bind_ret {A B} (a : A) (k : A -> M B) w : bind (ret a) k w = k a w.
Proof. reflexivity. Qed.

Lemma rethrow_api_error_run e w :
  rethrow_api_error e w = (inl (api_error e), w).
Proof.
  destruct e as [code m|m|m|response m]; try reflexivity.
  unfold rethrow_api_error, api_error.
  destruct response as [[status data]|].
  - rewrite or_else_ok, bind_lift_ok.
    destruct (nullish data) eqn:Hd.
    + unfold opt_prop. cbn [rbind ok]. rewrite Hd.
      change (ok VUndefined) with (@ok value VUndefined).
      rewrite or_else_ok, bind_lift_ok. reflexivity.
    + unfold opt_prop. cbn [rbind ok]. rewrite Hd, (prop_defined _ _ Hd).
      rewrite or_else_ok, bind_lift_ok. reflexivity.
  - rewrite or_else_ok, bind_lift_ok.
    unfold opt_prop. cbn [rbind ok nullish].
    rewrite or_else_ok, bind_lift_ok. reflexivity.
Qed.

Lemma makeRequest_run endpoint params w :
  makeRequest E endpoint params w
  = (match upstream E (get_request E w endpoint params) with
     | inl e => inl (api_error e)
     | inr body => inr body
     end,
     with_request w (get_request E w endpoint params)).
Proof.
  unfold makeRequest, try_catch, bind, get_loginCookie, send. cbn [ok].
  fold (get_request E w endpoint params).
  destruct (upstream E (get_request E w endpoint params)); [|reflexivity].
  apply rethrow_api_error_run.
Qed.

Lemma makePostRequest_run endpoint data w :
  makePostRequest E endpoint data w
  = (match upstream E (post_request E w endpoint data) with
     | inl e => inl (api_error e)
     | inr body => inr body
     end,
     with_request w (post_request E w endpoint data)).
Proof.
  unfold makePostRequest, try_catch, bind, get_loginCookie, send. cbn [ok].
  fold (post_request E w endpoint data).
  destruct (upstream E (post_request E w endpoint data)); [|reflexivity].
  apply rethrow_api_error_run.
Qed.

Lemma saveData_total data dir toolName w :
  exists savedPath w',
    saveData E data dir toolName w = (inr savedPath, w') /\
    loginCookie w' = loginCookie w /\ wire w' = wire w.
Proof.
  unfold saveData, try_catch, bind, existsSync, ret, writeFileSync.
  destruct dir as [| |b|n|d|xs|fs]; cbn [negb mkdirSync throw];
    unfold ok, raise; cbv beta iota;
    try (eexists _, _; split; [reflexivity|split; reflexivity]).
  fold (dir_exists w d).
  destruct (dir_exists w d); cbn [negb]; cbv beta iota.
  - case_write_fault; eexists _, _; (split; [reflexivity|split; reflexivity]).
  - destruct (mkdir_fault E d); cbv beta iota;
      [eexists _, _; split; [reflexivity|split; reflexivity]|].
    case_write_fault; eexists _, _; (split; [reflexivity|split; reflexivity]).
Qed.



(** [formatResponse] builds the envelope, saves it when asked to, and
    returns its TOON text. *)
Lemma formatResponse_run cleanedData options w :
  formatResponse E cleanedData options w
  = let output := envelope cleanedData (pagination options) in
    if truthy (saveDir options) && truthy (toolName options) then
      match saveData E output (saveDir options) (toolName options) w with
      | (inl e, w') => (inl e, w')
      | (inr savedPath, w') =>
          (inr (text_result
                  (if truthy (VStr savedPath)
                   then text_append (encode output) (saved_note savedPath)
                   else encode output)), w')
      end
    else (inr (text_result (encode output)), w).
Proof.
  unfold formatResponse, envelope.
  destruct (truthy (pagination options)) eqn:Hp; cbv beta iota zeta.
  - rewrite !(prop_truthy _ _ Hp).
    unfold bind, lift, ret, ok; cbv beta iota.
    cbn [set_field String.eqb Ascii.eqb Bool.eqb].
    destruct (truthy (saveDir options) && truthy (toolName options)).
    + destruct (saveData _ _ _ _ _) as [[e|savedPath] w']; reflexivity.
    + reflexivity.
  - unfold bind, lift, ret, ok; cbv beta iota.
    destruct (truthy (saveDir options) && truthy (toolName options)).
    + destruct (saveData _ _ _ _ _) as [[e|savedPath] w']; reflexivity.
    + reflexivity.
Qed.

Lemma formatResponse_total cleanedData options w :
  exists t w',
    formatResponse E cleanedData options w = (inr (text_result t), w') /\
    doc_of t = Some (envelope cleanedData (pagination options)) /\
    loginCookie w' = loginCookie w /\ wire w' = wire w.
Proof.
  rewrite formatResponse_run. cbv zeta.
  destruct (truthy (saveDir options) && truthy (toolName options)).
  - destruct (saveData_total (envelope cleanedData (pagination options))
                (saveDir options) (toolName options) w)
      as (savedPath & w' & -> & Hc & Hw).
    eexists _, w'. split; [reflexivity|]. split; [|split; assumption].
    destruct (truthy (VStr savedPath)); reflexivity.
  - eexists _, w. split; [reflexivity|]. repeat split.
Qed.

End Runs.

(** ** JSON documents *)

Section Json.

Lemma json_doc_defined v : json_doc v <> VUndefined.
Proof. destruct v; discriminate. Qed.

Lemma json_members_cons f k x l :
  x <> VUndefined -> json_members f ((k, x) :: l) = (k, f x) :: json_members f l.
Proof. intros Hx. destruct x; try reflexivity. now destruct Hx. Qed.

Lemma json_members_idempotent fields :
  Forall (fun kv => json_doc (json_doc (snd kv)) = json_doc (snd kv)) fields ->
  json_members json_doc (json_members json_doc fields)
  = json_members json_doc fields.
Proof.
  induction 1 as [|[k x] fields Hx _ IH]; [reflexivity|].
  cbn [snd] in Hx.
  assert (Hcase : x = VUndefined \/ x <> VUndefined)
    by (destruct x; (now left) || (right; discriminate)).
  destruct Hcase as [->|Hdef]; [exact IH|].
  rewrite (json_members_cons _ _ _ _ Hdef).
  rewrite (json_members_cons _ _ _ _ (json_doc_defined x)).
  now rewrite Hx, IH.
Qed.

Lemma json_doc_idempotent v : json_doc (json_doc v) = json_doc v.
Proof.
  induction v as [| |b|n|s|xs IH|fields IH] using value_induction;
    try reflexivity.
  - cbn [json_doc]. f_equal. rewrite map_map.
    induction IH as [|x xs Hx _ IHxs]; [reflexivity|].
    cbn [map]. now rewrite Hx, IHxs.
  - cbn [json_doc]. f_equal. now apply json_members_idempotent.
Qed.



End Json.

(** ** C9: persistence *)





(** ** The list-returning tools *)

Section ListTools.

Variable E : Env.

Lemma data_of_envelope t cleanedData pagination :
  doc_of t = Some (envelope cleanedData pagination) ->
  data_of (text_result t) = Some cleanedData.
Proof.
  intros Hdoc. unfold data_of, envelope_of. cbn [content text_result text].
  rewrite Hdoc. unfold envelope. destruct (truthy pagination); reflexivity.
Qed.

(** What the six truncating tools do with the upstream body. *)
Lemma list_tail_ok (picked : R value) (clean : value -> R (list value))
    (max : Z) (sd tn body : value) w r w' :
  bind (lift picked)
    (fun items =>
       bind (lift (clean items))
         (fun cleanedList =>
            bind (pagination_of body)
              (fun pg =>
                 formatResponse E (VArr (slice0 cleanedList max))
                   {| saveDir := sd; toolName := tn; pagination := pg |}))) w
  = (inr r, w') ->
  exists items cleaned,
    picked = ok items /\ clean items = ok cleaned /\
    data_of r = Some (VArr (slice0 cleaned max)) /\
    wire w' = wire w /\ loginCookie w' = loginCookie w.
Proof.
  destruct picked as [e|items]; [discriminate|].
  unfold bind at 1, lift at 1.
  destruct (clean items) as [e|cleaned] eqn:Hclean;
    unfold bind at 1, lift at 1; [discriminate|].
  unfold pagination_of.
  destruct (prop body "has_next_page") as [e|hnp];
    [unfold bind, lift; discriminate|].
  destruct (prop body "next_cursor") as [e|nc];
    [unfold bind, lift; discriminate|].
  unfold bind, lift, ret, ok. cbv beta iota.
  match goal with
  | |- formatResponse E ?c ?o w = _ -> _ =>
      destruct (formatResponse_total E c o w) as (t & w1 & -> & Hdoc & Hc & Hw)
  end.
  intros [= <- <-]. exists items, cleaned.
  split; [reflexivity|]. split; [exact Hclean|].
  split; [now apply data_of_envelope in Hdoc|]. split; assumption.
Qed.

Lemma CallTool_inr name args w r w' :
  CallTool E name args w = (inr r, w') ->
  truthy args = true /\ dispatch E name args w = (inr r, w').
Proof.
  unfold CallTool, try_catch.
  destruct (truthy args); cbn [negb].
  - destruct (dispatch E name args w) as [[e|a] w1].
    + destruct e; discriminate.
    + intros [= <- <-]. split; reflexivity.
  - discriminate.
Qed.

Lemma truncating_tool_ok tool args w r w' :
  truthy args = true ->
  dispatch E (tool_name tool) args w = (inr r, w') ->
  exists rq body items cleaned,
    wire w' = (wire w ++ [rq])%list /\ upstream E rq = ok body /\
    upstream_items tool body = ok items /\
    clean_items tool items = ok cleaned /\
    data_of r = Some (VArr (slice0 cleaned (truncation_bound args))).
Proof.
  intros Hargs.
  destruct tool; cbn [tool_name upstream_items clean_items];
    unfold dispatch, arg; cbn [String.eqb Ascii.eqb Bool.eqb];
    rewrite !(prop_truthy _ _ Hargs), !bind_lift_ok;
    unfold getUserTweets, searchTweets, getTweetReplies, getUserFollowers,
      getUserFollowing, searchUsers; cbv zeta;
    try case_throw;
    rewrite bind_run, makeRequest_run;
    match goal with |- context [upstream E ?rq] => set (request := rq) end;
    (destruct (upstream E request) as [e|body] eqn:Hup; [discriminate|]);
    intros Hrun; apply list_tail_ok in Hrun;
    destruct Hrun as (items & cleaned & Hi & Hc & Hd & Hw & _);
    exists request, body, items, cleaned; repeat split; assumption.
Qed.

Lemma or_else_total a b :
  (exists x, a = ok x) -> (exists y, b = ok y) -> exists z, or_else a b = ok z.
Proof.
  intros [x ->] [y ->]. rewrite or_else_ok. eexists. reflexivity.
Qed.

Lemma upstream_items_total tool body :
  nullish body = false -> exists items, upstream_items tool body = ok items.
Proof.
  intros Hbody. destruct tool; cbn [upstream_items];
    rewrite !(prop_defined _ _ Hbody);
    repeat (apply or_else_total; [|eexists; reflexivity]);
    eexists; reflexivity.
Qed.

Lemma clean_items_total tool items : exists cleaned, clean_items tool items = ok cleaned.
Proof.
  destruct tool; cbn [clean_items];
    auto using cleanTweetList_total, cleanUserList_total.
Qed.

Lemma list_tail_returns (picked : R value) (clean : value -> R (list value))
    (max : Z) (sd tn body : value) w :
  (exists items, picked = ok items) ->
  (forall items, exists cleaned, clean items = ok cleaned) ->
  nullish body = false ->
  exists r w',
    bind (lift picked)
      (fun items =>
         bind (lift (clean items))
           (fun cleanedList =>
              bind (pagination_of body)
                (fun pg =>
                   formatResponse E (VArr (slice0 cleanedList max))
                     {| saveDir := sd; toolName := tn; pagination := pg |}))) w
    = (inr r, w').
Proof.
  intros [items ->] Hclean Hbody. rewrite bind_lift_ok.
  destruct (Hclean items) as [cleaned ->]. rewrite bind_lift_ok.
  unfold pagination_of. rewrite !(prop_defined _ _ Hbody).
  unfold bind, lift, ret, ok. cbv beta iota.
  match goal with
  | |- context [formatResponse E ?c ?o w] =>
      destruct (formatResponse_total E c o w) as (t & w1 & -> & _)
  end.
  eexists _, _. reflexivity.
Qed.

Lemma CallTool_of_dispatch name args w r w' :
  truthy args = true ->
  dispatch E name args w = (inr r, w') -> CallTool E name args w = (inr r, w').
Proof.
  intros Hargs Hrun. unfold CallTool, try_catch. rewrite Hargs. cbn [negb].
  now rewrite Hrun.
Qed.

Lemma truncating_tool_returns tool args w body :
  truthy args = true ->
  (forall rq, upstream E rq = ok body) -> nullish body = false ->
  (tool = GetUserTweets ->
   truthy (field args "username") || truthy (field args "userId") = true) ->
  exists r w', CallTool E (tool_name tool) args w = (inr r, w').
Proof.
  intros Hargs Hup Hbody Hwho.
  enough (exists r w', dispatch E (tool_name tool) args w = (inr r, w'))
    as (r & w' & Hrun)
    by (exists r, w'; now apply CallTool_of_dispatch).
  destruct tool; cbn [tool_name];
    unfold dispatch, arg; cbn [String.eqb Ascii.eqb Bool.eqb];
    rewrite !(prop_truthy _ _ Hargs), !bind_lift_ok;
    unfold getUserTweets, searchTweets, getTweetReplies, getUserFollowers,
      getUserFollowing, searchUsers; cbv zeta;
    try (specialize (Hwho eq_refl); apply orb_true_iff in Hwho;
         destruct (truthy (field args "username")),
                  (truthy (field args "userId"));
         try (destruct Hwho; discriminate); cbn [negb andb]);
    rewrite bind_run, makeRequest_run, Hup;
    unfold ok at 1; cbv beta iota;
    (apply list_tail_returns;
     [ first [ apply (upstream_items_total GetUserTweets)
             | apply (upstream_items_total GetTweetReplies)
             | apply (upstream_items_total GetUserFollowers)
             | apply (upstream_items_total GetUserFollowing)
             | apply (upstream_items_total SearchUsers) ]; exact Hbody
     | first [ apply (clean_items_total GetUserTweets)
             | apply (clean_items_total SearchUsers) ]
     | exact Hbody ]).
Qed.

End ListTools.

Section Slices.

Context {A : Type}.
Implicit Types xs : list A.

Lemma slice0_nonneg xs n : 0 <= n -> slice0 xs n = take (Z.to_nat n) xs.
Proof.
  intros Hn. unfold slice0.
  destruct (Z.ltb_spec n 0) as [Hneg|_]; [lia|].
  destruct (Z.le_gt_cases n (Z.of_nat (length xs))) as [Hle|Hgt].
  - now rewrite Z.min_l by exact Hle.
  - rewrite Z.min_r by lia. rewrite Nat2Z.id.
    rewrite !take_ge by lia. reflexivity.
Qed.

Lemma slice0_negative xs n :
  n < 0 -> slice0 xs n = take (length xs - Z.to_nat (- n)) xs.
Proof.
  intros Hn. unfold slice0.
  destruct (Z.ltb_spec n 0) as [_|Hpos]; [|lia].
  f_equal. lia.
Qed.

Lemma slice0_length xs n :
  0 <= n -> Z.of_nat (length (slice0 xs n)) = Z.min (Z.of_nat (length xs)) n.
Proof. intros Hn. rewrite slice0_nonneg by exact Hn. rewrite length_take. lia. Qed.

Lemma slice0_all xs n : Z.of_nat (length xs) <= n -> slice0 xs n = xs.
Proof. intros Hn. rewrite slice0_nonneg by lia. apply take_ge. lia. Qed.

Lemma slice0_prefix xs n : exists rest, xs = (slice0 xs n ++ rest)%list.
Proof. unfold slice0. eexists. symmetry. apply take_drop. Qed.

End Slices.

(** ** C1: truncation keeps a prefix *)

(** C1, as stated, fails: [search_tweets] with [max_items: -1] over three
    cleaned tweets returns two of them, not min(3, -1) of them, and more than
    the bound. *)
Lemma truncation_length_not_min :
  exists r w' cleaned kept,
    CallTool three_tweets_Env "search_tweets" negative_bound_args initial_World
    = (inr r, w') /\
    (let? items := upstream_items SearchTweets three_tweets in
     clean_items SearchTweets items) = ok cleaned /\
    length cleaned = 3%nat /\
    truncation_bound negative_bound_args = -1 /\
    data_of r = Some (VArr kept) /\
    length kept = 2%nat /\
    Z.of_nat (length kept)
    <> Z.min (Z.of_nat (length cleaned)) (truncation_bound negative_bound_args).
Proof.
  eexists _, _, _, _. split; [vm_compute; reflexivity|].
  split; [vm_compute; reflexivity|].
  split; [reflexivity|]. split; [reflexivity|]. split; [reflexivity|].
  split; [reflexivity|]. vm_compute. discriminate.
Qed.

(** C1, amended: for each of get_user_tweets, search_tweets,
    get_tweet_replies, get_user_followers, get_user_following and
    search_users, a call that returns puts a prefix [kept] of the cleaned
    upstream list in the envelope.  For a truncation bound N >= 0 that the
    call applies (a positive integer [max_items], or 10 when [max_items] is
    absent), [kept] is the first N elements in their order: it has length
    min(L, N) and equals the cleaned list when N >= L.  For a negative integer
    [max_items] N it is the cleaned list without its last -N elements.  And
    the call does return whenever the upstream answers with a body, for
    [max_items] and [pageSize] that are integers or absent (get_user_tweets
    being given a username or a userId). *)
Theorem truncation_is_slice (E : Env) (tool : TruncatingTool) (args : value)
    (w : World) :
  (forall r w',
     CallTool E (tool_name tool) args w = (inr r, w') ->
     exists rq body items cleaned kept,
       wire w' = (wire w ++ [rq])%list /\ upstream E rq = ok body /\
       upstream_items tool body = ok items /\
       clean_items tool items = ok cleaned /\
       data_of r = Some (VArr kept) /\
       (exists rest, cleaned = (kept ++ rest)%list) /\
       (forall N,
          (field args "max_items" = VNum N /\ 0 < N) \/
          (field args "max_items" = VUndefined /\ N = 10) ->
          kept = take (Z.to_nat N) cleaned /\
          Z.of_nat (length kept) = Z.min (Z.of_nat (length cleaned)) N /\
          (Z.of_nat (length cleaned) <= N -> kept = cleaned)) /\
       (forall N,
          field args "max_items" = VNum N -> N < 0 ->
          kept = take (length cleaned - Z.to_nat (- N)) cleaned)) /\
  (forall body,
     truthy args = true ->
     integer_or_absent (field args "max_items") ->
     integer_or_absent (field args "pageSize") ->
     (forall rq, upstream E rq = ok body) -> nullish body = false ->
     (tool = GetUserTweets ->
      truthy (field args "username") || truthy (field args "userId") = true) ->
     exists r w', CallTool E (tool_name tool) args w = (inr r, w')).
Proof.
  split.
  - intros r w' Hcall. apply CallTool_inr in Hcall as [Hargs Hrun].
    destruct (truncating_tool_ok E tool args w r w' Hargs Hrun)
      as (rq & body & items & cleaned & Hw & Hup & Hi & Hc & Hd).
    exists rq, body, items, cleaned, (slice0 cleaned (truncation_bound args)).
    repeat (split; [assumption|]). split; [apply slice0_prefix|]. split.
    + intros N HN.
      assert (Hbound : truncation_bound args = N /\ 0 < N).
      { unfold truncation_bound.
        destruct HN as [[-> HN]|[-> ->]]; cbn [as_number or_number]; [|lia].
        destruct (Z.eqb_spec N 0); lia. }
      destruct Hbound as [-> HN'].
      split; [apply slice0_nonneg; lia|].
      split; [apply slice0_length; lia|apply slice0_all].
    + intros N HN Hneg. unfold truncation_bound. rewrite HN.
      cbn [as_number or_number].
      destruct (Z.eqb_spec N 0); [lia|]. now apply slice0_negative.
  - intros body Hargs _ _ Hup Hbody Hwho.
    now apply (truncating_tool_returns E tool args w body).
Qed.

Lemma truncation_is_slice_witness :
  exists r w' cleaned,
    CallTool three_tweets_Env "search_tweets" two_items_args initial_World
    = (inr r, w') /\
    (let? items := upstream_items SearchTweets three_tweets in
     clean_items SearchTweets items) = ok cleaned /\
    data_of r = Some (VArr (take 2 cleaned)) /\
    Z.of_nat (length (take 2 cleaned)) = Z.min (Z.of_nat (length cleaned)) 2.
Proof.
  destruct (truncation_is_slice three_tweets_Env SearchTweets two_items_args
              initial_World) as [Hslice Hreturns].
  destruct (Hreturns three_tweets eq_refl (or_intror (ex_intro _ 2 eq_refl))
              (or_introl eq_refl) (fun _ => eq_refl) eq_refl
              ltac:(discriminate)) as (r & w' & Hcall).
  destruct (Hslice r w' Hcall)
    as (rq & body & items & cleaned & kept & _ & Hup & Hi & Hc & Hd & _ & Hpos & _).
  injection Hup as <-.
  destruct (Hpos 2 (or_introl (conj eq_refl eq_refl))) as (Hkept & Hlen & _).
  exists r, w', cleaned. split; [exact Hcall|].
  split; [rewrite Hi; exact Hc|].
  split; [rewrite Hd, Hkept; reflexivity|].
  rewrite Hkept in Hlen. exact Hlen.
Defined.

(** ** C2: the bound of get_tweet_by_id *)

(** C2 fails on the code: [getTweetById] never reads [maxItems] and applies
    no default bound.  With eleven tweets upstream, get_tweet_by_id returns
    all eleven when no bound is given, and all eleven when [max_items] is 1. *)
Theorem getTweetById_ignores_max_items :
  (forall E tweetIds saveDir maxItems w,
     getTweetById E tweetIds saveDir maxItems w
     = getTweetById E tweetIds saveDir None w) /\
  (exists r w' items,
     CallTool eleven_tweets_Env "get_tweet_by_id" eleven_ids_args initial_World
     = (inr r, w') /\
     data_of r = Some (VArr items) /\ length items = 11%nat) /\
  (exists r w' items,
     CallTool eleven_tweets_Env "get_tweet_by_id" one_item_args initial_World
     = (inr r, w') /\
     truncation_bound one_item_args = 1 /\
     data_of r = Some (VArr items) /\ length items = 11%nat).
Proof.
  split; [reflexivity|]. split.
  - eexists _, _, _. split; [vm_compute; reflexivity|]. split; reflexivity.
  - eexists _, _, _. split; [vm_compute; reflexivity|].
    split; [reflexivity|]. split; reflexivity.
Qed.

(** ** C8: the error classes of the dispatcher *)

(** C8, as stated, fails: get_user_by_username called with an argument
    object that lacks the required [username] is not rejected; the request
    goes upstream with [userName] undefined and the call returns a result. *)
Lemma missing_required_field_reaches_upstream :
  In "username" (required_fields "get_user_by_username") /\
  field (VObj []) "username" = VUndefined /\
  exists r w',
    CallTool one_user_Env "get_user_by_username" (VObj []) initial_World
    = (inr r, w') /\
    wire w'
    = [get_request one_user_Env initial_World "/user/info"
         (VObj [("userName", VUndefined)])].
Proof.
  split; [left; reflexivity|]. split; [reflexivity|].
  eexists _, _. split; [vm_compute; reflexivity|]. reflexivity.
Qed.

(** C8, amended: an unknown tool name called with an argument object yields
    MethodNotFound; a call without an argument object yields InvalidParams
    ('Missing arguments'), whatever the tool name; neither sends anything
    upstream nor changes the state.  A required field missing inside a
    present argument object is not checked: get_user_by_username then sends
    its request with [userName] undefined. *)
Theorem dispatch_error_classes (E : Env) :
  (forall name args w,
     truthy args = true -> name ∉ tool_names ->
     CallTool E name args w
     = (inl (McpError MethodNotFound ("Unknown tool: " ++ name)), w)) /\
  (forall name args w,
     truthy args = false ->
     CallTool E name args w = (inl (McpError InvalidParams "Missing arguments"), w)) /\
  (forall args w,
     truthy args = true ->
     wire (snd (CallTool E "get_user_by_username" args w))
     = (wire w ++ [get_request E w "/user/info"
                     (VObj [("userName", field args "username")])])%list).
Proof.
  split; [|split].
  - intros name args w Hargs Hname. not_a_tool Hname.
    unfold CallTool, try_catch, dispatch. rewrite Hargs. cbn [negb].
    repeat match goal with
           | Heq : String.eqb name _ = false |- _ => rewrite Heq; clear Heq
           end.
    reflexivity.
  - intros name args w Hargs. unfold CallTool, try_catch. rewrite Hargs.
    reflexivity.
  - intros args w Hargs. unfold CallTool, try_catch. rewrite Hargs. cbn [negb].
    unfold dispatch, arg. cbn [String.eqb Ascii.eqb Bool.eqb].
    rewrite !(prop_truthy _ _ Hargs), !bind_lift_ok.
    unfold getUserByUsername. rewrite bind_run, makeRequest_run.
    destruct (upstream E _) as [e|body]; [destruct (api_error e); reflexivity|].
    rewrite bind_run. unfold lift at 1.
    destruct (or_else _ _) as [e|raw]; [destruct e; reflexivity|].
    rewrite bind_run. unfold lift at 1. rewrite cleanUser_normal. cbn [ok].
    match goal with
    | |- context [formatResponse E ?c ?o ?w0] =>
        destruct (formatResponse_total E c o w0) as (t & w1 & -> & _ & _ & Hw)
    end.
    exact Hw.
Qed.

Lemma dispatch_error_classes_witness :
  CallTool one_user_Env "delete_tweet" (VObj []) initial_World
  = (inl (McpError MethodNotFound "Unknown tool: delete_tweet"), initial_World) /\
  CallTool one_user_Env "get_user_by_username" VUndefined initial_World
  = (inl (McpError InvalidParams "Missing arguments"), initial_World) /\
  wire (snd (CallTool one_user_Env "get_user_by_username" (VObj []) initial_World))
  = [get_request one_user_Env initial_World "/user/info"
       (VObj [("userName", VUndefined)])].
Proof.
  destruct (dispatch_error_classes one_user_Env) as (Hunknown & Hmissing & Hsent).
  split; [|split].
  - apply Hunknown; [reflexivity|].
    unfold tool_names. rewrite !not_elem_of_cons.
    repeat split; try discriminate. apply not_elem_of_nil.
  - apply Hmissing. reflexivity.
  - apply (Hsent (VObj []) initial_World eq_refl).
Defined.

(** ** The write actions *)

Section WriteActions.

Variable E : Env.

Lemma createTweet_run tweetText proxy replyToTweetId attachmentUrl mediaIds w :
  truthy (loginCookie w) = true ->
  createTweet E tweetText proxy replyToTweetId attachmentUrl mediaIds w
  = let rq :=
      post_request E w "/create_tweet_v2"
        (tweet_data (loginCookie w) tweetText proxy replyToTweetId attachmentUrl
           mediaIds) in
    (match upstream E rq with
     | inl e => inl (api_error e)
     | inr data => inr (text_result (JSON_stringify data))
     end, with_request w rq).
Proof.
  intros Hcookie. unfold createTweet. rewrite bind_run.
  unfold get_loginCookie at 1. cbn [ok]. rewrite Hcookie. cbn [negb].
  cbv zeta. rewrite bind_run, makePostRequest_run. unfold tweet_data.
  destruct (upstream E _); reflexivity.
Qed.

Lemma login_attempt_answered userName email password proxy totpSecret w body :
  upstream E (post_request E w "/user_login_v2"
                (login_payload userName email password proxy totpSecret))
  = ok body ->
  nullish body = false ->
  login_attempt E userName email password proxy totpSecret w
  = (inr (text_result (JSON_stringify (login_report body))),
     let w1 := with_request w
                 (post_request E w "/user_login_v2"
                    (login_payload userName email password proxy totpSecret)) in
     if truthy (field body "login_cookie")
     then with_loginCookie w1 (field body "login_cookie") else w1).
Proof.
  intros Hup Hbody. unfold login_attempt. cbv zeta.
  rewrite bind_run, makePostRequest_run. fold (login_payload userName email password
    proxy totpSecret). rewrite Hup. unfold ok at 1. cbv beta iota.
  rewrite !(prop_defined _ _ Hbody), or_else_ok, !bind_lift_ok.
  destruct (truthy (field body "login_cookie")); reflexivity.
Qed.

Lemma loginUser_total userName email password proxy totpSecret w :
  exists r w', loginUser E userName email password proxy totpSecret w = (inr r, w').
Proof.
  unfold loginUser, try_catch.
  destruct (login_attempt E userName email password proxy totpSecret w)
    as [[e|r] w1]; eexists _, _; reflexivity.
Qed.

End WriteActions.

(** ** C6: create_tweet before any login *)

(** C6: with no session cookie stored, [createTweet] throws 'Must login
    first before creating tweets' at once; the state, the list of requests
    sent upstream included, is the one before the call, and the dispatcher
    surfaces the failure as its internal-error wrapping of that message. *)
Theorem createTweet_requires_login (E : Env)
    (tweetText proxy replyToTweetId attachmentUrl mediaIds args : value) (w : World) :
  loginCookie w = VNull ->
  createTweet E tweetText proxy replyToTweetId attachmentUrl mediaIds w
  = (inl (Error "Must login first before creating tweets"), w) /\
  wire (snd (createTweet E tweetText proxy replyToTweetId attachmentUrl mediaIds w))
  = wire w /\
  (truthy args = true ->
   CallTool E "create_tweet" args w
   = (inl (McpError InternalError
             "TwitterAPI.io error: Must login first before creating tweets"), w)).
Proof.
  intros Hcookie.
  assert (Hrun : forall t p r a m,
             createTweet E t p r a m w
             = (inl (Error "Must login first before creating tweets"), w)).
  { intros. unfold createTweet. rewrite bind_run. unfold get_loginCookie at 1.
    cbn [ok]. rewrite Hcookie. reflexivity. }
  split; [apply Hrun|]. split; [rewrite Hrun; reflexivity|].
  intros Hargs. unfold CallTool, try_catch. rewrite Hargs. cbn [negb].
  unfold dispatch, arg. cbn [String.eqb Ascii.eqb Bool.eqb].
  rewrite !(prop_truthy _ _ Hargs), !bind_lift_ok, Hrun. reflexivity.
Qed.

Lemma createTweet_requires_login_witness :
  CallTool three_tweets_Env "create_tweet" tweet_args initial_World
  = (inl (McpError InternalError
            "TwitterAPI.io error: Must login first before creating tweets"),
     initial_World).
Proof.
  exact (proj2 (proj2 (createTweet_requires_login three_tweets_Env VUndefined
                         VUndefined VUndefined VUndefined VUndefined tweet_args
                         initial_World eq_refl)) eq_refl).
Defined.

(** ** C7: login failures are reported, not thrown *)

(** C7: [loginUser] returns on every input.  Whatever is thrown inside its
    [try] block is turned into the result [{ success: false, error }] carrying
    the error's message; this covers a failing upstream request, whose
    message is the API error text.  Hence a login_user call with an argument
    object never throws at the dispatch boundary. *)
Theorem loginUser_never_throws (E : Env)
    (userName email password proxy totpSecret : value) (w : World) :
  (exists r w',
     loginUser E userName email password proxy totpSecret w = (inr r, w')) /\
  (forall err w1,
     login_attempt E userName email password proxy totpSecret w = (inl err, w1) ->
     loginUser E userName email password proxy totpSecret w
     = (inr (login_failure err), w1) /\
     envelope_of (login_failure err)
     = Some (VObj [("success", VBool false); ("error", VStr (exn_message err))])) /\
  (forall err,
     upstream E (post_request E w "/user_login_v2"
                   (login_payload userName email password proxy totpSecret))
     = inl err ->
     loginUser E userName email password proxy totpSecret w
     = (inr (login_failure (api_error err)),
        with_request w
          (post_request E w "/user_login_v2"
             (login_payload userName email password proxy totpSecret)))) /\
  (forall args,
     truthy args = true ->
     exists r w', CallTool E "login_user" args w = (inr r, w')).
Proof.
  split; [apply loginUser_total|]. split; [|split].
  - intros err w1 Hthrown. unfold loginUser, try_catch. rewrite Hthrown.
    split; reflexivity.
  - intros err Hup. unfold loginUser, try_catch, login_attempt. cbv zeta.
    rewrite bind_run, makePostRequest_run.
    fold (login_payload userName email password proxy totpSecret).
    rewrite Hup. reflexivity.
  - intros args Hargs. unfold CallTool, try_catch. rewrite Hargs. cbn [negb].
    unfold dispatch, arg. cbn [String.eqb Ascii.eqb Bool.eqb].
    rewrite !(prop_truthy _ _ Hargs), !bind_lift_ok.
    destruct (loginUser_total E (field args "user_name") (field args "email")
                (field args "password") (field args "proxy")
                (field args "totp_secret") w) as (r & w' & ->).
    eexists _, _. reflexivity.
Qed.

Lemma loginUser_never_throws_witness :
  exists w',
    loginUser unauthorized_Env (VStr "bob") (VStr "bob@example.com")
      (VStr "hunter2") (VStr "http://u:p@10.0.0.1:8080") VUndefined initial_World
    = (inr (login_failure
              (Error "TwitterAPI.io API error (401): Unauthorized")), w') /\
    loginCookie w' = VNull /\
    exists r w'', CallTool unauthorized_Env "login_user" login_args initial_World
                  = (inr r, w'').
Proof.
  destruct (loginUser_never_throws unauthorized_Env (VStr "bob")
              (VStr "bob@example.com") (VStr "hunter2")
              (VStr "http://u:p@10.0.0.1:8080") VUndefined initial_World)
    as (_ & _ & Hup & Hcall).
  eexists. split; [|split].
  - rewrite (Hup _ eq_refl). vm_compute. reflexivity.
  - reflexivity.
  - apply (Hcall login_args eq_refl).
Defined.

(** ** C10: when the login cookie is overwritten *)

(** C10, as stated, fails: an upstream answer that contains a [login_cookie]
    field holding the empty string does not overwrite the stored cookie. *)
Lemma empty_login_cookie_not_stored :
  has_field login_with_empty_cookie "login_cookie" = true /\
  exists r w',
    CallTool empty_cookie_Env "login_user" login_args logged_in_World = (inr r, w') /\
    loginCookie w' = loginCookie logged_in_World /\
    loginCookie w' <> field login_with_empty_cookie "login_cookie".
Proof.
  split; [reflexivity|]. eexists _, _. split; [vm_compute; reflexivity|].
  split; [reflexivity|]. discriminate.
Qed.

(** C10, amended: when the upstream login request is answered, [loginUser]
    overwrites the session cookie exactly when the [login_cookie] field of the
    answer is truthy (present and not null, false, 0 or the empty string), and
    then with that value, whatever the answer's [status]; the reported
    [success] is [status === 'success'].  So a login reporting
    [success: false] can set the cookie, and the next create_tweet posts it
    as [login_cookies]. *)
Theorem login_cookie_stored_iff_truthy (E : Env)
    (userName email password proxy totpSecret : value) (w : World) (body : value) :
  upstream E (post_request E w "/user_login_v2"
                (login_payload userName email password proxy totpSecret))
  = ok body ->
  nullish body = false ->
  exists r w',
    loginUser E userName email password proxy totpSecret w = (inr r, w') /\
    envelope_of r = Some (login_report body) /\
    field (login_report body) "success"
    = VBool (strict_eq_string (field body "status") "success") /\
    (truthy (field body "login_cookie") = true ->
     loginCookie w' = field body "login_cookie") /\
    (truthy (field body "login_cookie") = false -> loginCookie w' = loginCookie w) /\
    (truthy (field body "login_cookie") = true ->
     forall tweetText proxy' replyToTweetId attachmentUrl mediaIds,
       wire (snd (createTweet E tweetText proxy' replyToTweetId attachmentUrl
                    mediaIds w'))
       = (wire w' ++ [post_request E w' "/create_tweet_v2"
                        (tweet_data (field body "login_cookie") tweetText proxy'
                           replyToTweetId attachmentUrl mediaIds)])%list).
Proof.
  intros Hup Hbody.
  pose proof (login_attempt_answered E userName email password proxy totpSecret
                w body Hup Hbody) as Hrun.
  cbv zeta in Hrun.
  eexists _, _. split.
  { unfold loginUser, try_catch. rewrite Hrun. reflexivity. }
  split; [reflexivity|]. split; [reflexivity|].
  destruct (truthy (field body "login_cookie")) eqn:Hcookie.
  - split; [reflexivity|]. split; [discriminate|].
    intros _ tweetText proxy' replyToTweetId attachmentUrl mediaIds.
    rewrite createTweet_run by exact Hcookie. reflexivity.
  - split; [discriminate|]. split; [reflexivity|]. discriminate.
Qed.

Lemma login_cookie_stored_iff_truthy_witness :
  exists r w',
    loginUser failed_login_Env (VStr "bob") (VStr "bob@example.com")
      (VStr "hunter2") (VStr "http://u:p@10.0.0.1:8080") VUndefined initial_World
    = (inr r, w') /\
    field (login_report failed_login_with_cookie) "success" = VBool false /\
    loginCookie w' = VStr "auth_token=abc" /\
    wire (snd (createTweet failed_login_Env (VStr "gm")
                 (VStr "http://u:p@10.0.0.1:8080") VUndefined VUndefined VUndefined
                 w'))
    = (wire w' ++ [post_request failed_login_Env w' "/create_tweet_v2"
                     (tweet_data (VStr "auth_token=abc") (VStr "gm")
                        (VStr "http://u:p@10.0.0.1:8080") VUndefined VUndefined
                        VUndefined)])%list.
Proof.
  destruct (login_cookie_stored_iff_truthy failed_login_Env (VStr "bob")
              (VStr "bob@example.com") (VStr "hunter2")
              (VStr "http://u:p@10.0.0.1:8080") VUndefined initial_World
              failed_login_with_cookie eq_refl eq_refl)
    as (r & w' & Hrun & _ & Hsuccess & Hset & _ & Hnext).
  exists r, w'. split; [exact Hrun|]. split; [exact Hsuccess|].
  split; [exact (Hset eq_refl)|]. apply (Hnext eq_refl).
Defined.

(** ** End-to-end runs *)

(** search_tweets({query: 'AI', queryType: 'Top'}) over twenty upstream
    tweets: the first ten, in order, and the pagination block. *)
Lemma search_tweets_default_bound :
  exists r w' kept,
    CallTool twenty_tweets_Env "search_tweets" top_AI_args initial_World
    = (inr r, w') /\
    data_of r = Some (VArr kept) /\
    map (fun t => field t "id") kept
    = map VStr ["1"; "2"; "3"; "4"; "5"; "6"; "7"; "8"; "9"; "10"] /\
    (exists doc,
       envelope_of r = Some doc /\
       field doc "pagination"
       = VObj [("hasNextPage", VBool true); ("nextCursor", VStr "abc")]) /\
    map params (wire w') = [VObj [("query", VStr "AI"); ("queryType", VStr "Top")]].
Proof.
  eexists _, _, _. split; [vm_compute; reflexivity|].
  split; [reflexivity|]. split; [reflexivity|]. split; [|reflexivity].
  eexists. split; reflexivity.
Qed.

(** search_tweets with a [save_dir]: one file, holding the envelope of the
    response. *)
Lemma search_tweets_saves_envelope :
  exists r w' doc,
    CallTool three_tweets_Env "search_tweets" saving_args initial_World
    = (inr r, w') /\
    envelope_of r = Some doc /\
    files w' !! "out/search_tweets_2024-05-01T12-30-45-123Z.json"
    = Some (JSON_stringify doc) /\
    size (files w') = 1%nat /\
    JSON_parse (JSON_stringify doc) = Some (json_doc doc).
Proof.
  eexists _, _, _. split; [vm_compute; reflexivity|].
  split; [reflexivity|]. split; [vm_compute; reflexivity|].
  split; [vm_compute; reflexivity|]. reflexivity.
Qed.

(** ** Footprint rules *)

Section KeepsRules.

Context (S : World -> World -> Prop) `{!PreOrder S}.

Lemma keeps_ret {A} (a : A) : keeps S (ret a).
Proof. intros w. reflexivity. Qed.

Lemma keeps_throw {A} (e : Exn) : keeps S (@throw A e).
Proof. intros w. reflexivity. Qed.

Lemma keeps_lift {A} (r : R A) : keeps S (lift r).
Proof. intros w. reflexivity. Qed.

Lemma keeps_get_loginCookie : keeps S get_loginCookie.
Proof. intros w. reflexivity. Qed.

Lemma keeps_existsSync dir : keeps S (existsSync dir).
Proof. intros w. reflexivity. Qed.

Lemma keeps_bind {A B} (m : M A) (k : A -> M B) :
  keeps S m -> (forall a, keeps S (k a)) -> keeps S (bind m k).
Proof.
  intros Hm Hk w. unfold bind. specialize (Hm w).
  destruct (m w) as [[e|a] w1]; cbn [snd] in *; [exact Hm|].
  etransitivity; [exact Hm|apply Hk].
Qed.

Lemma keeps_try_catch {A} (m : M A) (handler : Exn -> M A) :
  keeps S m -> (forall e, keeps S (handler e)) -> keeps S (try_catch m handler).
Proof.
  intros Hm Hh w. unfold try_catch. specialize (Hm w).
  destruct (m w) as [[e|a] w1]; cbn [snd] in *; [|exact Hm].
  etransitivity; [exact Hm|apply Hh].
Qed.

End KeepsRules.

Lemma keeps_weaken (S S' : World -> World -> Prop) {A} (m : M A) :
  (forall w w', S w w' -> S' w w') -> keeps S m -> keeps S' m.
Proof. intros Hsub Hm w. apply Hsub, Hm. Qed.

#[local] Instance same_cookie_preorder : PreOrder same_cookie.
Proof. split; unfold same_cookie; [intros w; reflexivity|intros a b c; congruence]. Qed.

#[local] Instance same_disk_preorder : PreOrder same_disk.
Proof.
  split; unfold same_disk; [intros w; split; reflexivity|].
  intros a b c [? ?] [? ?]. split; congruence.
Qed.

#[local] Instance same_wire_preorder : PreOrder same_wire.
Proof. split; unfold same_wire; [intros w; reflexivity|intros a b c; congruence]. Qed.

#[local] Instance cookie_kept_or_set_preorder : PreOrder cookie_kept_or_set.
Proof.
  split; unfold cookie_kept_or_set; [intros w; now left|].
  intros a b c [Hab|Hb] [Hbc|Hc]; try (now right).
  - left. congruence.
  - right. congruence.
Qed.

Create HintDb keeps.

Section Primitives.

Variable E : Env.

Lemma send_same_cookie rq : keeps same_cookie (send E rq).
Proof. intros w. reflexivity. Qed.

Lemma send_same_disk rq : keeps same_disk (send E rq).
Proof. intros w. split; reflexivity. Qed.

Lemma set_loginCookie_same_disk c : keeps same_disk (set_loginCookie c).
Proof. intros w. split; reflexivity. Qed.

Lemma set_loginCookie_same_wire c : keeps same_wire (set_loginCookie c).
Proof. intros w. reflexivity. Qed.

Lemma set_loginCookie_truthy c :
  truthy c = true -> keeps cookie_kept_or_set (set_loginCookie c).
Proof. intros Hc w. right. exact Hc. Qed.

Lemma mkdirSync_same_cookie dir : keeps same_cookie (mkdirSync E dir).
Proof.
  intros w. destruct dir; try reflexivity. cbn [mkdirSync].
  destruct (mkdir_fault E s); reflexivity.
Qed.

Lemma mkdirSync_same_wire dir : keeps same_wire (mkdirSync E dir).
Proof.
  intros w. destruct dir; try reflexivity. cbn [mkdirSync].
  destruct (mkdir_fault E s); reflexivity.
Qed.

Lemma writeFileSync_same_cookie path contents :
  keeps same_cookie (writeFileSync E path contents).
Proof. intros w. unfold writeFileSync. destruct (write_fault E path); reflexivity. Qed.

Lemma writeFileSync_same_wire path contents :
  keeps same_wire (writeFileSync E path contents).
Proof. intros w. unfold writeFileSync. destruct (write_fault E path); reflexivity. Qed.

End Primitives.

#[local] Hint Resolve send_same_cookie send_same_disk set_loginCookie_same_disk
  set_loginCookie_same_wire mkdirSync_same_cookie mkdirSync_same_wire
  writeFileSync_same_cookie writeFileSync_same_wire : keeps.

(** Syntax-directed search for a [keeps] judgement. *)
Ltac keeps_tac :=
  repeat first
    [ progress cbv zeta
    | solve [auto with keeps]
    | apply keeps_ret
    | apply keeps_throw
    | apply keeps_lift
    | apply keeps_get_loginCookie
    | apply keeps_existsSync
    | (apply keeps_bind; [ .. | intros ? ])
    | (apply keeps_try_catch; [ .. | intros ? ])
    | match goal with
      | |- PreOrder _ => solve [typeclasses eauto]
      | |- keeps _ (if ?b then _ else _) => destruct b eqn:?
      | |- keeps _ (match ?x with _ => _ end) => destruct x
      end ].

Section Footprints.

Variable E : Env.

Lemma rethrow_api_error_keeps S `{!PreOrder S} e : keeps S (rethrow_api_error e).
Proof. unfold rethrow_api_error. keeps_tac. Qed.

Lemma makeRequest_same_cookie endpoint params :
  keeps same_cookie (makeRequest E endpoint params).
Proof. unfold makeRequest. keeps_tac. apply rethrow_api_error_keeps; apply _. Qed.

Lemma makeRequest_same_disk endpoint params :
  keeps same_disk (makeRequest E endpoint params).
Proof. unfold makeRequest. keeps_tac. apply rethrow_api_error_keeps; apply _. Qed.

Lemma makePostRequest_same_cookie endpoint data :
  keeps same_cookie (makePostRequest E endpoint data).
Proof. unfold makePostRequest. keeps_tac. apply rethrow_api_error_keeps; apply _. Qed.

Lemma makePostRequest_same_disk endpoint data :
  keeps same_disk (makePostRequest E endpoint data).
Proof. unfold makePostRequest. keeps_tac. apply rethrow_api_error_keeps; apply _. Qed.

Lemma saveData_same_cookie data dir toolName :
  keeps same_cookie (saveData E data dir toolName).
Proof. unfold saveData. keeps_tac. Qed.

Lemma saveData_same_wire data dir toolName :
  keeps same_wire (saveData E data dir toolName).
Proof. unfold saveData. keeps_tac. Qed.

Lemma formatResponse_same_cookie cleanedData options :
  keeps same_cookie (formatResponse E cleanedData options).
Proof. unfold formatResponse. keeps_tac; apply saveData_same_cookie. Qed.

Lemma formatResponse_same_wire cleanedData options :
  keeps same_wire (formatResponse E cleanedData options).
Proof. unfold formatResponse. keeps_tac; apply saveData_same_wire. Qed.

Lemma formatResponse_same_disk cleanedData options :
  truthy (saveDir options) = false ->
  keeps same_disk (formatResponse E cleanedData options).
Proof.
  intros Hdir. unfold formatResponse. rewrite Hdir. cbn [andb]. keeps_tac.
Qed.

End Footprints.

(** ** The handler, tool by tool *)

Section Handler.

Variable E : Env.

Lemma dispatch_tool_call name args m w :
  truthy args = true -> tool_call E args name m -> dispatch E name args w = m w.
Proof.
  intros Hargs Hcall.
  destruct Hcall; unfold dispatch, arg; cbn [String.eqb Ascii.eqb Bool.eqb];
    rewrite !(prop_truthy _ _ Hargs), !bind_lift_ok; reflexivity.
Qed.

Lemma dispatch_unknown name args w :
  name ∉ tool_names ->
  dispatch E name args w
  = (inl (McpError MethodNotFound ("Unknown tool: " ++ name)), w).
Proof.
  intros Hname. not_a_tool Hname. unfold dispatch.
  repeat match goal with
         | Heq : String.eqb name _ = false |- _ => rewrite Heq; clear Heq
         end.
  reflexivity.
Qed.

Lemma tool_cases name args :
  name ∉ tool_names \/ exists m, tool_call E args name m.
Proof.
  destruct (String.eqb_spec name "get_user_by_username") as [->|?];
    [right; eexists; constructor|].
  destruct (String.eqb_spec name "get_user_by_id") as [->|?];
    [right; eexists; constructor|].
  destruct (String.eqb_spec name "get_user_tweets") as [->|?];
    [right; eexists; constructor|].
  destruct (String.eqb_spec name "search_tweets") as [->|?];
    [right; eexists; constructor|].
  destruct (String.eqb_spec name "get_tweet_by_id") as [->|?];
    [right; eexists; constructor|].
  destruct (String.eqb_spec name "get_tweet_replies") as [->|?];
    [right; eexists; constructor|].
  destruct (String.eqb_spec name "get_user_followers") as [->|?];
    [right; eexists; constructor|].
  destruct (String.eqb_spec name "get_user_following") as [->|?];
    [right; eexists; constructor|].
  destruct (String.eqb_spec name "search_users") as [->|?];
    [right; eexists; constructor|].
  destruct (String.eqb_spec name "login_user") as [->|?];
    [right; eexists; constructor|].
  destruct (String.eqb_spec name "create_tweet") as [->|?];
    [right; eexists; constructor|].
  left. unfold tool_names. rewrite !not_elem_of_cons.
  repeat split; try assumption. apply not_elem_of_nil.
Qed.

Lemma CallTool_run name args w :
  CallTool E name args w
  = if truthy args then wrap_outcome (dispatch E name args w)
    else (inl (McpError InvalidParams "Missing arguments"), w).
Proof.
  unfold CallTool, try_catch. destruct (truthy args); cbn [negb]; [|reflexivity].
  destruct (dispatch E name args w) as [[e|a] w']; [destruct e|]; reflexivity.
Qed.

Lemma snd_wrap_outcome {A} (outcome : R A * World) :
  snd (wrap_outcome outcome) = snd outcome.
Proof. destruct outcome as [[e|a] w']; reflexivity. Qed.

Lemma CallTool_tool_call name args m w :
  truthy args = true -> tool_call E args name m ->
  CallTool E name args w = wrap_outcome (m w).
Proof.
  intros Hargs Hcall. rewrite CallTool_run, Hargs.
  now rewrite (dispatch_tool_call name args m w Hargs Hcall).
Qed.

(** A footprint of every tool function is a footprint of the handler. *)
Lemma CallTool_keeps S `{!PreOrder S} name args :
  (forall m, tool_call E args name m -> keeps S m) ->
  keeps S (CallTool E name args).
Proof.
  intros Htools w. rewrite CallTool_run.
  destruct (truthy args) eqn:Hargs; [|reflexivity].
  rewrite snd_wrap_outcome.
  destruct (tool_cases name args) as [Hname|[m Hcall]].
  - rewrite dispatch_unknown by exact Hname. reflexivity.
  - rewrite (dispatch_tool_call name args m w Hargs Hcall). now apply Htools.
Qed.

End Handler.

#[local] Hint Resolve makeRequest_same_cookie makeRequest_same_disk
  makePostRequest_same_cookie makePostRequest_same_disk saveData_same_cookie
  saveData_same_wire formatResponse_same_cookie formatResponse_same_wire : keeps.

Lemma spread_saveDir_falsy saveDir :
  truthy saveDir = false -> truthy (spread_saveDir saveDir) = false.
Proof. intros Hdir. unfold spread_saveDir. now rewrite Hdir. Qed.

#[local] Hint Extern 1 (keeps same_disk (formatResponse _ _ _)) =>
  apply formatResponse_same_disk; cbn [saveDir];
  solve [auto using spread_saveDir_falsy] : keeps.

#[local] Hint Extern 1 (keeps cookie_kept_or_set (set_loginCookie _)) =>
  apply set_loginCookie_truthy; assumption : keeps.

Lemma keeps_cookie_weaken {A} (m : M A) :
  keeps same_cookie m -> keeps cookie_kept_or_set m.
Proof. apply keeps_weaken. intros w w' Hs. left. exact Hs. Qed.

#[local] Hint Extern 3 (keeps cookie_kept_or_set _) =>
  apply keeps_cookie_weaken; solve [auto with keeps] : keeps.

Ltac unfold_tools :=
  unfold getUserByUsername, getUserById, getUserTweets, searchTweets, getTweetById,
    getTweetReplies, getUserFollowers, getUserFollowing, searchUsers, loginUser,
    login_attempt, createTweet, pagination_of.

Section ToolFootprints.

Variable E : Env.

Lemma tool_same_cookie args name m :
  tool_call E args name m -> name <> "login_user" -> keeps same_cookie m.
Proof.
  intros Hcall Hname. destruct Hcall; try congruence; unfold_tools; keeps_tac.
Qed.

Lemma tool_cookie_kept_or_set args name m :
  tool_call E args name m -> keeps cookie_kept_or_set m.
Proof.
  intros Hcall. destruct Hcall; unfold_tools; keeps_tac.
Qed.

Lemma tool_same_disk args name m :
  tool_call E args name m ->
  truthy (field args "save_dir") = false \/
  name = "login_user" \/ name = "create_tweet" ->
  keeps same_disk m.
Proof.
  intros Hcall Hquiet.
  destruct Hcall;
    (destruct Hquiet as [Hdir|[Hname|Hname]];
     [|try discriminate Hname|try discriminate Hname]);
    unfold_tools; keeps_tac.
Qed.

End ToolFootprints.

(** ** The session cookie across calls *)

(** X1: a call to any tool other than login_user, whatever it returns or
    throws, leaves the session cookie as it was. *)
Theorem only_login_user_changes_cookie (E : Env) (name : string) (args : value)
    (w : World) :
  name <> "login_user" ->
  loginCookie (snd (CallTool E name args w)) = loginCookie w.
Proof.
  intros Hname. apply (CallTool_keeps E same_cookie).
  intros m Hcall. now apply (tool_same_cookie E args name m).
Qed.

Lemma only_login_user_changes_cookie_witness :
  loginCookie (snd (CallTool three_tweets_Env "search_tweets" two_items_args
                      logged_in_World))
  = VStr "auth_token=old".
Proof.
  exact (only_login_user_changes_cookie three_tweets_Env "search_tweets"
           two_items_args logged_in_World ltac:(discriminate)).
Defined.

Lemma run_calls_keeps E S `{!PreOrder S} calls :
  (forall name args, In (name, args) calls -> keeps S (CallTool E name args)) ->
  forall w, S w (run_calls E calls w).
Proof.
  induction calls as [|[name args] calls IH]; intros Hcalls w; cbn [run_calls].
  - reflexivity.
  - etransitivity.
    + apply (Hcalls name args). now left.
    + apply IH. intros name' args' Hin. apply Hcalls. now right.
Qed.

(** X2: once a cookie is stored, no sequence of calls clears it: after any
    session the cookie is still truthy (the old one or a newer one). *)
Theorem session_cookie_never_cleared (E : Env) (calls : list (string * value))
    (w : World) :
  truthy (loginCookie w) = true ->
  truthy (loginCookie (run_calls E calls w)) = true.
Proof.
  intros Hcookie.
  assert (Hstep : cookie_kept_or_set w (run_calls E calls w)).
  { apply (run_calls_keeps E cookie_kept_or_set). intros name args _.
    apply (CallTool_keeps E cookie_kept_or_set).
    intros m Hcall. now apply (tool_cookie_kept_or_set E args name m). }
  destruct Hstep as [Hsame|Hset]; [now rewrite Hsame|exact Hset].
Qed.

Lemma session_cookie_never_cleared_witness :
  truthy (loginCookie
            (run_calls empty_cookie_Env
               [("login_user", login_args); ("create_tweet", tweet_args);
                ("search_tweets", two_items_args)] logged_in_World)) = true.
Proof.
  exact (session_cookie_never_cleared empty_cookie_Env _ logged_in_World eq_refl).
Defined.

(** X3: in a session that starts without a cookie and contains no
    login_user call, the cookie stays absent, and a create_tweet call after
    it fails with the login precondition without contacting the upstream. *)
Theorem create_tweet_needs_login_user (E : Env) (calls : list (string * value))
    (args : value) :
  Forall (fun call => fst call <> "login_user") calls ->
  truthy args = true ->
  loginCookie (run_calls E calls initial_World) = VNull /\
  CallTool E "create_tweet" args (run_calls E calls initial_World)
  = (inl (McpError InternalError
            "TwitterAPI.io error: Must login first before creating tweets"),
     run_calls E calls initial_World).
Proof.
  intros Hcalls Hargs.
  assert (Hcookie : loginCookie (run_calls E calls initial_World) = VNull).
  { change VNull with (loginCookie initial_World).
    apply (run_calls_keeps E same_cookie). intros name args' Hin.
    apply (CallTool_keeps E same_cookie). intros m Hcall.
    apply (tool_same_cookie E args' name m Hcall).
    rewrite Forall_forall in Hcalls. apply (Hcalls (name, args')).
    now apply list_elem_of_In. }
  split; [exact Hcookie|].
  rewrite (CallTool_tool_call E "create_tweet" args _ _ Hargs
             (call_create_tweet E args)).
  unfold createTweet. rewrite bind_run. unfold get_loginCookie at 1.
  cbn [ok]. rewrite Hcookie. reflexivity.
Qed.

Lemma create_tweet_needs_login_user_witness :
  exists w,
    CallTool three_tweets_Env "create_tweet" tweet_args
      (run_calls three_tweets_Env
         [("search_tweets", two_items_args); ("get_user_by_username", VObj [])]
         initial_World)
    = (inl (McpError InternalError
              "TwitterAPI.io error: Must login first before creating tweets"), w) /\
    length (wire w) = 2%nat.
Proof.
  eexists. split.
  - apply (create_tweet_needs_login_user three_tweets_Env
             [("search_tweets", two_items_args); ("get_user_by_username", VObj [])]
             tweet_args); [|reflexivity].
    repeat constructor; discriminate.
  - vm_compute. reflexivity.
Defined.

(** ** The disk *)

(** X4: login_user and create_tweet never touch the disk, and neither does
    any other call whose [save_dir] argument is absent or falsy: the files
    and directories after the call are those before it. *)
Theorem disk_untouched_without_save_dir (E : Env) (name : string) (args : value)
    (w : World) :
  truthy (field args "save_dir") = false \/
  name = "login_user" \/ name = "create_tweet" ->
  files (snd (CallTool E name args w)) = files w /\
  dirs (snd (CallTool E name args w)) = dirs w.
Proof.
  intros Hquiet. apply (CallTool_keeps E same_disk).
  intros m Hcall. now apply (tool_same_disk E args name m).
Qed.

Lemma disk_untouched_without_save_dir_witness :
  files (snd (CallTool three_tweets_Env "search_tweets" two_items_args
                initial_World)) = ∅.
Proof.
  exact (proj1 (disk_untouched_without_save_dir three_tweets_Env "search_tweets"
                  two_items_args initial_World (or_introl eq_refl))).
Defined.

(** ** The requests a call sends *)

Section SendRules.

Variable E : Env.

Lemma sends_of_silent route {A} (m : M A) :
  keeps same_wire m -> sends_on E route m.
Proof. intros Hm w. left. apply Hm. Qed.

Lemma sends_bind_after_quiet route {A B} (m : M A) (k : A -> M B) :
  keeps same_cookie m -> keeps same_wire m ->
  (forall a, sends_on E route (k a)) -> sends_on E route (bind m k).
Proof.
  intros Hcookie Hwire Hk w. unfold bind.
  specialize (Hcookie w). specialize (Hwire w).
  unfold same_cookie, same_wire in *.
  destruct (m w) as [[e|a] w1]; cbn [snd] in *; [now left|].
  destruct (Hk a w1) as [Hsame|(rq & Hsent & Hroute & Hheaders)].
  - left. congruence.
  - right. exists rq. rewrite Hsent, Hwire, Hheaders, Hcookie. auto.
Qed.

Lemma sends_bind_then_silent route {A B} (m : M A) (k : A -> M B) :
  sends_on E route m -> (forall a, keeps same_wire (k a)) ->
  sends_on E route (bind m k).
Proof.
  intros Hm Hk w. unfold bind. specialize (Hm w).
  destruct (m w) as [[e|a] w1]; cbn [snd] in *; [exact Hm|].
  specialize (Hk a w1). unfold same_wire in Hk. rewrite Hk. exact Hm.
Qed.

Lemma sends_try_catch_silent route {A} (m : M A) (handler : Exn -> M A) :
  sends_on E route m -> (forall e, keeps same_wire (handler e)) ->
  sends_on E route (try_catch m handler).
Proof.
  intros Hm Hh w. unfold try_catch. specialize (Hm w).
  destruct (m w) as [[e|a] w1]; cbn [snd] in *; [|exact Hm].
  specialize (Hh e w1). unfold same_wire in Hh. rewrite Hh. exact Hm.
Qed.

Lemma makeRequest_sends endpoint params :
  sends_on E (Some (GET, endpoint)) (makeRequest E endpoint params).
Proof.
  intros w. right. rewrite makeRequest_run. cbn [snd].
  eexists. split; [reflexivity|]. split; reflexivity.
Qed.

Lemma makePostRequest_sends endpoint data :
  sends_on E (Some (POST, endpoint)) (makePostRequest E endpoint data).
Proof.
  intros w. right. rewrite makePostRequest_run. cbn [snd].
  eexists. split; [reflexivity|]. split; reflexivity.
Qed.

End SendRules.

#[local] Hint Resolve set_loginCookie_same_wire : keeps.

Ltac sends_tac :=
  repeat first
    [ progress cbv zeta
    | apply makeRequest_sends
    | apply makePostRequest_sends
    | (apply sends_bind_then_silent;
       [ solve [apply makeRequest_sends | apply makePostRequest_sends]
       | intros ?; solve [keeps_tac] ])
    | (apply sends_try_catch_silent; [ | intros ?; solve [keeps_tac] ])
    | (apply sends_bind_after_quiet;
       [ solve [keeps_tac] | solve [keeps_tac] | intros ? ])
    | (apply sends_of_silent; solve [keeps_tac])
    | match goal with
      | |- sends_on _ _ (if ?b then _ else _) => destruct b
      end ].

Section Requests.

Variable E : Env.

Lemma tool_sends args name m :
  tool_call E args name m -> sends_on E (route_of name) m.
Proof.
  intros Hcall.
  destruct Hcall; cbn [route_of String.eqb Ascii.eqb Bool.eqb];
    unfold_tools; sends_tac.
Qed.

Lemma route_of_unknown name : name ∉ tool_names -> route_of name = None.
Proof.
  intros Hname. not_a_tool Hname. unfold route_of.
  repeat match goal with
         | Heq : String.eqb name _ = false |- _ => rewrite Heq; clear Heq
         end.
  reflexivity.
Qed.

Lemma config_headers_api_key cookie :
  lookup_field (config_headers E cookie) "x-api-key"
  = if String.eqb (apiKey E) "" then VUndefined else VStr (apiKey E).
Proof.
  unfold config_headers. cbn [truthy].
  destruct (String.eqb (apiKey E) ""), (truthy cookie); reflexivity.
Qed.

Lemma config_headers_cookie cookie :
  lookup_field (config_headers E cookie) "Cookie"
  = if truthy cookie then cookie else VUndefined.
Proof.
  unfold config_headers. cbn [truthy].
  destruct (String.eqb (apiKey E) ""), (truthy cookie); reflexivity.
Qed.

End Requests.

(** X5: a call sends at most one upstream request.  If it sends one, it goes
    to the fixed route of the tool named (method and path), carries the
    [x-api-key] header exactly when an API key is configured, and carries as
    [Cookie] header the session cookie held when the call started, when there
    is one.  A call with an unknown tool name or without an argument object
    sends nothing. *)
Theorem one_request_per_call (E : Env) (name : string) (args : value) (w : World) :
  (wire (snd (CallTool E name args w)) = wire w \/
   exists rq,
     wire (snd (CallTool E name args w)) = (wire w ++ [rq])%list /\
     route_of name = Some (method rq, endpoint rq) /\
     lookup_field (headers rq) "x-api-key"
     = (if String.eqb (apiKey E) "" then VUndefined else VStr (apiKey E)) /\
     lookup_field (headers rq) "Cookie"
     = (if truthy (loginCookie w) then loginCookie w else VUndefined)) /\
  (truthy args = false \/ name ∉ tool_names ->
   wire (snd (CallTool E name args w)) = wire w).
Proof.
  rewrite CallTool_run.
  destruct (truthy args) eqn:Hargs; [|split; intros; now left + reflexivity].
  rewrite snd_wrap_outcome.
  destruct (tool_cases E name args) as [Hname|[m Hcall]].
  - rewrite dispatch_unknown by exact Hname. split; intros; now left + reflexivity.
  - rewrite (dispatch_tool_call E name args m w Hargs Hcall). split.
    + destruct (tool_sends E args name m Hcall w)
        as [Hsame|(rq & Hsent & Hroute & Hheaders)]; [now left|].
      right. exists rq. rewrite Hheaders.
      rewrite config_headers_api_key, config_headers_cookie. auto.
    + intros [Hfalse|Hname]; [discriminate|].
      pose proof (route_of_unknown name Hname) as Hnone.
      destruct (tool_sends E args name m Hcall w)
        as [Hsame|(rq & _ & Hroute & _)]; [exact Hsame|congruence].
Qed.

Lemma one_request_per_call_witness :
  wire (snd (CallTool three_tweets_Env "delete_tweet" two_items_args initial_World))
  = [].
Proof.
  refine (proj2 (one_request_per_call three_tweets_Env "delete_tweet"
                   two_items_args initial_World) (or_intror _)).
  unfold tool_names. rewrite !not_elem_of_cons.
  repeat split; try discriminate. apply not_elem_of_nil.
Defined.

(** ** The errors a call surfaces *)

Create HintDb soft.

Section SoftRules.

Lemma soft_ok {A} (a : A) : fails_softly (ok a).
Proof. intros e He. discriminate. Qed.

Lemma soft_prop v k : fails_softly (prop v k).
Proof. intros e He. destruct v; cbn in He; try discriminate; now injection He as <-. Qed.

Lemma soft_or_else a b : fails_softly a -> fails_softly b -> fails_softly (or_else a b).
Proof.
  intros Ha Hb e He. unfold or_else in He.
  destruct a as [ea|x]; cbn [rbind] in He; [apply Ha; congruence|].
  destruct (truthy x); [discriminate|]. now apply Hb.
Qed.

Lemma soft_cleanUser v : fails_softly (cleanUser v).
Proof. rewrite cleanUser_normal. apply soft_ok. Qed.

Lemma soft_cleanUserList v : fails_softly (cleanUserList v).
Proof. destruct (cleanUserList_total v) as [ys ->]. apply soft_ok. Qed.

Lemma soft_cleanTweetList v : fails_softly (cleanTweetList v).
Proof. destruct (cleanTweetList_total v) as [ys ->]. apply soft_ok. Qed.

Lemma soft_join_ids v : fails_softly (join_ids v).
Proof. intros e He. destruct v; cbn in He; try discriminate; now injection He as <-. Qed.

Lemma throws_softly_ret {A} (a : A) : throws_softly (ret a).
Proof. intros w e w' He. discriminate. Qed.

Lemma throws_softly_throw {A} e :
  is_McpError e = false -> throws_softly (@throw A e).
Proof. intros Hsoft w e' w' He. now injection He as <- <-. Qed.

Lemma throws_softly_lift {A} (r : R A) : fails_softly r -> throws_softly (lift r).
Proof. intros Hr w e w' He. apply Hr. unfold lift in He. congruence. Qed.

Lemma throws_softly_bind {A B} (m : M A) (k : A -> M B) :
  throws_softly m -> (forall a, throws_softly (k a)) -> throws_softly (bind m k).
Proof.
  intros Hm Hk w e w' He. unfold bind in He.
  destruct (m w) as [[e1|a] w1] eqn:Hrun.
  - injection He as <- <-. now apply (Hm w e1 w1).
  - now apply (Hk a w1 e w').
Qed.

Lemma throws_softly_get_loginCookie : throws_softly get_loginCookie.
Proof. intros w e w' He. discriminate. Qed.

End SoftRules.

#[local] Hint Resolve soft_ok soft_prop soft_or_else soft_cleanUser soft_cleanUserList
  soft_cleanTweetList soft_join_ids : soft.

Section SoftTools.

Variable E : Env.
Hypothesis upstream_soft : forall rq e, upstream E rq = inl e -> is_McpError e = false.

Lemma api_error_soft e : is_McpError e = false -> is_McpError (api_error e) = false.
Proof. destruct e; intros He; try discriminate; reflexivity. Qed.

Lemma makeRequest_throws_softly endpoint params :
  throws_softly (makeRequest E endpoint params).
Proof.
  intros w e w'. rewrite makeRequest_run.
  destruct (upstream E _) as [e1|body] eqn:Hup; [|discriminate].
  intros [= <- <-]. apply api_error_soft. eapply upstream_soft, Hup.
Qed.

Lemma makePostRequest_throws_softly endpoint data :
  throws_softly (makePostRequest E endpoint data).
Proof.
  intros w e w'. rewrite makePostRequest_run.
  destruct (upstream E _) as [e1|body] eqn:Hup; [|discriminate].
  intros [= <- <-]. apply api_error_soft. eapply upstream_soft, Hup.
Qed.

Lemma formatResponse_throws_softly cleanedData options :
  throws_softly (formatResponse E cleanedData options).
Proof.
  intros w e w'.
  destruct (formatResponse_total E cleanedData options w) as (t & w1 & -> & _).
  discriminate.
Qed.

Lemma loginUser_throws_softly userName email password proxy totpSecret :
  throws_softly (loginUser E userName email password proxy totpSecret).
Proof.
  intros w e w'.
  destruct (loginUser_total E userName email password proxy totpSecret w)
    as (r & w1 & ->).
  discriminate.
Qed.

End SoftTools.

Ltac soft_tac :=
  repeat first
    [ progress cbv zeta
    | apply throws_softly_ret
    | apply throws_softly_get_loginCookie
    | (apply throws_softly_throw; reflexivity)
    | (apply throws_softly_lift; solve [auto 10 with soft])
    | (apply makeRequest_throws_softly; assumption)
    | (apply makePostRequest_throws_softly; assumption)
    | apply formatResponse_throws_softly
    | (apply throws_softly_bind; [ | intros ? ])
    | match goal with
      | |- throws_softly (if ?b then _ else _) => destruct b
      end ].

Section Taxonomy.

Variable E : Env.
Hypothesis upstream_soft : forall rq e, upstream E rq = inl e -> is_McpError e = false.

Lemma tool_throws_softly args name m :
  tool_call E args name m -> throws_softly m.
Proof.
  intros Hcall. destruct Hcall;
    try (apply loginUser_throws_softly);
    unfold getUserByUsername, getUserById, getUserTweets, searchTweets,
      getTweetById, getTweetReplies, getUserFollowers, getUserFollowing,
      searchUsers, createTweet, pagination_of;
    soft_tac.
Qed.

Lemma tool_call_known args name m : tool_call E args name m -> name ∈ tool_names.
Proof.
  intros Hcall. destruct Hcall; unfold tool_names;
    rewrite !elem_of_cons; auto 12.
Qed.

End Taxonomy.

(** X6: the error classes of the handler are complete and exclusive.
    Provided the HTTP client itself never rejects with an [McpError], a call
    that fails fails in exactly one of three ways: InvalidParams 'Missing
    arguments' when there is no argument object; MethodNotFound when the
    name is not one of the eleven tools; otherwise InternalError whose
    message is 'TwitterAPI.io error: ' followed by the message of the
    underlying error.  In the first two cases the state is unchanged. *)
Theorem error_classes_complete (E : Env) (name : string) (args : value)
    (w w' : World) (e : Exn) :
  (forall rq e', upstream E rq = inl e' -> is_McpError e' = false) ->
  CallTool E name args w = (inl e, w') ->
  (truthy args = false /\
   e = McpError InvalidParams "Missing arguments" /\ w' = w) \/
  (truthy args = true /\ (name ∉ tool_names) /\
   e = McpError MethodNotFound ("Unknown tool: " ++ name) /\ w' = w) \/
  (truthy args = true /\ name ∈ tool_names /\
   exists cause,
     is_McpError cause = false /\
     e = McpError InternalError ("TwitterAPI.io error: " ++ exn_message cause)).
Proof.
  intros Hup. rewrite CallTool_run.
  destruct (truthy args) eqn:Hargs.
  - destruct (tool_cases E name args) as [Hname|[m Hcall]].
    + rewrite dispatch_unknown by exact Hname. cbn [wrap_outcome wrap_error].
      intros [= <- <-]. right. left. auto.
    + rewrite (dispatch_tool_call E name args m w Hargs Hcall).
      destruct (m w) as [[cause|r] w1] eqn:Hrun; cbn [wrap_outcome];
        [|discriminate].
      intros [= <- <-]. right. right.
      split; [reflexivity|]. split; [now apply (tool_call_known E args name m)|].
      exists cause.
      pose proof (tool_throws_softly E Hup args name m Hcall w cause w1 Hrun)
        as Hsoft.
      split; [exact Hsoft|]. destruct cause; try discriminate; reflexivity.
  - intros [= <- <-]. left. auto.
Qed.

Lemma error_classes_complete_witness :
  exists w',
    CallTool unauthorized_Env "search_tweets" two_items_args initial_World
    = (inl (McpError InternalError
              "TwitterAPI.io error: TwitterAPI.io API error (401): Unauthorized"),
       w') /\
    "search_tweets" ∈ tool_names.
Proof.
  destruct (CallTool unauthorized_Env "search_tweets" two_items_args initial_World)
    as [[e|r] w'] eqn:Hcall; [|vm_compute in Hcall; discriminate].
  assert (Hup : forall rq e', upstream unauthorized_Env rq = inl e' ->
                              is_McpError e' = false)
    by (intros rq e' [= <-]; reflexivity).
  destruct (error_classes_complete unauthorized_Env "search_tweets" two_items_args
              initial_World w' e Hup Hcall)
    as [(Hfalse & _)|[(_ & Hname & _)|(_ & Hknown & cause & _ & He)]].
  - discriminate.
  - exfalso. apply Hname. unfold tool_names. rewrite !elem_of_cons. auto 12.
  - exists w'. split; [|exact Hknown].
    vm_compute in Hcall. injection Hcall as <- <-. reflexivity.
Defined.

(** ** The request each read tool builds *)

Section RequestShapes.

Variable E : Env.

Lemma sent_then_silent endpoint params (k : value -> M CallToolResult) w :
  (forall a, keeps same_wire (k a)) ->
  wire (snd (bind (makeRequest E endpoint params) k w))
  = (wire w ++ [get_request E w endpoint params])%list.
Proof.
  intros Hk. rewrite bind_run, makeRequest_run.
  destruct (upstream E _) as [e|body]; [reflexivity|].
  rewrite (Hk body). reflexivity.
Qed.

Lemma wire_CallTool name args m w :
  truthy args = true -> tool_call E args name m ->
  wire (snd (CallTool E name args w)) = wire (snd (m w)).
Proof.
  intros Hargs Hcall. rewrite (CallTool_tool_call E name args m w Hargs Hcall).
  now rewrite snd_wrap_outcome.
Qed.

Lemma string_append_assoc (a b c : string) : ((a ++ b) ++ c = a ++ b ++ c)%string.
Proof.
  induction a as [|ch a IH]; [reflexivity|].
  change (String ch ((a ++ b) ++ c) = String ch (a ++ b ++ c))%string.
  now rewrite IH.
Qed.

Lemma fold_join sep (parts : list string) (p : string) :
  fold_left (fun acc q => acc ++ sep ++ q) parts p
  = match parts with
    | [] => p
    | _ => p ++ sep ++ String.concat sep parts
    end.
Proof.
  revert p. induction parts as [|q parts IH]; intros p; [reflexivity|].
  cbn [fold_left]. rewrite IH. destruct parts as [|q' parts]; [reflexivity|].
  change (String.concat sep (q :: q' :: parts))
    with (q ++ sep ++ String.concat sep (q' :: parts))%string.
  now rewrite !string_append_assoc.
Qed.

Lemma join_strings sep (ids : list string) :
  join (map VStr ids) sep = String.concat sep ids.
Proof.
  unfold join, join_with. rewrite map_map. cbn [nullish to_string].
  rewrite map_id. destruct ids as [|p parts]; [reflexivity|].
  rewrite fold_join. destruct parts; reflexivity.
Qed.

End RequestShapes.

(** X7: get_user_followers and get_user_following, called with a [pageSize]
    that is an integer or absent, always send exactly one request; its
    [pageSize] is the requested page size capped at 200 (200 when none is
    given), its [userName] is the [username] argument, and it has a [cursor]
    only when a truthy cursor was given. *)
Theorem page_size_clamped (E : Env) (args : value) (w : World) :
  truthy args = true ->
  integer_or_absent (field args "pageSize") ->
  forall name endpoint,
    (name, endpoint) = ("get_user_followers", "/user/followers") \/
    (name, endpoint) = ("get_user_following", "/user/followings") ->
    exists rq n,
      wire (snd (CallTool E name args w)) = (wire w ++ [rq])%list /\
      method rq = GET /\ endpoint = TwitterAPIMCPServer.endpoint rq /\
      field (params rq) "userName" = field args "username" /\
      field (params rq) "pageSize" = VNum n /\ n <= 200 /\
      (field args "pageSize" = VUndefined -> n = 200) /\
      (forall p, field args "pageSize" = VNum p -> n = Z.min p 200) /\
      field (params rq) "cursor"
      = (if truthy (field args "cursor") then field args "cursor" else VUndefined).
Proof.
  intros Hargs _ name endpoint [[= -> ->]|[= -> ->]].
  - rewrite (wire_CallTool E _ args _ w Hargs (call_get_user_followers E args)).
    unfold getUserFollowers. cbv zeta.
    rewrite sent_then_silent by (intros a; unfold_tools; keeps_tac).
    eexists _, _. split; [reflexivity|]. cbn [method endpoint params get_request].
    split; [reflexivity|]. split; [reflexivity|].
    destruct (truthy (field args "cursor"));
      (split; [reflexivity|]); (split; [reflexivity|]);
      (split; [apply Z.le_min_r|]); (split; [intros ->; reflexivity|]);
      (split; [intros p ->; reflexivity|reflexivity]).
  - rewrite (wire_CallTool E _ args _ w Hargs (call_get_user_following E args)).
    unfold getUserFollowing. cbv zeta.
    rewrite sent_then_silent by (intros a; unfold_tools; keeps_tac).
    eexists _, _. split; [reflexivity|]. cbn [method endpoint params get_request].
    split; [reflexivity|]. split; [reflexivity|].
    destruct (truthy (field args "cursor"));
      (split; [reflexivity|]); (split; [reflexivity|]);
      (split; [apply Z.le_min_r|]); (split; [intros ->; reflexivity|]);
      (split; [intros p ->; reflexivity|reflexivity]).
Qed.

Lemma page_size_clamped_witness :
  exists rq,
    wire (snd (CallTool three_tweets_Env "get_user_followers"
                 (VObj [("username", VStr "bob"); ("pageSize", VNum 500)])
                 initial_World)) = [rq] /\
    field (params rq) "pageSize" = VNum 200.
Proof.
  destruct (page_size_clamped three_tweets_Env
              (VObj [("username", VStr "bob"); ("pageSize", VNum 500)])
              initial_World eq_refl (or_intror (ex_intro _ 500 eq_refl))
              "get_user_followers" "/user/followers" (or_introl eq_refl))
    as (rq & n & Hwire & _ & _ & _ & Hsize & _ & _ & Hn & _).
  exists rq. split; [exact Hwire|]. rewrite Hsize, (Hn 500 eq_refl). reflexivity.
Defined.

(** X8: search_tweets always sends exactly one request to
    /tweet/advanced_search; its [query] is the argument, its [queryType] is
    'Latest' when the argument is absent and the argument otherwise, and it
    has a [cursor] only when a truthy cursor was given. *)
Theorem search_tweets_request (E : Env) (args : value) (w : World) :
  truthy args = true ->
  exists rq,
    wire (snd (CallTool E "search_tweets" args w)) = (wire w ++ [rq])%list /\
    method rq = GET /\ endpoint rq = "/tweet/advanced_search" /\
    field (params rq) "query" = field args "query" /\
    field (params rq) "queryType"
    = (match field args "queryType" with
       | VUndefined => VStr "Latest"
       | given => given
       end) /\
    field (params rq) "cursor"
    = (if truthy (field args "cursor") then field args "cursor" else VUndefined).
Proof.
  intros Hargs.
  rewrite (wire_CallTool E _ args _ w Hargs (call_search_tweets E args)).
  unfold searchTweets. cbv zeta.
  rewrite sent_then_silent by (intros a; unfold_tools; keeps_tac).
  eexists. split; [reflexivity|]. cbn [method endpoint params get_request].
  split; [reflexivity|]. split; [reflexivity|].
  destruct (truthy (field args "cursor")); repeat split;
    destruct (field args "queryType"); reflexivity.
Qed.

Lemma search_tweets_request_witness :
  exists rq,
    wire (snd (CallTool three_tweets_Env "search_tweets" negative_bound_args
                 initial_World)) = [rq] /\
    field (params rq) "queryType" = VStr "Latest" /\
    field (params rq) "cursor" = VUndefined.
Proof.
  destruct (search_tweets_request three_tweets_Env negative_bound_args
              initial_World eq_refl)
    as (rq & Hwire & _ & _ & _ & Htype & Hcursor).
  exists rq. split; [exact Hwire|]. split; [exact Htype|exact Hcursor].
Defined.

(** X9: get_user_tweets without a truthy [username] and without a truthy
    [userId] fails with 'Either username or userId must be provided',
    wrapped as an internal error, and sends nothing.  Otherwise it sends
    exactly one request to /user/last_tweets, with [userName], [userId] and
    [cursor] present only when the matching argument is truthy, and with
    [includeReplies] false when the argument is absent. *)
Theorem get_user_tweets_request (E : Env) (args : value) (w : World) :
  truthy args = true ->
  (truthy (field args "username") = false ->
   truthy (field args "userId") = false ->
   CallTool E "get_user_tweets" args w
   = (inl (McpError InternalError
             "TwitterAPI.io error: Either username or userId must be provided"),
      w)) /\
  (truthy (field args "username") || truthy (field args "userId") = true ->
   exists rq,
     wire (snd (CallTool E "get_user_tweets" args w)) = (wire w ++ [rq])%list /\
     method rq = GET /\ endpoint rq = "/user/last_tweets" /\
     field (params rq) "userName"
     = (if truthy (field args "username") then field args "username"
        else VUndefined) /\
     field (params rq) "userId"
     = (if truthy (field args "userId") then field args "userId" else VUndefined) /\
     field (params rq) "cursor"
     = (if truthy (field args "cursor") then field args "cursor" else VUndefined) /\
     field (params rq) "includeReplies"
     = (match field args "includeReplies" with
        | VUndefined => VBool false
        | given => given
        end)).
Proof.
  intros Hargs. split.
  - intros Hname Hid.
    rewrite (CallTool_tool_call E _ args _ w Hargs (call_get_user_tweets E args)).
    unfold getUserTweets. rewrite Hname, Hid. reflexivity.
  - intros Hwho.
    rewrite (wire_CallTool E _ args _ w Hargs (call_get_user_tweets E args)).
    unfold getUserTweets. cbv zeta.
    destruct (truthy (field args "username")) eqn:Hname,
             (truthy (field args "userId")) eqn:Hid;
      try discriminate Hwho; cbn [negb andb];
      rewrite sent_then_silent by (intros a; unfold_tools; keeps_tac);
      (eexists; split; [reflexivity|]);
      cbn [method endpoint params get_request];
      (split; [reflexivity|]); (split; [reflexivity|]);
      destruct (truthy (field args "cursor")), (field args "includeReplies");
      repeat split.
Qed.

Lemma get_user_tweets_request_witness :
  CallTool three_tweets_Env "get_user_tweets" (VObj [("cursor", VStr "abc")])
    initial_World
  = (inl (McpError InternalError
            "TwitterAPI.io error: Either username or userId must be provided"),
     initial_World) /\
  exists rq,
    wire (snd (CallTool three_tweets_Env "get_user_tweets"
                 (VObj [("userId", VStr "7")]) initial_World)) = [rq] /\
    params rq = VObj [("userId", VStr "7"); ("includeReplies", VBool false)].
Proof.
  split.
  - exact (proj1 (get_user_tweets_request three_tweets_Env
                    (VObj [("cursor", VStr "abc")]) initial_World eq_refl)
             eq_refl eq_refl).
  - destruct (proj2 (get_user_tweets_request three_tweets_Env
                       (VObj [("userId", VStr "7")]) initial_World eq_refl)
                eq_refl) as (rq & Hwire & _).
    exists rq. split; [exact Hwire|].
    vm_compute in Hwire. injection Hwire as <-. reflexivity.
Defined.

(** X10: get_tweet_by_id with an array of string ids sends exactly one
    request to /tweets whose only parameter [tweet_ids] is the ids joined by
    commas.  When [tweet_ids] is absent or not an array the call fails as an
    internal error and nothing is sent. *)
Theorem get_tweet_by_id_request (E : Env) (args : value) (w : World) :
  truthy args = true ->
  (forall ids : list string,
     field args "tweet_ids" = VArr (map VStr ids) ->
     wire (snd (CallTool E "get_tweet_by_id" args w))
     = (wire w ++ [get_request E w "/tweets"
                     (VObj [("tweet_ids", VStr (String.concat "," ids))])])%list) /\
  (is_array (field args "tweet_ids") = false ->
   exists message,
     CallTool E "get_tweet_by_id" args w
     = (inl (McpError InternalError ("TwitterAPI.io error: " ++ message)), w)).
Proof.
  intros Hargs. split.
  - intros ids Hids.
    rewrite (wire_CallTool E _ args _ w Hargs (call_get_tweet_by_id E args)).
    unfold getTweetById. rewrite Hids. cbn [join_ids]. rewrite bind_lift_ok.
    rewrite sent_then_silent by (intros a; unfold_tools; keeps_tac).
    now rewrite join_strings.
  - intros Hnot.
    rewrite (CallTool_tool_call E _ args _ w Hargs (call_get_tweet_by_id E args)).
    unfold getTweetById.
    destruct (field args "tweet_ids"); try discriminate Hnot;
      eexists; reflexivity.
Qed.

Lemma get_tweet_by_id_request_witness :
  exists rq,
    wire (snd (CallTool eleven_tweets_Env "get_tweet_by_id"
                 (VObj [("tweet_ids", VArr [VStr "20"; VStr "21"; VStr "22"])])
                 initial_World)) = [rq] /\
    params rq = VObj [("tweet_ids", VStr "20,21,22")] /\
  exists message,
    CallTool eleven_tweets_Env "get_tweet_by_id" (VObj [("tweet_ids", VStr "20")])
      initial_World
    = (inl (McpError InternalError ("TwitterAPI.io error: " ++ message)),
       initial_World).
Proof.
  eexists. split; [|split].
  - apply (proj1 (get_tweet_by_id_request eleven_tweets_Env
                    (VObj [("tweet_ids", VArr [VStr "20"; VStr "21"; VStr "22"])])
                    initial_World eq_refl) ["20"; "21"; "22"] eq_refl).
  - reflexivity.
  - apply (proj2 (get_tweet_by_id_request eleven_tweets_Env
                    (VObj [("tweet_ids", VStr "20")]) initial_World
                    eq_refl) eq_refl).
Defined.

(** ** What the read tools return *)

Section Returns.

Variable E : Env.

Lemma envelope_without_pagination t cleanedData :
  doc_of t = Some (envelope cleanedData VUndefined) ->
  envelope_of (text_result t) = Some (VObj [("data", cleanedData)]).
Proof. intros Hdoc. unfold envelope_of. cbn [content text_result text]. exact Hdoc. Qed.

(** The envelope of the six truncating tools. *)
Lemma list_tail_envelope (picked : R value) (clean : value -> R (list value))
    (max : Z) (sd tn body : value) w r w' :
  bind (lift picked)
    (fun items =>
       bind (lift (clean items))
         (fun cleanedList =>
            bind (pagination_of body)
              (fun pg =>
                 formatResponse E (VArr (slice0 cleanedList max))
                   {| saveDir := sd; toolName := tn; pagination := pg |}))) w
  = (inr r, w') ->
  exists kept,
    envelope_of r
    = Some (VObj [("data", VArr kept);
                  ("pagination",
                    VObj [("hasNextPage", field body "has_next_page");
                          ("nextCursor", field body "next_cursor")])]).
Proof.
  destruct picked as [e|items]; [discriminate|].
  unfold bind at 1, lift at 1.
  destruct (clean items) as [e|cleaned] eqn:Hclean;
    unfold bind at 1, lift at 1; [discriminate|].
  unfold pagination_of.
  destruct (nullish body) eqn:Hbody.
  { destruct body; try discriminate Hbody; discriminate. }
  rewrite !(prop_defined _ _ Hbody).
  unfold bind, lift, ret, ok. cbv beta iota.
  match goal with
  | |- formatResponse E ?c ?o w = _ -> _ =>
      destruct (formatResponse_total E c o w) as (t & w1 & -> & Hdoc & _)
  end.
  intros [= <- <-]. eexists. unfold envelope_of. cbn [content text_result text].
  rewrite Hdoc. reflexivity.
Qed.

Lemma truncating_tool_envelope tool args w r w' :
  truthy args = true ->
  dispatch E (tool_name tool) args w = (inr r, w') ->
  exists rq body kept,
    wire w' = (wire w ++ [rq])%list /\ upstream E rq = ok body /\
    envelope_of r
    = Some (VObj [("data", VArr kept);
                  ("pagination",
                    VObj [("hasNextPage", field body "has_next_page");
                          ("nextCursor", field body "next_cursor")])]).
Proof.
  intros Hargs Hrun.
  destruct (truncating_tool_ok E tool args w r w' Hargs Hrun)
    as (rq & body & _ & _ & Hwire & Hup & _).
  revert Hrun.
  destruct tool; cbn [tool_name];
    unfold dispatch, arg; cbn [String.eqb Ascii.eqb Bool.eqb];
    rewrite !(prop_truthy _ _ Hargs), !bind_lift_ok;
    unfold getUserTweets, searchTweets, getTweetReplies, getUserFollowers,
      getUserFollowing, searchUsers; cbv zeta;
    try case_throw;
    rewrite bind_run, makeRequest_run;
    match goal with |- context [upstream E ?q] => set (request := q) end;
    (destruct (upstream E request) as [e|body'] eqn:Hup'; [discriminate|]);
    intros Hrun; pose proof Hrun as Hrun';
    apply list_tail_ok in Hrun' as (_ & _ & _ & _ & _ & Hsame & _);
    apply list_tail_envelope in Hrun as (kept & Henv);
    exists request, body', kept; repeat split; try assumption;
    rewrite Hsame; reflexivity.
Qed.

End Returns.

(** X11: for each of the six paginated list tools, a call that returns
    puts in the envelope, next to [data], a [pagination] block whose
    [hasNextPage] and [nextCursor] are the [has_next_page] and
    [next_cursor] of the upstream answer, passed through unchanged (and
    undefined when the upstream gave none). *)
Theorem pagination_passed_through (E : Env) (tool : TruncatingTool) (args : value)
    (w w' : World) (r : CallToolResult) :
  CallTool E (tool_name tool) args w = (inr r, w') ->
  exists rq body doc,
    wire w' = (wire w ++ [rq])%list /\ upstream E rq = ok body /\
    envelope_of r = Some doc /\
    keys_of doc = Some ["data"; "pagination"] /\
    field doc "pagination"
    = VObj [("hasNextPage", field body "has_next_page");
            ("nextCursor", field body "next_cursor")].
Proof.
  intros Hcall. apply CallTool_inr in Hcall as [Hargs Hrun].
  destruct (truncating_tool_envelope E tool args w r w' Hargs Hrun)
    as (rq & body & kept & Hwire & Hup & Henv).
  exists rq, body. eexists. split; [exact Hwire|]. split; [exact Hup|].
  split; [exact Henv|]. split; reflexivity.
Qed.

Lemma pagination_passed_through_witness :
  exists r w' doc,
    CallTool three_tweets_Env "search_tweets" two_items_args initial_World
    = (inr r, w') /\
    envelope_of r = Some doc /\
    field doc "pagination"
    = VObj [("hasNextPage", VBool true); ("nextCursor", VStr "abc")].
Proof.
  destruct (CallTool three_tweets_Env "search_tweets" two_items_args initial_World)
    as [[e|r] w'] eqn:Hcall; [vm_compute in Hcall; discriminate|].
  destruct (pagination_passed_through three_tweets_Env SearchTweets two_items_args
              initial_World w' r Hcall)
    as (rq & body & doc & _ & Hup & Henv & _ & Hpage).
  injection Hup as <-.
  exists r, w', doc. split; [reflexivity|]. split; [exact Henv|exact Hpage].
Defined.

(** X12: for each of the six truncating tools, a call that returns without
    a [max_items] argument (or with [max_items] 0) returns at most 10 items,
    and a call with a positive integer [max_items] returns at most that
    many. *)
Theorem item_count_bounded (E : Env) (tool : TruncatingTool) (args : value)
    (w w' : World) (r : CallToolResult) :
  integer_or_absent (field args "max_items") ->
  CallTool E (tool_name tool) args w = (inr r, w') ->
  exists kept,
    data_of r = Some (VArr kept) /\
    (field args "max_items" = VUndefined \/ field args "max_items" = VNum 0 ->
     (length kept <= 10)%nat) /\
    (forall n,
       field args "max_items" = VNum n -> 0 < n ->
       Z.of_nat (length kept) <= n).
Proof.
  intros _ Hcall. apply CallTool_inr in Hcall as [Hargs Hrun].
  destruct (truncating_tool_ok E tool args w r w' Hargs Hrun)
    as (rq & body & items & cleaned & _ & _ & _ & _ & Hdata).
  eexists. split; [exact Hdata|]. unfold truncation_bound. split.
  - intros [-> | ->]; cbn [as_number or_number Z.eqb];
      pose proof (slice0_length cleaned 10 ltac:(lia)); lia.
  - intros n -> Hn. cbn [as_number or_number].
    destruct (Z.eqb_spec n 0) as [->|_]; [lia|].
    pose proof (slice0_length cleaned n ltac:(lia)). lia.
Qed.

Lemma item_count_bounded_witness :
  exists r w' kept,
    CallTool twenty_tweets_Env "search_tweets" top_AI_args initial_World
    = (inr r, w') /\
    data_of r = Some (VArr kept) /\ (length kept <= 10)%nat.
Proof.
  destruct (CallTool twenty_tweets_Env "search_tweets" top_AI_args initial_World)
    as [[e|r] w'] eqn:Hcall; [vm_compute in Hcall; discriminate|].
  destruct (item_count_bounded twenty_tweets_Env SearchTweets top_AI_args
              initial_World w' r (or_introl eq_refl) Hcall)
    as (kept & Hdata & Hdefault & _).
  exists r, w', kept. split; [reflexivity|]. split; [exact Hdata|].
  apply Hdefault. left. reflexivity.
Defined.

(** X13: get_user_by_username and get_user_by_id send one request to
    /user/info (keyed [userName], respectively [user_id]); when the upstream
    answers with a body, the call returns the cleaned [body.data] if that is
    truthy and the cleaned body itself otherwise, in an envelope without a
    pagination block, whatever [max_items] says.  For an object body the
    data is therefore always a canonical user object, never null. *)
Theorem single_user_unwrapped (E : Env) (args : value) (w : World) (body : value) :
  truthy args = true -> nullish body = false ->
  forall name key,
    (name, key) = ("get_user_by_username", ("userName", "username")) \/
    (name, key) = ("get_user_by_id", ("user_id", "user_id")) ->
    upstream E (get_request E w "/user/info"
                  (VObj [(fst key, field args (snd key))])) = ok body ->
    exists r w',
      CallTool E name args w = (inr r, w') /\
      envelope_of r
      = Some (VObj [("data",
                      normal_user (if truthy (field body "data")
                                   then field body "data" else body))]) /\
      (truthy body = true ->
       exists fields,
         data_of r = Some (VObj fields) /\ map fst fields = user_keys).
Proof.
  intros Hargs Hbody name key Hname Hup.
  assert (Hrun : exists r w',
             CallTool E name args w = (inr r, w') /\
             envelope_of r
             = Some (VObj [("data", normal_user (first_truthy [field body "data"; body]))])).
  { destruct Hname as [[= -> ->]|[= -> ->]]; cbn [fst snd] in Hup.
    - rewrite (CallTool_tool_call E _ args _ w Hargs
                 (call_get_user_by_username E args)).
      unfold getUserByUsername. rewrite bind_run, makeRequest_run, Hup.
      unfold ok at 1. cbv beta iota.
      rewrite (prop_defined _ _ Hbody), or_else_ok, bind_lift_ok.
      rewrite cleanUser_normal, bind_lift_ok.
      match goal with
      | |- context [formatResponse E ?c ?o ?w0] =>
          destruct (formatResponse_total E c o w0) as (t & w1 & -> & Hdoc & _)
      end.
      eexists _, _. split; [reflexivity|].
      now apply envelope_without_pagination.
    - rewrite (CallTool_tool_call E _ args _ w Hargs (call_get_user_by_id E args)).
      unfold getUserById. rewrite bind_run, makeRequest_run, Hup.
      unfold ok at 1. cbv beta iota.
      rewrite (prop_defined _ _ Hbody), or_else_ok, bind_lift_ok.
      rewrite cleanUser_normal, bind_lift_ok.
      match goal with
      | |- context [formatResponse E ?c ?o ?w0] =>
          destruct (formatResponse_total E c o w0) as (t & w1 & -> & Hdoc & _)
      end.
      eexists _, _. split; [reflexivity|].
      now apply envelope_without_pagination. }
  destruct Hrun as (r & w' & Hcall & Henv). exists r, w'.
  split; [exact Hcall|]. split; [exact Henv|].
  intros Htruthy. unfold data_of. rewrite Henv. cbn [first_truthy field lookup_field
    String.eqb Ascii.eqb Bool.eqb].
  unfold normal_user.
  destruct (truthy (field body "data")) eqn:Hdata; rewrite ?Hdata, ?Htruthy;
    eexists; split; reflexivity.
Qed.

Lemma single_user_unwrapped_witness :
  exists r w',
    CallTool one_user_Env "get_user_by_username"
      (VObj [("username", VStr "bob"); ("max_items", VNum 0)]) initial_World
    = (inr r, w') /\
    exists fields,
      data_of r = Some (VObj fields) /\ map fst fields = user_keys /\
      lookup_field fields "username" = VStr "bob".
Proof.
  destruct (single_user_unwrapped one_user_Env
              (VObj [("username", VStr "bob"); ("max_items", VNum 0)])
              initial_World
              (VObj [("data", VObj [("id", VStr "7"); ("userName", VStr "bob")])])
              eq_refl eq_refl "get_user_by_username" ("userName", "username")
              (or_introl eq_refl) eq_refl)
    as (r & w' & Hcall & Henv & Hobject).
  exists r, w'. split; [exact Hcall|].
  destruct (Hobject eq_refl) as (fields & Hdata & Hkeys).
  exists fields. split; [exact Hdata|]. split; [exact Hkeys|].
  unfold data_of in Hdata. rewrite Henv in Hdata.
  injection Hdata as <-. reflexivity.
Defined.

(** X14: what a failed upstream request surfaces as.  A rejection without a
    response becomes 'TwitterAPI.io API error (500): ' followed by the
    transport message; a response with a non-zero numeric status and a
    non-empty [error] string in its body becomes '(status): error'; a
    response whose body has no [error] keeps the status and falls back to
    the transport message; an error that is not an axios error is rethrown
    as it is.  In each case the request has been sent and nothing else
    changed. *)
Theorem upstream_failure_message (E : Env) (endpoint : string) (params : value)
    (w : World) (e : Exn) :
  upstream E (get_request E w endpoint params) = inl e ->
  exists surfaced,
    makeRequest E endpoint params w
    = (inl surfaced, with_request w (get_request E w endpoint params)) /\
    (forall message,
       e = AxiosError None message ->
       surfaced = Error ("TwitterAPI.io API error (500): " ++ message)) /\
    (forall status reason message body,
       e = AxiosError (Some (VNum status, VObj body)) message ->
       status <> 0 -> lookup_field body "error" = VStr reason -> reason <> "" ->
       surfaced
       = Error ("TwitterAPI.io API error (" ++ pretty status ++ "): " ++ reason)) /\
    (forall status message data,
       e = AxiosError (Some (VNum status, data)) message ->
       status <> 0 -> truthy (field data "error") = false ->
       surfaced
       = Error ("TwitterAPI.io API error (" ++ pretty status ++ "): " ++ message)) /\
    (is_McpError e = true \/ (exists m, e = Error m) \/ (exists m, e = TypeError m) ->
     surfaced = e).
Proof.
  intros Hup. exists (api_error e). rewrite makeRequest_run, Hup.
  split; [reflexivity|]. split; [|split; [|split]].
  - intros message ->. reflexivity.
  - intros status reason message body -> Hstatus Hreason Hne.
    unfold api_error. cbn [nullish field first_truthy truthy].
    rewrite Hreason. cbn [truthy].
    destruct (Z.eqb_spec status 0) as [?|_]; [contradiction|].
    destruct (String.eqb_spec reason "") as [?|_]; [contradiction|]. reflexivity.
  - intros status message data -> Hstatus Hnone.
    unfold api_error. cbn [first_truthy truthy].
    destruct (Z.eqb_spec status 0) as [?|_]; [contradiction|]. cbn [negb].
    destruct (nullish data) eqn:Hnull; cbn [truthy]; [reflexivity|].
    rewrite Hnone. reflexivity.
  - intros [Hmcp|[[m ->]|[m ->]]]; [|reflexivity|reflexivity].
    destruct e; try discriminate Hmcp; reflexivity.
Qed.

Lemma upstream_failure_message_witness :
  exists w',
    makeRequest unauthorized_Env "/user/info" (VObj [("userName", VStr "bob")])
      initial_World
    = (inl (Error "TwitterAPI.io API error (401): Unauthorized"), w').
Proof.
  destruct (upstream_failure_message unauthorized_Env "/user/info"
              (VObj [("userName", VStr "bob")]) initial_World _ eq_refl)
    as (surfaced & Hrun & _ & Hreason & _).
  eexists. rewrite Hrun.
  rewrite (Hreason 401 "Unauthorized" "Request failed with status code 401"
             [("error", VStr "Unauthorized")] eq_refl ltac:(discriminate) eq_refl
             ltac:(discriminate)).
  vm_compute. reflexivity.
Defined.

(** ** More on the data cleaners *)

Section CleanerShapes.

Lemma filter_normal (shape : value -> value) xs :
  (forall x, is_null (shape x) = false) ->
  List.filter (fun y => negb (is_null y))
    (map (fun x => if truthy x then shape x else VNull) xs)
  = map shape (List.filter truthy xs).
Proof.
  intros Hshape. induction xs as [|x xs IH]; [reflexivity|].
  cbn [map List.filter]. destruct (truthy x) eqn:Hx.
  - rewrite Hshape. cbn [negb map]. now rewrite IH.
  - cbn [is_null negb]. exact IH.
Qed.

Lemma cleanUserList_shapes xs :
  cleanUserList (VArr xs) = ok (map user_shape (List.filter truthy xs)).
Proof.
  rewrite cleanUserList_array. f_equal.
  now apply (filter_normal user_shape).
Qed.

Lemma cleanTweetList_shapes xs :
  cleanTweetList (VArr xs) = ok (map tweet_shape (List.filter truthy xs)).
Proof.
  rewrite cleanTweetList_array. f_equal.
  now apply (filter_normal tweet_shape).
Qed.

Lemma filter_length_le {A} (f : A -> bool) (l : list A) :
  (length (List.filter f l) <= length l)%nat.
Proof.
  induction l as [|x l IH]; cbn [List.filter length]; [lia|].
  destruct (f x); cbn [length]; lia.
Qed.

End CleanerShapes.

(** X15: on an array, the list cleaners keep exactly the truthy elements,
    in their order, each replaced by its canonical shape: the result has as
    many elements as the input has truthy ones (so never more than the
    input), and every element is an object with the canonical keys. *)
Theorem list_cleaners_keep_truthy (xs : list value) :
  cleanUserList (VArr xs) = ok (map user_shape (List.filter truthy xs)) /\
  cleanTweetList (VArr xs) = ok (map tweet_shape (List.filter truthy xs)) /\
  (length (map user_shape (List.filter truthy xs)) <= length xs)%nat /\
  Forall (fun y => keys_of y = Some user_keys)
    (map user_shape (List.filter truthy xs)) /\
  Forall (fun y => keys_of y = Some tweet_keys)
    (map tweet_shape (List.filter truthy xs)).
Proof.
  split; [apply cleanUserList_shapes|]. split; [apply cleanTweetList_shapes|].
  split; [rewrite length_map; apply filter_length_le|].
  split; apply Forall_map, Forall_forall; intros; reflexivity.
Qed.

(** X16: the cleaners read nothing but their candidate fields: two raw
    users (tweets) that agree on those fields, and are both truthy or both
    falsy, clean to the same value, so every other upstream field is
    dropped; and a truthy input always cleans to an object with exactly the
    canonical keys, in order. *)
Theorem cleaners_read_only_candidates :
  (forall u u',
     truthy u = truthy u' ->
     (forall k, In k user_source_fields -> field u k = field u' k) ->
     cleanUser u = cleanUser u') /\
  (forall t t',
     truthy t = truthy t' ->
     (forall k, In k tweet_source_fields -> field t k = field t' k) ->
     cleanTweet t = cleanTweet t') /\
  (forall u, truthy u = true ->
     exists cleaned, cleanUser u = ok cleaned /\ keys_of cleaned = Some user_keys) /\
  (forall t, truthy t = true ->
     exists cleaned, cleanTweet t = ok cleaned /\ keys_of cleaned = Some tweet_keys).
Proof.
  split; [|split; [|split]].
  - intros u u' Htruthy Hfields. rewrite !cleanUser_normal.
    unfold normal_user, user_shape, verified_candidates. rewrite Htruthy.
    repeat match goal with
           | |- context [field u ?k] =>
               rewrite (Hfields k) by (unfold user_source_fields; in_list)
           end.
    reflexivity.
  - intros t t' Htruthy Hfields. rewrite !cleanTweet_normal.
    unfold normal_tweet, tweet_shape, nested_field. rewrite Htruthy.
    repeat match goal with
           | |- context [field t ?k] =>
               rewrite (Hfields k) by (unfold tweet_source_fields; in_list)
           end.
    reflexivity.
  - intros u Hu. rewrite cleanUser_normal. unfold normal_user. rewrite Hu.
    eexists. split; reflexivity.
  - intros t Ht. rewrite cleanTweet_normal. unfold normal_tweet. rewrite Ht.
    eexists. split; reflexivity.
Qed.

Lemma cleaners_read_only_candidates_witness :
  cleanUser full_user
  = cleanUser (VObj [("id", VStr "7"); ("userName", VStr "bob");
                     ("name", VStr "Bob"); ("description", VStr "hi");
                     ("verified", VBool false); ("followers", VNum 3);
                     ("following", VNull); ("statusesCount", VNum 12);
                     ("location", VStr "Paris"); ("url", VStr "https://example.com");
                     ("createdAt", VStr "2020-01-01")]).
Proof.
  apply (proj1 cleaners_read_only_candidates); [reflexivity|].
  intros k Hk. unfold user_source_fields in Hk. cbn [In] in Hk.
  repeat (destruct Hk as [<-|Hk]; [reflexivity|]). contradiction.
Defined.

(** X17: cleaning is not idempotent.  Cleaning a cleaned user again keeps
    [id], [username], [name], [description], [location] and [url] but loses
    [tweets] and [created], whose canonical keys are not among the fields
    the cleaner reads; cleaning a cleaned tweet again keeps [id], [text],
    [isReply], [isRetweet], [conversationId] and [lang] and loses [created],
    the four counts, [views] and [inReplyTo]. *)
Theorem recleaning_loses_fields :
  (forall u, truthy u = true ->
     exists once twice,
       cleanUser u = ok once /\ cleanUser once = ok twice /\
       field twice "tweets" = VUndefined /\ field twice "created" = VUndefined /\
       (forall k, In k ["id"; "username"; "name"; "description"; "location"; "url"] ->
                  field twice k = field once k) /\
       (field once "created" <> VUndefined -> twice <> once)) /\
  (forall t, truthy t = true ->
     exists once twice,
       cleanTweet t = ok once /\ cleanTweet once = ok twice /\
       (forall k, In k ["created"; "retweets"; "likes"; "replies"; "quotes"; "views";
                        "inReplyTo"] ->
                  field twice k = VUndefined) /\
       (forall k, In k ["id"; "text"; "isReply"; "isRetweet"; "conversationId"; "lang"] ->
                  field twice k = field once k)).
Proof.
  split.
  - intros u Hu. exists (user_shape u), (user_shape (user_shape u)).
    rewrite !cleanUser_normal. unfold normal_user at 1. rewrite Hu.
    split; [reflexivity|]. split; [reflexivity|].
    split; [reflexivity|]. split; [reflexivity|]. split.
    + intros k Hk. cbn [In] in Hk.
      repeat (destruct Hk as [<-|Hk]; [try reflexivity|]); try contradiction.
      * cbn. destruct (truthy (field u "location")) eqn:Hl; rewrite ?Hl; reflexivity.
      * cbn. destruct (truthy (field u "url")) eqn:Hl; rewrite ?Hl; reflexivity.
    + intros Hcreated Heq. apply Hcreated. rewrite <- Heq. reflexivity.
  - intros t Ht. exists (tweet_shape t), (tweet_shape (tweet_shape t)).
    rewrite !cleanTweet_normal. unfold normal_tweet at 1. rewrite Ht.
    split; [reflexivity|]. split; [reflexivity|]. split.
    + intros k Hk. cbn [In] in Hk.
      repeat (destruct Hk as [<-|Hk]; [reflexivity|]). contradiction.
    + intros k Hk. cbn [In] in Hk.
      repeat (destruct Hk as [<-|Hk]; [reflexivity|]). contradiction.
Qed.

Lemma recleaning_loses_fields_witness :
  exists once twice,
    cleanUser full_user = ok once /\ cleanUser once = ok twice /\
    field once "tweets" = VNum 12 /\ field twice "tweets" = VUndefined /\
    field once "created" = VStr "2020-01-01" /\ field twice "created" = VUndefined /\
    twice <> once.
Proof.
  destruct (proj1 recleaning_loses_fields full_user eq_refl)
    as (once & twice & Honce & Htwice & Htweets & Hcreated & _ & Hne).
  exists once, twice. injection Honce as <-.
  split; [reflexivity|]. split; [exact Htwice|]. split; [reflexivity|].
  split; [exact Htweets|]. split; [reflexivity|]. split; [exact Hcreated|].
  apply Hne. discriminate.
Defined.

(** ** The saved file name *)

Section Timestamps.

Lemma replace_colon_dot_get s n :
  String.get n (replace_colon_dot s)
  = match String.get n s with
    | Some c =>
        Some (if Ascii.eqb c ":"%char || Ascii.eqb c "."%char then "-"%char else c)
    | None => None
    end.
Proof.
  revert n. induction s as [|c s IH]; intros n; [reflexivity|].
  destruct n as [|n]; cbn [replace_colon_dot String.get]; [reflexivity|apply IH].
Qed.

End Timestamps.

(** X18: the timestamp in a saved file name is the ISO timestamp with every
    ':' and '.' replaced by '-' and every other character kept in place: it
    has the same length, contains no ':' and no '.', and sanitizing it again
    changes nothing. *)
Theorem timestamp_sanitized (s : string) :
  String.length (replace_colon_dot s) = String.length s /\
  (forall n c, String.get n (replace_colon_dot s) = Some c ->
               c <> ":"%char /\ c <> "."%char) /\
  (forall n c, String.get n s = Some c ->
               String.get n (replace_colon_dot s)
               = Some (if Ascii.eqb c ":"%char || Ascii.eqb c "."%char
                       then "-"%char else c)) /\
  replace_colon_dot (replace_colon_dot s) = replace_colon_dot s.
Proof.
  split; [|split; [|split]].
  - induction s as [|c s IH]; cbn [replace_colon_dot String.length]; congruence.
  - intros n c. rewrite replace_colon_dot_get.
    destruct (String.get n s) as [c0|]; [|discriminate].
    intros [= <-].
    destruct (Ascii.eqb_spec c0 ":"%char), (Ascii.eqb_spec c0 "."%char);
      cbn [orb]; split; try discriminate; assumption.
  - intros n c Hc. now rewrite replace_colon_dot_get, Hc.
  - induction s as [|c s IH]; cbn [replace_colon_dot]; [reflexivity|].
    rewrite IH. f_equal.
    destruct (Ascii.eqb_spec c ":"%char), (Ascii.eqb_spec c "."%char);
      cbn [orb]; try reflexivity.
    destruct (Ascii.eqb c ":"%char || Ascii.eqb c "."%char) eqn:Hc; [|reflexivity].
    apply orb_true_iff in Hc as [Hc|Hc]; apply Ascii.eqb_eq in Hc; contradiction.
Qed.

Lemma timestamp_sanitized_witness :
  replace_colon_dot "2024-05-01T12:30:45.123Z" = "2024-05-01T12-30-45-123Z" /\
  String.get 13 (replace_colon_dot "2024-05-01T12:30:45.123Z") = Some "-"%char.
Proof.
  split; [reflexivity|].
  exact (proj1 (proj2 (proj2 (timestamp_sanitized "2024-05-01T12:30:45.123Z")))
           13%nat ":"%char eq_refl).
Defined.

(** ** create_tweet and login_user, once more *)

(** X19: with a session cookie stored, create_tweet called with [media_ids]
    that is an array or absent sends exactly one POST to /create_tweet_v2
    whose body carries the stored cookie as [login_cookies], the
    [tweet_text] and the [proxy]; [reply_to_tweet_id] and [attachment_url]
    only when truthy; [media_ids] only when the array is not empty.  The
    upstream answer is returned verbatim as JSON text, an upstream failure
    is surfaced as an internal error, and in both cases the cookie stays. *)
Theorem create_tweet_posts (E : Env) (args : value) (w : World) :
  truthy args = true -> truthy (loginCookie w) = true ->
  field args "media_ids" = VUndefined \/ is_array (field args "media_ids") = true ->
  exists rq,
    wire (snd (CallTool E "create_tweet" args w)) = (wire w ++ [rq])%list /\
    loginCookie (snd (CallTool E "create_tweet" args w)) = loginCookie w /\
    method rq = POST /\ endpoint rq = "/create_tweet_v2" /\
    field (data rq) "login_cookies" = loginCookie w /\
    field (data rq) "tweet_text" = field args "tweet_text" /\
    field (data rq) "proxy" = field args "proxy" /\
    field (data rq) "reply_to_tweet_id"
    = (if truthy (field args "reply_to_tweet_id")
       then field args "reply_to_tweet_id" else VUndefined) /\
    field (data rq) "attachment_url"
    = (if truthy (field args "attachment_url")
       then field args "attachment_url" else VUndefined) /\
    field (data rq) "media_ids"
    = match field args "media_ids" with
      | VArr (id :: ids) => VArr (id :: ids)
      | _ => VUndefined
      end /\
    (forall answer,
       upstream E rq = ok answer ->
       fst (CallTool E "create_tweet" args w)
       = inr (text_result (JSON_stringify answer))) /\
    (forall e,
       upstream E rq = inl e ->
       fst (CallTool E "create_tweet" args w) = inl (wrap_error (api_error e))).
Proof.
  intros Hargs Hcookie Hmedia.
  rewrite (CallTool_tool_call E _ args _ w Hargs (call_create_tweet E args)).
  rewrite createTweet_run by exact Hcookie. cbv zeta.
  eexists. split; [rewrite snd_wrap_outcome; reflexivity|].
  split; [rewrite snd_wrap_outcome; reflexivity|].
  cbn [method endpoint data post_request].
  split; [reflexivity|]. split; [reflexivity|].
  unfold tweet_data.
  destruct (field args "media_ids") as [| | | | |[|id ids]|];
    try (destruct Hmedia; discriminate);
    cbn [truthy length_positive length Nat.eqb negb andb];
    destruct (truthy (field args "reply_to_tweet_id")),
             (truthy (field args "attachment_url"));
    (repeat (split; [reflexivity|])); split;
    intros ? Hup; rewrite Hup; reflexivity.
Qed.

Lemma create_tweet_posts_witness :
  exists rq,
    wire (snd (CallTool three_tweets_Env "create_tweet"
                 (VObj [("tweet_text", VStr "gm"); ("proxy", VStr "http://p");
                        ("media_ids", VArr [])]) logged_in_World)) = [rq] /\
    data rq
    = VObj [("login_cookies", VStr "auth_token=old"); ("tweet_text", VStr "gm");
            ("proxy", VStr "http://p")] /\
    fst (CallTool three_tweets_Env "create_tweet"
           (VObj [("tweet_text", VStr "gm"); ("proxy", VStr "http://p");
                  ("media_ids", VArr [])]) logged_in_World)
    = inr (text_result (JSON_stringify three_tweets)).
Proof.
  destruct (create_tweet_posts three_tweets_Env
              (VObj [("tweet_text", VStr "gm"); ("proxy", VStr "http://p");
                     ("media_ids", VArr [])]) logged_in_World eq_refl eq_refl
              (or_intror eq_refl))
    as (rq & Hwire & _ & _ & _ & _ & _ & _ & _ & _ & _ & Hanswer & _).
  exists rq. split; [exact Hwire|].
  split; [vm_compute in Hwire; injection Hwire as <-; reflexivity|].
  apply Hanswer. reflexivity.
Defined.

(** X20: at start-up the outbound proxy is the first non-empty one of
    PROXY_URL, HTTP_PROXY and HTTPS_PROXY, in that order; when there is one,
    an HTTPS agent is created for it and axios' own proxy handling is
    switched off, and when there is none the configuration has neither.
    The base URL, the 30 s timeout and the two default headers never depend
    on the environment.  Without a non-empty TWITTERAPI_API_KEY the key is
    the empty string, the warning is logged, and no request carries an
    [x-api-key] header. *)
Theorem startup_configuration (env : ProcessEnv) :
  let config := constructor_axiosConfig env in
  baseURL config = "https://api.twitterapi.io/twitter" /\
  timeout config = 30000 /\
  default_headers config
  = [("Content-Type", "application/json");
     ("User-Agent", "TwitterAPI-MCP-Server/1.0.0")] /\
  (forall skipped url rest,
     [env "PROXY_URL"; env "HTTP_PROXY"; env "HTTPS_PROXY"]
     = (skipped ++ url :: rest)%list ->
     Forall (fun v => truthy v = false) skipped -> truthy url = true ->
     httpsAgent config = Some url /\ proxy config = Some false) /\
  (Forall (fun v => truthy v = false)
     [env "PROXY_URL"; env "HTTP_PROXY"; env "HTTPS_PROXY"] ->
   httpsAgent config = None /\ proxy config = None) /\
  (truthy (env "TWITTERAPI_API_KEY") = false ->
   constructor_apiKey env = VStr "" /\ constructor_warns env = true /\
   forall E cookie,
     apiKey E = to_string (constructor_apiKey env) ->
     lookup_field (config_headers E cookie) "x-api-key" = VUndefined).
Proof.
  cbv zeta. unfold constructor_axiosConfig. cbv zeta.
  set (proxyUrl := js_or (js_or (env "PROXY_URL") (env "HTTP_PROXY"))
                     (env "HTTPS_PROXY")).
  assert (Hfirst : proxyUrl
                   = first_truthy [env "PROXY_URL"; env "HTTP_PROXY";
                                   env "HTTPS_PROXY"]).
  { unfold proxyUrl, js_or. cbn [first_truthy].
    destruct (truthy (env "PROXY_URL")) eqn:H1; rewrite ?H1; [reflexivity|].
    destruct (truthy (env "HTTP_PROXY")) eqn:H2; rewrite ?H2; reflexivity. }
  split; [destruct (truthy proxyUrl); reflexivity|].
  split; [destruct (truthy proxyUrl); reflexivity|].
  split; [destruct (truthy proxyUrl); reflexivity|].
  split; [|split].
  - intros skipped url rest Hsplit Hskipped Hurl.
    assert (Hurl' : proxyUrl = url).
    { rewrite Hfirst, Hsplit. now apply first_truthy_spec. }
    rewrite Hurl', Hurl. split; reflexivity.
  - intros Hnone.
    inversion Hnone as [|? ? H1 Hnone1]; subst.
    inversion Hnone1 as [|? ? H2 Hnone2]; subst.
    inversion Hnone2 as [|? ? H3 _]; subst.
    assert (Hfalse : truthy proxyUrl = false).
    { rewrite Hfirst. cbn [first_truthy]. now rewrite H1, H2. }
    rewrite Hfalse. split; reflexivity.
  - intros Hkey. unfold constructor_warns, constructor_apiKey, js_or.
    rewrite Hkey. split; [reflexivity|]. split; [reflexivity|].
    intros E cookie HE. rewrite config_headers_api_key, HE. reflexivity.
Qed.

Lemma startup_configuration_witness :
  httpsAgent (constructor_axiosConfig sample_process_env)
  = Some (VStr "http://proxy.corp:3128") /\
  proxy (constructor_axiosConfig sample_process_env) = Some false /\
  constructor_warns sample_process_env = true.
Proof.
  destruct (startup_configuration sample_process_env)
    as (_ & _ & _ & Hproxy & _ & Hkey).
  destruct (Hproxy [VStr ""; VUndefined] (VStr "http://proxy.corp:3128") []
              eq_refl ltac:(repeat constructor) eq_refl) as [Hagent Hoff].
  split; [exact Hagent|]. split; [exact Hoff|].
  exact (proj1 (proj2 (Hkey eq_refl))).
Defined.

Lemma loginUser_answered (E : Env) userName email password proxy' totpSecret w body :
  upstream E (post_request E w "/user_login_v2"
                (login_payload userName email password proxy' totpSecret))
  = ok body ->
  nullish body = false ->
  fst (loginUser E userName email password proxy' totpSecret w)
  = inr (text_result (JSON_stringify (login_report body))).
Proof.
  intros Hup Hbody. unfold loginUser, try_catch.
  now rewrite (login_attempt_answered E _ _ _ _ _ w body Hup Hbody).
Qed.

Lemma fst_wrap_outcome_inr {A} (outcome : R A * World) (a : A) :
  fst outcome = inr a -> fst (wrap_outcome outcome) = inr a.
Proof. destruct outcome as [[e|a'] w']; cbn; congruence. Qed.

(** X21: login_user posts [user_name], [email], [password] and [proxy],
    plus [totp_secret] only when it is truthy.  When the upstream answers,
    the reported [message] is the answer's [msg] if truthy and 'Login
    successful' otherwise, independently of [status]: an answer whose status
    is not 'success' and that has no [msg] is reported as success: false
    with the message 'Login successful'. *)
Theorem login_request_and_report (E : Env) (args : value) (w : World) :
  truthy args = true ->
  exists rq,
    wire (snd (CallTool E "login_user" args w)) = (wire w ++ [rq])%list /\
    method rq = POST /\ endpoint rq = "/user_login_v2" /\
    field (data rq) "user_name" = field args "user_name" /\
    field (data rq) "email" = field args "email" /\
    field (data rq) "password" = field args "password" /\
    field (data rq) "proxy" = field args "proxy" /\
    field (data rq) "totp_secret"
    = (if truthy (field args "totp_secret") then field args "totp_secret"
       else VUndefined) /\
    (forall body,
       upstream E rq = ok body -> nullish body = false ->
       exists r doc,
         fst (CallTool E "login_user" args w) = inr r /\
         envelope_of r = Some doc /\
         field doc "message"
         = (if truthy (field body "msg") then field body "msg"
            else VStr "Login successful") /\
         (strict_eq_string (field body "status") "success" = false ->
          field doc "success" = VBool false)).
Proof.
  intros Hargs.
  rewrite (CallTool_tool_call E _ args _ w Hargs (call_login_user E args)).
  set (rq := post_request E w "/user_login_v2"
               (login_payload (field args "user_name") (field args "email")
                  (field args "password") (field args "proxy")
                  (field args "totp_secret"))).
  exists rq. split.
  { rewrite snd_wrap_outcome. unfold loginUser, try_catch, login_attempt. cbv zeta.
    rewrite bind_run, makePostRequest_run.
    fold (login_payload (field args "user_name") (field args "email")
            (field args "password") (field args "proxy") (field args "totp_secret")).
    fold rq. destruct (upstream E rq) as [e|body]; [reflexivity|].
    unfold ok at 1. cbv beta iota.
    destruct (prop body "login_cookie") as [e|cookie] eqn:Hprop;
      [reflexivity|].
    rewrite bind_lift_ok.
    destruct (truthy cookie); unfold bind, set_loginCookie, ret, lift, ok;
      cbv beta iota;
      destruct (prop body "status") as [e|status]; cbv beta iota;
      try reflexivity;
      destruct (or_else (prop body "msg") (inr (VStr "Login successful")))
        as [e|message]; cbv beta iota; try reflexivity;
      rewrite Hprop; reflexivity. }
  assert (Hreport : forall body,
             upstream E rq = ok body -> nullish body = false ->
             exists r doc,
               fst (wrap_outcome
                      (loginUser E (field args "user_name") (field args "email")
                         (field args "password") (field args "proxy")
                         (field args "totp_secret") w)) = inr r /\
               envelope_of r = Some doc /\
               field doc "message"
               = (if truthy (field body "msg") then field body "msg"
                  else VStr "Login successful") /\
               (strict_eq_string (field body "status") "success" = false ->
                field doc "success" = VBool false)).
  { intros body Hup Hbody. exists (text_result (JSON_stringify (login_report body))).
    exists (login_report body).
    split; [apply fst_wrap_outcome_inr; now apply loginUser_answered|].
    split; [reflexivity|]. split.
    - cbn. destruct (truthy (field body "msg")); reflexivity.
    - intros Hstatus. cbn. now rewrite Hstatus. }
  cbn [method endpoint data post_request rq] in *.
  split; [reflexivity|]. split; [reflexivity|].
  unfold login_payload in *.
  destruct (truthy (field args "totp_secret")); (repeat (split; [reflexivity|]));
    exact Hreport.
Qed.

Lemma login_request_and_report_witness :
  exists r doc,
    fst (CallTool (stub_Env (fun _ => ok (VObj [("status", VStr "error")])))
           "login_user" login_args initial_World) = inr r /\
    envelope_of r = Some doc /\
    field doc "success" = VBool false /\
    field doc "message" = VStr "Login successful".
Proof.
  destruct (login_request_and_report
              (stub_Env (fun _ => ok (VObj [("status", VStr "error")])))
              login_args initial_World eq_refl)
    as (rq & _ & _ & _ & _ & _ & _ & _ & _ & Hreport).
  destruct (Hreport (VObj [("status", VStr "error")]) eq_refl eq_refl)
    as (r & doc & Hrun & Henv & Hmessage & Hsuccess).
  exists r, doc. split; [exact Hrun|]. split; [exact Henv|].
  split; [exact (Hsuccess eq_refl)|exact Hmessage].
Defined.

(** ** What a call writes *)

Section SaveRules.

Variable E : Env.

Lemma saves_of_same_disk dir path {A} (m : M A) :
  keeps same_disk m -> saves_at dir path m.
Proof. intros Hm w. destruct (Hm w) as [Hfiles Hdirs]. split; now left. Qed.

Lemma saves_bind_after dir path {A B} (m : M A) (k : A -> M B) :
  keeps same_disk m -> (forall a, saves_at dir path (k a)) ->
  saves_at dir path (bind m k).
Proof.
  intros Hm Hk w. unfold bind. destruct (Hm w) as [Hfiles Hdirs].
  destruct (m w) as [[e|a] w1]; cbn [snd] in *; [split; now left|].
  rewrite <- Hfiles, <- Hdirs. apply Hk.
Qed.

Lemma envelope_keys cleanedData pagination :
  keys_of (envelope cleanedData pagination) = Some ["data"] \/
  keys_of (envelope cleanedData pagination) = Some ["data"; "pagination"].
Proof. unfold envelope. destruct (truthy pagination); [now right|now left]. Qed.

Lemma saveData_saves data d tn w :
  (files (snd (saveData E data (VStr d) (VStr tn) w)) = files w \/
   files (snd (saveData E data (VStr d) (VStr tn) w))
   = <[ saved_file_path E d tn := JSON_stringify data ]> (files w)) /\
  (dirs (snd (saveData E data (VStr d) (VStr tn) w)) = dirs w \/
   dirs (snd (saveData E data (VStr d) (VStr tn) w)) = {[ d ]} ∪ dirs w).
Proof.
  unfold saveData, try_catch, bind, existsSync, ret, writeFileSync.
  cbn [to_string mkdirSync]. fold (saved_file_path E d tn). fold (dir_exists w d).
  unfold ok, raise; cbv beta iota.
  destruct (dir_exists w d); cbn [negb]; cbv beta iota.
  - destruct (write_fault E (saved_file_path E d tn)); cbn [snd files dirs];
      split; auto.
  - destruct (mkdir_fault E d); cbv beta iota; [cbn [snd]; split; auto|].
    destruct (write_fault E (saved_file_path E d tn)); cbn [snd files dirs];
      split; auto.
Qed.

Lemma formatResponse_saves cleanedData options d tn :
  toolName options = VStr tn ->
  saveDir options = VStr d \/ truthy (saveDir options) = false ->
  saves_at d (saved_file_path E d tn) (formatResponse E cleanedData options).
Proof.
  intros Htool [Hdir|Hdir].
  - intros w. rewrite formatResponse_run. cbv zeta. rewrite Hdir, Htool.
    destruct (truthy (VStr d) && truthy (VStr tn)); [|split; now left].
    pose proof (saveData_saves (envelope cleanedData (pagination options)) d tn w)
      as [Hfiles Hdirs].
    destruct (saveData E _ (VStr d) (VStr tn) w) as [[e|savedPath] w1];
      cbn [snd] in *.
    + split; [|exact Hdirs]. destruct Hfiles as [Hsame|Hsaved]; [now left|].
      right. eexists. split; [apply envelope_keys|exact Hsaved].
    + split; [|exact Hdirs]. destruct Hfiles as [Hsame|Hsaved]; [now left|].
      right. eexists. split; [apply envelope_keys|exact Hsaved].
  - apply saves_of_same_disk. now apply formatResponse_same_disk.
Qed.

End SaveRules.

Ltac saves_tac Hdir :=
  repeat first
    [ progress cbv zeta
    | (apply formatResponse_saves; [reflexivity | cbn [saveDir]; exact Hdir])
    | (apply saves_bind_after; [ solve [keeps_tac] | intros ? ])
    | (apply saves_of_same_disk; solve [keeps_tac])
    | match goal with
      | |- saves_at _ _ (if ?b then _ else _) => destruct b
      end ].

Section Saves.

Variable E : Env.

Lemma spread_saveDir_cases sd d :
  sd = VStr d \/ truthy sd = false ->
  spread_saveDir sd = VStr d \/ truthy (spread_saveDir sd) = false.
Proof.
  intros [->|Hfalse]; unfold spread_saveDir.
  - destruct (truthy (VStr d)); [now left|now right].
  - rewrite Hfalse. now right.
Qed.

Lemma tool_saves args name m d :
  tool_call E args name m ->
  field args "save_dir" = VStr d \/ truthy (field args "save_dir") = false ->
  saves_at d (saved_file_path E d name) m.
Proof.
  intros Hcall Hdir. apply spread_saveDir_cases in Hdir.
  destruct Hcall;
    try (apply saves_of_same_disk; unfold_tools; solve [keeps_tac]);
    unfold_tools; saves_tac Hdir.
Qed.

End Saves.

(** X22: a call whose [save_dir] is a string (or absent) touches at most
    one file, the one at path.join(save_dir,
    '<tool>_<sanitized timestamp>.json') for the tool called: every other
    file is left as it was.  When the disk accepts a write there, that file
    is either left alone too or holds the pretty-printed JSON of an envelope
    ([data], or [data] and [pagination]).  No directory is removed. *)
Theorem one_file_per_call (E : Env) (name : string) (args : value) (w : World)
    (d : string) :
  field args "save_dir" = VStr d \/ truthy (field args "save_dir") = false ->
  let w' := snd (CallTool E name args w) in
  let path :=
    path_join E d (name ++ "_" ++ replace_colon_dot (now_ISO E) ++ ".json") in
  (forall p, p <> path -> files w' !! p = files w !! p) /\
  (write_fault E path = None ->
   files w' = files w \/
   exists doc,
     (keys_of doc = Some ["data"] \/ keys_of doc = Some ["data"; "pagination"]) /\
     files w' = <[ path := JSON_stringify doc ]> (files w)) /\
  dirs w ⊆ dirs w'.
Proof.
  intros Hdir. cbv zeta.
  enough (Hsaves :
    (files (snd (CallTool E name args w)) = files w \/
     exists doc,
       (keys_of doc = Some ["data"] \/ keys_of doc = Some ["data"; "pagination"]) /\
       files (snd (CallTool E name args w))
       = <[ path_join E d (name ++ "_" ++ replace_colon_dot (now_ISO E) ++ ".json")
            := JSON_stringify doc ]> (files w)) /\
    (dirs (snd (CallTool E name args w)) = dirs w \/
     dirs (snd (CallTool E name args w)) = {[ d ]} ∪ dirs w)).
  { destruct Hsaves as [Hfiles Hdirs]. split; [|split].
    - intros p Hp. destruct Hfiles as [->|(doc & _ & ->)]; [reflexivity|].
      now apply lookup_insert_ne.
    - intros _. exact Hfiles.
    - destruct Hdirs as [->| ->]; [reflexivity|apply union_subseteq_r]. }
  rewrite CallTool_run.
  destruct (truthy args) eqn:Hargs; [|split; now left].
  rewrite snd_wrap_outcome.
  destruct (tool_cases E name args) as [Hname|[m Hcall]].
  - rewrite dispatch_unknown by exact Hname. split; now left.
  - rewrite (dispatch_tool_call E name args m w Hargs Hcall).
    apply (tool_saves E args name m d Hcall Hdir).
Qed.

Lemma one_file_per_call_witness :
  exists doc,
    files (snd (CallTool three_tweets_Env "search_tweets" saving_args
                  initial_World))
    = {[ "out/search_tweets_2024-05-01T12-30-45-123Z.json" := JSON_stringify doc ]}.
Proof.
  destruct (one_file_per_call three_tweets_Env "search_tweets" saving_args
              initial_World "out" (or_introl eq_refl)) as (_ & Hfiles & _).
  cbv zeta in Hfiles.
  destruct (Hfiles eq_refl) as [Hsame|(doc & _ & Hsaved)].
  - exfalso.
    assert (Hlook : files (snd (CallTool three_tweets_Env "search_tweets"
                                  saving_args initial_World))
                    !! "out/search_tweets_2024-05-01T12-30-45-123Z.json" = None)
      by (rewrite Hsame; apply lookup_empty).
    vm_compute in Hlook. discriminate.
  - exists doc. rewrite Hsaved. cbn [files initial_World]. now rewrite insert_empty.
Defined.
